(** * XCTestResultsInterpreter: count normalisation, detail extraction and
      report rendering of [xcresult_gui_v6.py], embedded in Rocq.

    The Python program reads the JSON summary printed by [xcresulttool],
    sniffs the (passed, failed, skipped) counts out of it, optionally lists
    the failed tests, and renders one HTML document.  The embedding follows
    the source function by function:

    - a JSON tree as [json.loads] builds it is the inductive [json]; a Python
      [dict] is an association list in insertion order, a [str] is a
      [string] whose elements are its characters (those of code point below
      256: the functions treat all characters alike, except [strip]);
    - the builtins the code calls on values of unknown type ([int] on a
      [str], [str] on a value that is no [str]) are fields of the class
      [PyBuiltins]: the theorems hold for every implementation of them;
    - a [try: ... except Exception: pass] block is an [option]; a function
      that can raise is a [result]; the orchestration threads a trace of the
      files it writes and gets the outside world through the class [World]. *)

From Stdlib Require Import ZArith List String Ascii Bool Lia.
From Stdlib Require Import Floats.SpecFloat.
From Stdlib Require Import DecimalString DecimalFacts DecimalZ.
Import ListNotations.

#[local] Set Warnings "-register-all".

Local Open Scope list_scope.
Local Open Scope string_scope.
Local Open Scope Z_scope.

(** ** The document tree *)

(** What [json.loads] returns: [None], [bool], [int], [float], [str], [list]
    and [dict].  A [float] is an IEEE-754 value ([json.loads] also accepts
    [NaN] and [Infinity]). *)
Inductive json : Type :=
| JNull
| JBool (b : bool)
| JInt (n : Z)
| JFloat (x : spec_float)
| JStr (s : string)
| JList (items : list json)
| JDict (entries : list (string * json)).

(** A Python [dict] keyed by strings, in insertion order. *)
Definition pydict : Type := list (string * json).

(** [k in d] *)
Fixpoint has_key (k : string) (d : pydict) : bool :=
  match d with
  | [] => false
  | (k', _) :: d' => if String.eqb k k' then true else has_key k d'
  end.

(** [d.get(k)], [None] of Python being [None] here. *)
Fixpoint lookup (k : string) (d : pydict) : option json :=
  match d with
  | [] => None
  | (k', v) :: d' => if String.eqb k k' then Some v else lookup k d'
  end.

(** [d.get(k, default)] *)
Definition get_default (d : pydict) (k : string) (default : json) : json :=
  match lookup k d with
  | Some v => v
  | None => default
  end.

(** [d.get(k)], with Python's [None] as [JNull]. *)
Definition get (d : pydict) (k : string) : json := get_default d k JNull.

(** [bool(v)]: the truth value Python gives a parsed JSON value. *)
Definition truthy (v : json) : bool :=
  match v with
  | JNull => false
  | JBool b => b
  | JInt n => negb (n =? 0)
  | JFloat (S754_zero _) => false
  | JFloat _ => true
  | JStr s => negb (String.eqb s "")
  | JList [] => false
  | JList _ => true
  | JDict [] => false
  | JDict _ => true
  end.

(** [a or b] *)
Definition py_or (a b : json) : json := if truthy a then a else b.

(** [int(x)] on a float: truncation towards zero; infinities and NaN raise. *)
Definition int_of_float (x : spec_float) : option Z :=
  match x with
  | S754_zero _ => Some 0
  | S754_infinity _ => None
  | S754_nan => None
  | S754_finite s m e =>
      let a := Z.shiftl (Z.pos m) e in
      Some (if s then - a else a)
  end.

(** The builtins whose result on arbitrary text is Python's business:
    [int(s)] on a [str] ([None] when it raises [ValueError]) and [str(v)] on
    a value that is not a [str] (the [repr] of floats, lists and dicts). *)
Class PyBuiltins : Type := {
  int_of_str : string -> option Z;
  str_of_nonstr : json -> string
}.

Section Builtins.
Context {py : PyBuiltins}.

(** [int(v)]; [None] when it raises ([TypeError], [ValueError] or
    [OverflowError], all caught by [except Exception]). *)
Definition py_int (v : json) : option Z :=
  match v with
  | JNull => None
  | JBool b => Some (if b then 1 else 0)
  | JInt n => Some n
  | JFloat x => int_of_float x
  | JStr s => int_of_str s
  | JList _ => None
  | JDict _ => None
  end.

(** [str(v)], which is what an f-string field [{v}] inserts. *)
Definition py_str (v : json) : string :=
  match v with
  | JStr s => s
  | _ => str_of_nonstr v
  end.

End Builtins.

(** ** [deep_iter] *)

(** Every dictionary of a nested dict/list structure, the dictionary itself
    before the dictionaries below it, values in insertion order. *)
Fixpoint deep_iter (obj : json) : list json :=
  match obj with
  | JDict entries => obj :: flat_map (fun kv => deep_iter (snd kv)) entries
  | JList items => flat_map deep_iter items
  | _ => []
  end.

(** ** [extract_counts] *)

Section Counts.
Context {py : PyBuiltins}.

(** The local function [unwrap]. *)
Definition unwrap (v : json) : json :=
  match v with
  | JDict d => if has_key "_value" d then get d "_value" else v
  | _ => v
  end.

(** [int(unwrap(v) or 0)], [None] when [int] raises. *)
Definition count_of (v : json) : option Z :=
  py_int (py_or (unwrap v) (JInt 0)).

(** The body of a [try] block that reads three counts: [None] when one of
    the three conversions raises. *)
Definition read3 (a b c : json) : option (Z * Z * Z) :=
  match count_of a with
  | None => None
  | Some x =>
      match count_of b with
      | None => None
      | Some y =>
          match count_of c with
          | None => None
          | Some z => Some (x, y, z)
          end
      end
  end.

(** The four blocks that read passed, failed and skipped directly: the test
    on the key set, then the [try] block. [None]: the block did not return. *)
Definition direct_pattern (kp kf ks : string) (d : pydict) : option (Z * Z * Z) :=
  if has_key kp d && has_key kf d
  then read3 (get_default d kp (JInt 0)) (get_default d kf (JInt 0))
             (get_default d ks (JInt 0))
  else None.

(** Pattern 0: [passedTests] / [failedTests] / [skippedTests]. *)
Definition pattern_summary : pydict -> option (Z * Z * Z) :=
  direct_pattern "passedTests" "failedTests" "skippedTests".

(** [totalTestCount] with [failedTests] or [testsFailedCount]. *)
Definition pattern_total (d : pydict) : option (Z * Z * Z) :=
  if has_key "totalTestCount" d
     && (has_key "failedTests" d || has_key "testsFailedCount" d)
  then
    match read3 (get_default d "totalTestCount" (JInt 0))
                (get_default d "failedTests"
                   (get_default d "testsFailedCount" (JInt 0)))
                (get_default d "skippedTests"
                   (get_default d "testsSkippedCount" (JInt 0))) with
    | Some (total, f, s) => Some (Z.max (total - f - s) 0, f, s)
    | None => None
    end
  else None.

(** Pattern A: [passed] / [failed] / [skipped]. *)
Definition pattern_A : pydict -> option (Z * Z * Z) :=
  direct_pattern "passed" "failed" "skipped".

(** Pattern B: [testsPassedCount] / [testsFailedCount] / [testsSkippedCount]. *)
Definition pattern_B : pydict -> option (Z * Z * Z) :=
  direct_pattern "testsPassedCount" "testsFailedCount" "testsSkippedCount".

(** Alternate: [passedCount] / [failedCount] / [skippedCount]. *)
Definition pattern_alt : pydict -> option (Z * Z * Z) :=
  direct_pattern "passedCount" "failedCount" "skippedCount".

(** [a] if it returned, else [b]. *)
Definition or_else {A : Type} (a b : option A) : option A :=
  match a with
  | Some _ => a
  | None => b
  end.

(** One turn of the loop body: the five blocks in their order; a node that
    is no dictionary is skipped. *)
Definition node_counts (node : json) : option (Z * Z * Z) :=
  match node with
  | JDict d =>
      or_else (pattern_summary d)
        (or_else (pattern_total d)
           (or_else (pattern_A d)
              (or_else (pattern_B d) (pattern_alt d))))
  | _ => None
  end.

(** The loop over the nodes: the first block that returns decides; the
    fall-through is [return 0, 0, 0]. *)
Fixpoint first_counts (nodes : list json) : Z * Z * Z :=
  match nodes with
  | [] => (0, 0, 0)
  | node :: rest =>
      match node_counts node with
      | Some r => r
      | None => first_counts rest
      end
  end.

Definition extract_counts (data : json) : Z * Z * Z :=
  first_counts (deep_iter data).

End Counts.

(** ** The [str] methods the program calls *)

(** [sub in s] *)
Fixpoint contains (sub s : string) : bool :=
  if prefix sub s then true
  else match s with
       | EmptyString => false
       | String _ s' => contains sub s'
       end.

(** [s.endswith(suffix)] *)
Fixpoint endswith (s suffix : string) : bool :=
  if String.eqb s suffix then true
  else match s with
       | EmptyString => false
       | String _ s' => endswith s' suffix
       end.

(** [s.split(sep)] for a separator of one character: never empty. *)
Fixpoint split (sep : ascii) (s : string) : list string :=
  match s with
  | EmptyString => [EmptyString]
  | String c s' =>
      match split sep s' with
      | [] => [EmptyString]
      | seg :: segs =>
          if Ascii.eqb c sep then EmptyString :: seg :: segs
          else String c seg :: segs
      end
  end.

(** [parts[-1]] *)
Definition last_part (parts : list string) : string := last parts EmptyString.

(** [parts[-2]], for a list of two parts or more. *)
Definition second_to_last (parts : list string) : string :=
  nth (List.length parts - 2) parts EmptyString.

(** The characters [str.isspace] accepts, among the 8-bit ones. *)
Definition is_space (c : ascii) : bool :=
  let n := nat_of_ascii c in
  ((9 <=? n)%nat && (n <=? 13)%nat) || ((28 <=? n)%nat && (n <=? 32)%nat)
  || (n =? 133)%nat || (n =? 160)%nat.

Fixpoint lstrip (s : string) : string :=
  match s with
  | EmptyString => EmptyString
  | String c s' => if is_space c then lstrip s' else s
  end.

Fixpoint rstrip (s : string) : string :=
  match s with
  | EmptyString => EmptyString
  | String c s' =>
      match rstrip s' with
      | EmptyString => if is_space c then EmptyString else String c EmptyString
      | r => String c r
      end
  end.

(** [s.strip()] *)
Definition strip (s : string) : string := rstrip (lstrip s).

(** [bool(s)] for a [str]. *)
Definition nonempty (s : string) : bool := negb (String.eqb s EmptyString).

(** [str(n)] for an [int]: decimal digits, [-] before a negative number. *)
Definition str_of_int (n : Z) : string := NilZero.string_of_int (Z.to_int n).

(** ** Exceptions *)

(** The exceptions that leave a function of the program: the [RuntimeError]s
    it raises itself, with their text, and the kinds raised by the
    operations it does not guard. *)
Inductive exn : Type :=
| RuntimeError (msg : string)
| TypeError
| ValueError
| OSError (msg : string).

Inductive result (A : Type) : Type :=
| Ok (a : A)
| Raise (e : exn).
Arguments Ok {A} a.
Arguments Raise {A} e.

Definition bind {A B : Type} (r : result A) (k : A -> result B) : result B :=
  match r with
  | Ok a => k a
  | Raise e => Raise e
  end.

Notation "x <- r ;; k" := (bind r (fun x => k))
  (at level 61, r at next level, right associativity).

(** What the program does to the outside world, in the order it does it: a
    line appended to the log, a command run, the text written to a file (the
    artifact, or the JSON beside it), the export of the attachments.  Of a
    log line only the head is kept: [_log] swallows its own failures and no
    property below reads the log. *)
Inductive event : Type :=
| EvLog (tag : string)
| EvRun (cmd : list string)
| EvWrite (path content : string)
| EvExport (xcresult_path out_html_path : string).

(** A computation that leaves a trace and returns or raises. *)
Definition io (A : Type) : Type := (list event * result A)%type.

Definition io_ret {A : Type} (a : A) : io A := ([], Ok a).

Definition io_raise {A : Type} (e : exn) : io A := ([], Raise e).

Definition io_bind {A B : Type} (m : io A) (k : A -> io B) : io B :=
  match m with
  | (t, Ok a) => let (t', r) := k a in ((t ++ t')%list, r)
  | (t, Raise e) => (t, Raise e)
  end.

Definition emit (ev : event) : io unit := ([ev], Ok tt).

Definition lift {A : Type} (r : result A) : io A := ([], r).

(** [if c: m] *)
Definition when (c : bool) (m : io unit) : io unit :=
  if c then m else io_ret tt.

Notation "x <~ m ;; k" := (io_bind m (fun x => k))
  (at level 61, m at next level, right associativity).
Notation "m ;;; k" := (io_bind m (fun _ => k))
  (at level 61, right associativity).

(** ** [_extract_details_from_summary] *)

Section Details.
Context {py : PyBuiltins}.

(** [v[:n]]: a [str] and a [list] can be sliced; the other values that are
    true ([int], [float], [bool], [dict]) raise ([TypeError]; the model does
    not tell apart the [KeyError] a [dict] raises from Python 3.12 on). *)
Definition slice_to (n : nat) (v : json) : result json :=
  match v with
  | JStr s => Ok (JStr (substring 0 n s))
  | JList items => Ok (JList (firstn n items))
  | _ => Raise TypeError
  end.

(** The suite read off the test identifier: empty unless the identifier is
    true and its text has a slash. *)
Definition suite_of (test_id target : json) : json :=
  if truthy test_id && contains "/" (py_str test_id)
  then
    let parts := split "/" (py_str test_id) in
    if (2 <=? List.length parts)%nat then JStr (second_to_last parts) else target
  else JStr EmptyString.

(** The body of the loop for one entry of [testFailures] that is a [dict]:
    the record appended to [details], if any. *)
Definition detail_of (failure : pydict) : result (option pydict) :=
  let test_name :=
    py_or (py_or (get failure "testName") (get failure "testIdentifierString"))
          (JStr EmptyString) in
  let test_id :=
    py_or (py_or (get failure "testIdentifierString")
                 (get failure "testIdentifierURL"))
          (JStr EmptyString) in
  let target := py_or (get failure "targetName") (JStr EmptyString) in
  let failure_text := py_or (get failure "failureText") (JStr EmptyString) in
  if truthy test_name
  then
    let suite := suite_of test_id target in
    excerpt <- (if truthy failure_text then slice_to 100 failure_text
                else Ok (JStr EmptyString)) ;;
    Ok (Some [ ("name", test_name);
               ("status", JStr "Failed");
               ("suite", py_or suite target);
               ("failure", excerpt);
               ("testIdentifierString", py_or test_id (JStr EmptyString)) ])
  else Ok None.

(** The loop over [data["testFailures"]]: entries that are no [dict] are
    skipped; an exception ends the loop. *)
Fixpoint collect_details (failures : list json) : result (list pydict) :=
  match failures with
  | [] => Ok []
  | JDict failure :: rest =>
      o <- detail_of failure ;;
      ds <- collect_details rest ;;
      Ok (match o with
          | Some d => d :: ds
          | None => ds
          end)
  | _ :: rest => collect_details rest
  end.

(** [details if details else None] *)
Definition none_if_empty (details : list pydict) : option (list pydict) :=
  match details with
  | [] => None
  | _ => Some details
  end.

(** Returns the list of records, or [None] if nothing was found. *)
Definition _extract_details_from_summary (data : json)
  : io (option (list pydict)) :=
  match data with
  | JDict d =>
      emit (EvLog "[details] Extracting from summary JSON only (testFailures)") ;;;
      match (if has_key "testFailures" d then get d "testFailures" else JNull) with
      | JList failures =>
          details <~ lift (collect_details failures) ;;
          emit (EvLog "[details] Found") ;;;
          io_ret (none_if_empty details)
      | _ =>
          emit (EvLog "[details] No testFailures in summary (or not a list); detailed list will be empty") ;;;
          io_ret (none_if_empty [])
      end
  | _ => io_ret None
  end.

End Details.

(** ** [build_html] *)

(** The double quote, which the HTML below is full of. *)
Definition dq : string := String (ascii_of_nat 34) EmptyString.

(** The header and the summary card: the first f-string of [build_html]. *)
Definition html_head (title total passed failed skipped source_name : string) : string :=
  "<!doctype html>
<html lang=" ++ dq ++ "en" ++ dq ++ ">
<head>
  <meta charset=" ++ dq ++ "utf-8" ++ dq ++ " />
  <title>" ++ title ++ "</title>
  <meta name=" ++ dq ++ "viewport" ++ dq ++ " content=" ++ dq ++ "width=device-width, initial-scale=1" ++ dq ++ " />
  <meta name=" ++ dq ++ "color-scheme" ++ dq ++ " content=" ++ dq ++ "dark" ++ dq ++ " />
  <style>
    body { font-family: -apple-system, BlinkMacSystemFont, 'Segoe UI', Roboto,
                Arial, sans-serif; margin: 32px; background: #1a1a1a; color: #e0e0e0; }
    .card { border: 1px solid #3a3a3a; border-radius: 12px; padding: 20px;
             max-width: 720px; box-shadow: 0 4px 12px rgba(0,0,0,0.3); background: #2b2b2b; }
    h1, h2 { margin: 0 0 8px 0; font-size: 22px; color: #fff; }
    h2 { font-size: 18px; margin-top: 4px; }
    .meta { color: #9ca3af; margin-bottom: 16px; font-size: 14px; }
    .grid { display: grid; grid-template-columns: repeat(4, 1fr); gap: 10px;
             margin: 16px 0 12px; }
    .kpi { border: 1px solid #3a3a3a; border-radius: 10px; padding: 12px;
            text-align: center; background: #1f1f1f; }
    .kpi .label { color: #9ca3af; font-size: 12px; }
    .kpi .value { font-size: 20px; margin-top: 6px; color: #fff; }
    .small { color: #9ca3af; font-size: 12px; margin-top: 10px; }
    canvas { max-width: 520px; margin: auto; }
    table { color: #e0e0e0; }
    th { color: #d1d5db; }
    @media print {
      body { background: #fff !important; color: #111 !important; -webkit-print-color-adjust: exact; print-color-adjust: exact; }
      .card { background: #fff !important; border-color: #333 !important; box-shadow: none !important; color: #111 !important; }
      .card * { color: #111 !important; }
      h1, h2 { color: #111 !important; }
      .meta, .small, .kpi .label { color: #444 !important; }
      .kpi { background: #f5f5f5 !important; border-color: #ccc !important; color: #111 !important; }
      .kpi .value { color: #111 !important; }
      table, th, td { color: #111 !important; border-color: #333 !important; }
      td { border-bottom-color: #ddd !important; }
      body > p { color: #444 !important; }
    }
  </style>
</head>
<body>
  <div class=" ++ dq ++ "card" ++ dq ++ ">
    <h1>" ++ title ++ "</h1>
    <div class=" ++ dq ++ "meta" ++ dq ++ ">This report is intended to be a quick overview of the test results. For detailed test results, please view the original xcresult bundle.</div>
    <div class=" ++ dq ++ "grid" ++ dq ++ ">
      <div class=" ++ dq ++ "kpi" ++ dq ++ "><div class=" ++ dq ++ "label" ++ dq ++ ">Total</div><div class=" ++ dq ++ "value" ++ dq ++ ">" ++ total ++ "</div></div>
      <div class=" ++ dq ++ "kpi" ++ dq ++ "><div class=" ++ dq ++ "label" ++ dq ++ ">Passed</div><div class=" ++ dq ++ "value" ++ dq ++ ">" ++ passed ++ "</div></div>
      <div class=" ++ dq ++ "kpi" ++ dq ++ "><div class=" ++ dq ++ "label" ++ dq ++ ">Failed</div><div class=" ++ dq ++ "value" ++ dq ++ ">" ++ failed ++ "</div></div>
      <div class=" ++ dq ++ "kpi" ++ dq ++ "><div class=" ++ dq ++ "label" ++ dq ++ ">Skipped</div><div class=" ++ dq ++ "value" ++ dq ++ ">" ++ skipped ++ "</div></div>
    </div>
    <canvas id=" ++ dq ++ "pie" ++ dq ++ " width=" ++ dq ++ "520" ++ dq ++ " height=" ++ dq ++ "320" ++ dq ++ "></canvas>
    <div class=" ++ dq ++ "small" ++ dq ++ ">Source: " ++ source_name ++ "</div>
  </div>".

(** The details card down to the third column heading. *)
Definition details_open (meta_note : string) : string :=
  "
  <div class=" ++ dq ++ "card" ++ dq ++ " style=" ++ dq ++ "margin-top:24px;" ++ dq ++ ">
    <h2>Test details</h2>
    <p class=" ++ dq ++ "meta" ++ dq ++ ">" ++ meta_note ++ "</p>
    <table style=" ++ dq ++ "width:100%; border-collapse:collapse; font-size:13px;" ++ dq ++ ">
      <thead>
        <tr>
          <th style=" ++ dq ++ "text-align:left; border-bottom:1px solid #404040; padding:6px;" ++ dq ++ ">Test</th>
          <th style=" ++ dq ++ "text-align:left; border-bottom:1px solid #404040; padding:6px;" ++ dq ++ ">Suite</th>
          <th style=" ++ dq ++ "text-align:left; border-bottom:1px solid #404040; padding:6px;" ++ dq ++ ">Status</th>".

(** The heading of the failure column. *)
Definition th_failure : string :=
  "
          <th style=" ++ dq ++ "text-align:left; border-bottom:1px solid #404040; padding:6px;" ++ dq ++ ">Failure</th>".

Definition thead_close : string :=
  "
        </tr>
      </thead>
      <tbody>
".

(** The row of one test: name, suite and status cells. *)
Definition row_cells (name suite status_color status : string) : string :=
  "        <tr>
          <td style=" ++ dq ++ "border-bottom:1px solid #404040; padding:4px 6px;" ++ dq ++ ">" ++ name ++ "</td>
          <td style=" ++ dq ++ "border-bottom:1px solid #404040; padding:4px 6px;" ++ dq ++ ">" ++ suite ++ "</td>
          <td style=" ++ dq ++ "border-bottom:1px solid #404040; padding:4px 6px; color:" ++ status_color ++ "; font-weight:bold;" ++ dq ++ ">" ++ status ++ "</td>".

(** The failure cell of a row. *)
Definition row_failure (failure : string) : string :=
  "
          <td style=" ++ dq ++ "border-bottom:1px solid #404040; padding:4px 6px; font-size:12px; color:#9ca3af;" ++ dq ++ ">" ++ failure ++ "</td>".

Definition row_close : string :=
  "
        </tr>
".

(** The row that holds the screenshots of a test. *)
Definition shots_open (colspan : string) : string :=
  "        <tr>
          <td colspan=" ++ dq ++ colspan ++ dq ++ " style=" ++ dq ++ "border-bottom:1px solid #404040; padding:8px 6px; background:#1f1f1f;" ++ dq ++ ">
            <div style=" ++ dq ++ "font-size:11px; color:#9ca3af; margin-bottom:4px;" ++ dq ++ ">Screenshots</div>
            <div style=" ++ dq ++ "display:flex; flex-wrap:wrap; gap:8px;" ++ dq ++ ">".

Definition img_tag (src fn : string) : string :=
  "<img src=" ++ dq ++ src ++ dq ++ " alt=" ++ dq ++ fn ++ dq ++ " style=" ++ dq ++ "max-width:280px; max-height:200px; border:1px solid #404040; border-radius:4px;" ++ dq ++ " />".

Definition more_tag (more : string) : string :=
  "<span style=" ++ dq ++ "font-size:12px; color:#9ca3af;" ++ dq ++ ">+" ++ more ++ " more</span>".

Definition shots_close : string :=
  "</div>
          </td>
        </tr>
".

Definition details_close : string :=
  "      </tbody>
    </table>
  </div>
".

(** The Chart.js script and the end of the document: the last f-string. *)
Definition html_tail (passed failed skipped : string) : string :=
  "
  <script src=" ++ dq ++ "https://cdn.jsdelivr.net/npm/chart.js" ++ dq ++ "></script>
  <script>
    Chart.defaults.color = '#d1d5db';
    Chart.defaults.borderColor = '#404040';
    const ctx = document.getElementById('pie');
    new Chart(ctx, {
      type: 'pie',
      data: {
        labels: ['Passed', 'Failed', 'Skipped'],
        datasets: [{ data: [" ++ passed ++ ", " ++ failed ++ ", " ++ skipped ++ "],
          backgroundColor: ['#22c55e', '#ef4444', '#f59e0b'],
          borderColor: '#2b2b2b',
          borderWidth: 2 }]
      },
      options: {
        responsive: true,
        plugins: { legend: { position: 'bottom', labels: { color: '#d1d5db' } }, title: { display: false } }
      }
    });
  </script>
  <hr style=" ++ dq ++ "border: none; border-top: 1px solid #404040; margin: 24px 0 0 0;" ++ dq ++ " />
  <br /><br /><br />
  <p style=" ++ dq ++ "color: #6b7280; font-size: 12px; margin: 0;" ++ dq ++ ">This was built with passion</p>
</body>
</html>
".

(** The screenshot index: test identifier to exported file names, in
    insertion order. *)
Definition smap : Type := list (string * list string).

Fixpoint smap_get (k : string) (m : smap) : option (list string) :=
  match m with
  | [] => None
  | (k', v) :: m' => if String.eqb k k' then Some v else smap_get k m'
  end.

(** The test of the fallback loop on one key. *)
Definition key_matches (test_id key : string) : bool :=
  contains test_id key
  || endswith key test_id
  || (nonempty test_id
      && String.eqb (last_part (split "/" key)) (last_part (split "/" test_id))).

(** [for key in screenshot_map: if ...: imgs = screenshot_map[key]; break],
    over the keys still to visit; [imgs] is what it was when no key matches. *)
Fixpoint fallback_screens (m : smap) (test_id : string)
    (keys : list string) (imgs : option (list string)) : option (list string) :=
  match keys with
  | [] => imgs
  | key :: keys' =>
      if key_matches test_id key then smap_get key m
      else fallback_screens m test_id keys' imgs
  end.

(** [imgs] after the lookup and the fallback loop, for a test identifier
    that is a [str]. [None] and [Some []] are both false. *)
Definition select_screens (m : smap) (test_id : string) : option (list string) :=
  match smap_get test_id m with
  | Some (fn :: fns) => Some (fn :: fns)
  | imgs => fallback_screens m test_id (map fst m) imgs
  end.

(** The same for whatever the record holds as its identifier: a [list] or
    a [dict] cannot be hashed by [get]; another value that is no [str] is
    no key of the index and makes [test_id in key] raise on the first key. *)
Definition find_screens (m : smap) (test_id : json) : result (option (list string)) :=
  match test_id with
  | JStr tid => Ok (select_screens m tid)
  | JList _ => Raise TypeError
  | JDict _ => Raise TypeError
  | _ => match m with
         | [] => Ok None
         | _ => Raise TypeError
         end
  end.

Definition str_of_nat (n : nat) : string := str_of_int (Z.of_nat n).

Section Render.
Context {py : PyBuiltins}.

(** The color of the status cell. *)
Definition status_color (status : json) : string :=
  match status with
  | JStr s =>
      if String.eqb s "Failed" then "#ef4444"
      else if String.eqb s "Passed" then "#22c55e"
      else "#f59e0b"
  | _ => "#f59e0b"
  end.

(** The screenshot strip appended after a row, for [imgs] that is true. *)
Definition shots_row (has_failures : bool) (dir : string) (imgs : list string) : string :=
  shots_open (str_of_nat (if has_failures then 4 else 3))
  ++ String.concat EmptyString
       (map (fun fn => img_tag (dir ++ "/" ++ fn) fn) (firstn 10 imgs))
  ++ (if (10 <? List.length imgs)%nat
      then more_tag (str_of_nat (List.length imgs - 10)) else EmptyString)
  ++ shots_close.

(** The table row of one record: the three cells, and the failure cell when
    the table has that column. *)
Definition item_row (has_failures : bool) (item : pydict) : string :=
  let name := get_default item "name" (JStr EmptyString) in
  let suite := get_default item "suite" (JStr EmptyString) in
  let status := get_default item "status" (JStr EmptyString) in
  let failure := get_default item "failure" (JStr EmptyString) in
  row_cells (py_str name) (py_str suite) (status_color status) (py_str status)
  ++ (if has_failures then row_failure (py_str failure) else EmptyString)
  ++ row_close.

(** What one turn of the loop over [details] appends to [html]: the row,
    and the screenshot row when [imgs] is true. [shots] is the directory and
    the index when [has_screenshots] holds. *)
Definition render_item (has_failures : bool) (shots : option (string * smap))
    (item : pydict) : result string :=
  let test_id := get_default item "testIdentifierString" (JStr EmptyString) in
  match shots with
  | None => Ok (item_row has_failures item)
  | Some (dir, m) =>
      imgs <- find_screens m test_id ;;
      Ok (item_row has_failures item
          ++ match imgs with
             | Some (fn :: fns) => shots_row has_failures dir (fn :: fns)
             | _ => EmptyString
             end)
  end.

(** The loop over [details]. *)
Fixpoint render_items (has_failures : bool) (shots : option (string * smap))
    (details : list pydict) : result string :=
  match details with
  | [] => Ok EmptyString
  | item :: rest =>
      row <- render_item has_failures shots item ;;
      rows <- render_items has_failures shots rest ;;
      Ok (row ++ rows)
  end.

(** [screenshot_dir_relative and screenshot_map], when it is true. *)
Definition active_shots (screenshot_dir_relative : option string)
    (screenshot_map : option smap) : option (string * smap) :=
  match screenshot_dir_relative, screenshot_map with
  | Some dir, Some (e :: m) =>
      if nonempty dir then Some (dir, e :: m) else None
  | _, _ => None
  end.

(** The optional details section, for [details] that is true. *)
Definition details_section (details : list pydict)
    (screenshot_dir_relative : option string) (screenshot_map : option smap)
  : result string :=
  let shots := active_shots screenshot_dir_relative screenshot_map in
  let has_failures := existsb (fun item => truthy (get item "failure")) details in
  let meta_note :=
    match shots with
    | Some _ => "Screenshots included below when available."
    | None => "Best-effort list of tests discovered in the xcresult summary. Screenshots and other rich attachments are not included."
    end in
  rows <- render_items has_failures shots details ;;
  Ok (details_open meta_note
      ++ (if has_failures then th_failure else EmptyString)
      ++ thead_close ++ rows ++ details_close).

Definition build_html (passed failed skipped : Z) (source_name title : string)
    (details : option (list pydict))
    (screenshot_dir_relative : option string) (screenshot_map : option smap)
  : result string :=
  let total := passed + failed + skipped in
  let head := html_head title (str_of_int total) (str_of_int passed)
                (str_of_int failed) (str_of_int skipped) source_name in
  section <- match details with
             | Some (item :: rest) =>
                 details_section (item :: rest) screenshot_dir_relative screenshot_map
             | _ => Ok EmptyString
             end ;;
  Ok (head ++ section
      ++ html_tail (str_of_int passed) (str_of_int failed) (str_of_int skipped)).

End Render.

(** ** The orchestration: [run_xcresulttool] and [_process_xcresult_to_html] *)

(** What [subprocess.run(cmd, capture_output=True, text=True, check=False)]
    does: it completes with a return code and the two captured texts, or it
    raises [FileNotFoundError] (with the text of the exception), or something
    else. *)
Inductive run_result : Type :=
| Completed (returncode : Z) (stdout stderr : string)
| FileNotFound (text : string)
| RunRaised (e : exn).

(** The outside world: the file system, the subprocesses and the library
    calls whose result the program only passes on. *)
Class World : Type := {
  (** [shutil.which("xcrun")] *)
  which_xcrun : option string;
  (** [os.path.abspath] *)
  abspath : string -> string;
  subprocess_run : list string -> run_result;
  (** [json.loads]: the tree, or the text of the exception. *)
  json_loads : string -> json + string;
  (** [str(Path(p).with_suffix(".json"))]: [ValueError] on an empty name. *)
  json_path_of : string -> result string;
  (** [Path(p).name] *)
  path_name : string -> string;
  (** Writing [content] to [path]: [None], or the text of the exception. *)
  write_file : string -> string -> option string;
  (** [_export_attachments(xcresult_path, out_html_path, log_path)], which
      runs [xcresulttool export attachments] and reads the manifest it
      leaves: the directory and the index, as its annotation types them. *)
  _export_attachments : string -> string -> result (option string * option smap)
}.

Section Process.
Context {py : PyBuiltins} {world : World}.

(** The three command lines, in the order they are tried. *)
Definition candidates (xcrun_path xcresult_path : string) : list (list string) :=
  [ [xcrun_path; "xcresulttool"; "get"; "test-results"; "summary"; "--path";
     xcresult_path; "--compact"];
    [xcrun_path; "xcresulttool"; "get"; "--legacy"; "--path"; xcresult_path;
     "--format"; "json"];
    [xcrun_path; "xcresulttool"; "get"; "--path"; xcresult_path; "--format";
     "json"] ].

(** The loop of [run_xcresulttool] over the candidates still to try. *)
Fixpoint try_candidates (cmds : list (list string)) (last_stderr last_cmd : string)
  : io (option string * string * string) :=
  match cmds with
  | [] => io_ret (None, last_stderr, last_cmd)
  | cmd :: rest =>
      let last_cmd := String.concat " " cmd in
      emit (EvRun cmd) ;;;
      match subprocess_run cmd with
      | FileNotFound text =>
          io_ret (None, "Could not execute " ++ hd EmptyString cmd ++ ": " ++ text,
                  last_cmd)
      | RunRaised e => io_raise e
      | Completed returncode stdout stderr =>
          if (returncode =? 0) && nonempty (strip stdout)
          then io_ret (Some stdout, stderr, last_cmd)
          else try_candidates rest
                 (if nonempty (strip stderr) then stderr else last_stderr)
                 last_cmd
      end
  end.

(** [shutil.which("xcrun") or "/usr/bin/xcrun"] *)
Definition xcrun_path : string :=
  match which_xcrun with
  | Some p => if nonempty p then p else "/usr/bin/xcrun"
  | None => "/usr/bin/xcrun"
  end.

(** Returns [(stdout_or_none, stderr_text, command_string)]. *)
Definition run_xcresulttool (xcresult_path : string)
  : io (option string * string * string) :=
  let xcresult_path := abspath xcresult_path in
  try_candidates (candidates xcrun_path xcresult_path) EmptyString EmptyString.

(** The text of the [RuntimeError] raised when there is no summary. *)
Definition no_summary_message (err_text cmd_text : string) : string :=
  let details := EmptyString in
  let details :=
    if nonempty cmd_text
    then details ++ "Command: " ++ cmd_text ++ "

"
    else details in
  let details :=
    if nonempty (strip err_text)
    then details ++ "Error output:
" ++ strip err_text ++ "
"
    else details ++ "No error output captured." in
  "Failed to extract summary from xcresult.

" ++ details.

(** [bool(json_str)] for the optional text. *)
Definition has_text (json_str : option string) : bool :=
  match json_str with
  | Some s => nonempty s
  | None => false
  end.

(** The detailed path: the details and, when there are some and screenshots
    are asked for, the exported attachments. *)
Definition detailed_path (data : json) (xcresult_path out_html_path : string)
    (include_details include_screenshots : bool)
  : io (option (list pydict) * option string * option smap) :=
  if include_details
  then
    details <~ _extract_details_from_summary data ;;
    match details with
    | Some (item :: rest) =>
        if include_screenshots
        then
          emit (EvExport xcresult_path out_html_path) ;;;
          exported <~ lift (_export_attachments xcresult_path out_html_path) ;;
          let (screenshot_dir_relative, screenshot_map) :=
            exported : option string * option smap in
          io_ret (details, screenshot_dir_relative,
                  match screenshot_map with
                  | Some (e :: m) => Some (e :: m)
                  | _ => None
                  end)
        else io_ret (details, None, None)
    | _ => io_ret (details, None, None)
    end
  else io_ret (None, None, None).

(** [report_title or "XCTest Summary"] *)
Definition title_or_default (report_title : option string) : string :=
  match report_title with
  | Some t => if nonempty t then t else "XCTest Summary"
  | None => "XCTest Summary"
  end.

(** Returns [(passed, failed, skipped)] or raises. *)
Definition _process_xcresult_to_html (xcresult_path out_html_path : string)
    (report_title : option string) (include_details include_screenshots : bool)
  : io (Z * Z * Z) :=
  emit (EvLog "[process]") ;;;
  ran <~ run_xcresulttool xcresult_path ;;
  let '(json_str, err_text, cmd_text) := ran in
  emit (EvLog "[xcresulttool] cmd") ;;;
  when (nonempty (strip err_text)) (emit (EvLog "[xcresulttool] stderr")) ;;;
  emit (EvLog "[xcresulttool] stdout_len") ;;;
  debug_json_path <~ lift (json_path_of out_html_path) ;;
  match json_str with
  | None => io_raise (RuntimeError (no_summary_message err_text cmd_text))
  | Some text =>
      if nonempty text
      then
        emit (EvWrite debug_json_path text) ;;;
        match json_loads text with
        | inr exc =>
            emit (EvLog "[json] ERROR parsing JSON") ;;;
            emit (EvLog "[json] JSON string length") ;;;
            emit (EvLog "[json] JSON string preview") ;;;
            io_raise (RuntimeError ("Failed to parse JSON summary: " ++ exc))
        | inl data =>
            emit (EvLog "[json] Successfully parsed JSON") ;;;
            let '(passed, failed, skipped) := extract_counts data in
            emit (EvLog "[counts]") ;;;
            when ((passed =? 0) && (failed =? 0) && (skipped =? 0))
                 (emit (EvLog "[counts] WARNING")) ;;;
            found <~ detailed_path data xcresult_path out_html_path
                       include_details include_screenshots ;;
            let '(details, screenshot_dir_relative, screenshot_map) := found in
            let title := title_or_default report_title in
            emit (EvLog "[html] Building HTML") ;;;
            html <~ lift (build_html passed failed skipped
                            (path_name xcresult_path) title details
                            screenshot_dir_relative screenshot_map) ;;
            emit (EvLog "[html] Generated HTML length") ;;;
            emit (EvLog "[html] HTML contains 'chart.js'") ;;;
            emit (EvLog "[html] HTML contains 'canvas'") ;;;
            emit (EvLog "[html] HTML contains 'Chart('") ;;;
            when (match details with Some (_ :: _) => true | _ => false end)
                 (emit (EvLog "[html] HTML contains details table") ;;;
                  emit (EvLog "[html] HTML contains table rows")) ;;;
            emit (EvWrite out_html_path html) ;;;
            match write_file out_html_path html with
            | Some exc =>
                emit (EvLog "[output] ERROR writing HTML") ;;;
                io_raise (RuntimeError ("Failed to write HTML file: " ++ exc))
            | None =>
                emit (EvLog "[output] Successfully wrote HTML") ;;;
                emit (EvLog "[output] html") ;;;
                emit (EvLog "[output] extracted_json") ;;;
                io_ret (passed, failed, skipped)
            end
        end
      else io_raise (RuntimeError (no_summary_message err_text cmd_text))
  end.

End Process.

(** ** An implementation of the builtins, for the examples *)

(** [int(s)] for plain decimal text: blanks around an optional [-] and
    digits. *)
Definition decimal_int_of_str (s : string) : option Z :=
  match NilZero.int_of_string (strip s) with
  | Some d => Some (Z.of_int d)
  | None => None
  end.

(** [str(v)] for the values with a short spelling; the others print as an
    ellipsis. *)
Definition plain_str (v : json) : string :=
  match v with
  | JNull => "None"
  | JBool true => "True"
  | JBool false => "False"
  | JInt n => str_of_int n
  | JStr s => s
  | _ => "..."
  end.

Definition decimal_builtins : PyBuiltins :=
  {| int_of_str := decimal_int_of_str; str_of_nonstr := plain_str |}.

(** ** The specification's side *)

(** What the specification asks of the renderer for interpolated text: the
    escaping of [html.escape]. *)
Fixpoint spec_html_escape (s : string) : string :=
  match s with
  | EmptyString => EmptyString
  | String c s' =>
      (if Ascii.eqb c "&" then "&amp;"
       else if Ascii.eqb c "<" then "&lt;"
       else if Ascii.eqb c ">" then "&gt;"
       else if Ascii.eqb c (ascii_of_nat 34) then "&quot;"
       else if Ascii.eqb c "'" then "&#x27;"
       else String c EmptyString)
      ++ spec_html_escape s'
  end.

(** The first entry of the index whose key passes [test]. *)
Fixpoint first_entry (test : string -> bool) (m : smap) : option (list string) :=
  match m with
  | [] => None
  | (key, imgs) :: m' => if test key then Some imgs else first_entry test m'
  end.

(** The specification's screenshot matching read as three tiers: an entry
    whose key equals the identifier; failing that, the first whose key
    contains it or ends with it; failing that, the first whose last path
    segment equals the identifier's. *)
Definition spec_priority_select (m : smap) (test_id : string) : option (list string) :=
  match first_entry (String.eqb test_id) m with
  | Some imgs => Some imgs
  | None =>
      match first_entry (fun key => contains test_id key || endswith key test_id) m with
      | Some imgs => Some imgs
      | None =>
          first_entry
            (fun key => String.eqb (last_part (split "/" key))
                                   (last_part (split "/" test_id))) m
      end
  end.

(** *** Reading the numbers back out of a report *)

(** [s[n:]] *)
Fixpoint drop (n : nat) (s : string) : string :=
  match n, s with
  | O, _ => s
  | S _, EmptyString => EmptyString
  | S n', String _ s' => drop n' s'
  end.

(** The text before and the text after the first occurrence of [pat]. *)
Fixpoint find_first (pat s : string) : option (string * string) :=
  if prefix pat s then Some (EmptyString, drop (String.length pat) s)
  else match s with
       | EmptyString => None
       | String c s' =>
           match find_first pat s' with
           | Some (before, after) => Some (String c before, after)
           | None => None
           end
       end.

(** The same for the last occurrence. *)
Fixpoint find_last (pat s : string) : option (string * string) :=
  match s with
  | EmptyString => if prefix pat s then Some (EmptyString, EmptyString) else None
  | String c s' =>
      match find_last pat s' with
      | Some (before, after) => Some (String c before, after)
      | None =>
          if prefix pat s then Some (EmptyString, drop (String.length pat) s)
          else None
      end
  end.

Definition is_digit (c : ascii) : bool :=
  let n := nat_of_ascii c in (48 <=? n)%nat && (n <=? 57)%nat.

Definition is_numeral_char (c : ascii) : bool := Ascii.eqb c "-" || is_digit c.

(** The longest run of sign and digit characters at the head of [s], and
    what follows it. *)
Fixpoint span_numeral (s : string) : string * string :=
  match s with
  | EmptyString => (EmptyString, EmptyString)
  | String c s' =>
      if is_numeral_char c
      then let (numeral, rest) := span_numeral s' in (String c numeral, rest)
      else (EmptyString, s)
  end.

(** The integer written at the head of [s], and what follows it. *)
Definition read_int (s : string) : option (Z * string) :=
  let (numeral, rest) := span_numeral s in
  match NilZero.int_of_string numeral with
  | Some d => Some (Z.of_int d, rest)
  | None => None
  end.

(** [s] without its prefix [pat]. *)
Definition expect (pat s : string) : option string :=
  if prefix pat s then Some (drop (String.length pat) s) else None.

(** The markup that opens the value of the summary figure named [label]. *)
Definition kpi_marker (label : string) : string :=
  "<div class=" ++ dq ++ "label" ++ dq ++ ">" ++ label
  ++ "</div><div class=" ++ dq ++ "value" ++ dq ++ ">".

(** The figure shown under [label]: the integer after the first occurrence
    of its markup. *)
Definition kpi_value (label html : string) : option Z :=
  match find_first (kpi_marker label) html with
  | Some (_, after) => option_map fst (read_int after)
  | None => None
  end.

(** The passed, failed and skipped figures of the summary panel. *)
Definition kpi_values (html : string) : option (Z * Z * Z) :=
  match kpi_value "Passed" html, kpi_value "Failed" html, kpi_value "Skipped" html with
  | Some p, Some f, Some s => Some (p, f, s)
  | _, _, _ => None
  end.

Definition chart_marker : string := "datasets: [{ data: [".

(** The three numbers of the chart's data array: what follows the last
    occurrence of [chart_marker], up to the closing bracket. *)
Definition chart_data (html : string) : option (Z * Z * Z) :=
  match find_last chart_marker html with
  | None => None
  | Some (_, after) =>
      match read_int after with
      | None => None
      | Some (p, r1) =>
          match expect ", " r1 with
          | None => None
          | Some r2 =>
              match read_int r2 with
              | None => None
              | Some (f, r3) =>
                  match expect ", " r3 with
                  | None => None
                  | Some r4 =>
                      match read_int r4 with
                      | None => None
                      | Some (s, r5) =>
                          match expect "]" r5 with
                          | None => None
                          | Some _ => Some (p, f, s)
                          end
                      end
                  end
              end
          end
      end
  end.

(** ** Notions the statements use *)

(** The key tests of the five blocks of [extract_counts]: whether the key
    set of a dictionary has one of the recognised shapes. *)
Definition matches_key_pattern (d : pydict) : bool :=
  (has_key "passedTests" d && has_key "failedTests" d)
  || (has_key "totalTestCount" d
      && (has_key "failedTests" d || has_key "testsFailedCount" d))
  || (has_key "passed" d && has_key "failed" d)
  || (has_key "testsPassedCount" d && has_key "testsFailedCount" d)
  || (has_key "passedCount" d && has_key "failedCount" d).

(** A value and every value nested in it. *)
Fixpoint subvalues (v : json) : list json :=
  v :: match v with
       | JList items => flat_map subvalues items
       | JDict entries => flat_map (fun kv => subvalues (snd kv)) entries
       | _ => []
       end.

(** A count as the summaries spell it: an integer, bare or wrapped as
    [{"_value": n}]. *)
Definition wrapped (n : Z) : json := JDict [("_value", JInt n)].

(** The three numbers of a triple are not negative. *)
Definition nonneg3 (r : Z * Z * Z) : Prop :=
  let '(p, f, s) := r in 0 <= p /\ 0 <= f /\ 0 <= s.

(** The documents of the scenarios. *)
Definition scenario_A : json :=
  JDict [("passedTests", JInt 10); ("failedTests", JInt 2); ("skippedTests", JInt 1)].

Definition scenario_B : json :=
  JDict [("totalTestCount", JInt 100); ("failedTests", JInt 5)].

Definition scenario_C : json := JDict [].

(** No value of the document converts to a negative integer. *)
Definition no_negative_value {py : PyBuiltins} (doc : json) : Prop :=
  forall v z, In v (subvalues doc) -> py_int v = Some z -> 0 <= z.

(** A document with a negative count. *)
Definition negative_summary : json :=
  JDict [("passedTests", JInt (-1)); ("failedTests", JInt 0)].

(** A summary whose passed count is [null]. *)
Definition null_passed : json :=
  JDict [("passedTests", JNull); ("failedTests", JInt 2)].

(** A field of a failure entry read as text: a string, or nothing at all. *)
Definition text_of (v : json) : option string :=
  match v with
  | JStr s => Some s
  | JNull => Some EmptyString
  | _ => None
  end.

(** What [failure_text[:100]] accepts: a string, a list, or a value that is
    false. *)
Definition sliceable (v : json) : bool :=
  match v with
  | JStr _ => true
  | JList _ => true
  | _ => negb (truthy v)
  end.

(** The suite the extractor gives a test with identifier [id]: the
    second-to-last segment when there is a slash and that segment is not
    empty, the target otherwise. *)
Definition suite_name (id target : string) : string :=
  if contains "/" id
  then
    let segment := second_to_last (split "/" id) in
    if nonempty segment then segment else target
  else target.

(** The record of a failed test. *)
Definition failed_record (name id target text : string) : pydict :=
  [ ("name", JStr name);
    ("status", JStr "Failed");
    ("suite", JStr (suite_name id target));
    ("failure", JStr (substring 0 100 text));
    ("testIdentifierString", JStr id) ].

(** The first of two texts that is not empty. *)
Definition first_text (a b : string) : string := if nonempty a then a else b.

(** The excerpt of a failure text that can be sliced: the first 100
    characters of a string, the first 100 items of a list, and the empty
    string for a value that is false (no text, an empty one). *)
Definition excerpt_of (v : json) : json :=
  if truthy v
  then match v with
       | JStr s => JStr (substring 0 100 s)
       | JList items => JList (firstn 100 items)
       | _ => JStr EmptyString
       end
  else JStr EmptyString.

Section FailureNotions.
Context {py : PyBuiltins}.

(** The identifier the extractor gives an entry of [testFailures]:
    [failure.get("testIdentifierString") or failure.get("testIdentifierURL")
    or ""]. *)
Definition test_id_of (failure : pydict) : json :=
  py_or (py_or (get failure "testIdentifierString")
               (get failure "testIdentifierURL"))
        (JStr EmptyString).

(** Its target: [failure.get("targetName") or ""]. *)
Definition target_of (failure : pydict) : json :=
  py_or (get failure "targetName") (JStr EmptyString).

(** The suite of a record, for any identifier and target: the
    second-to-last segment of the text of the identifier when there is an
    identifier, its text has a slash and that segment is not empty; the
    target otherwise. *)
Definition suite_value (test_id target : json) : json :=
  if truthy test_id && contains "/" (py_str test_id)
     && nonempty (second_to_last (split "/" (py_str test_id)))
  then JStr (second_to_last (split "/" (py_str test_id)))
  else target.

(** The record of a failed test, for any name, identifier, target and
    excerpt. *)
Definition detail_record (name test_id target excerpt : json) : pydict :=
  [ ("name", name);
    ("status", JStr "Failed");
    ("suite", suite_value test_id target);
    ("failure", excerpt);
    ("testIdentifierString", test_id) ].

End FailureNotions.

(** A failure whose identifier is only in [testIdentifierURL], with a list
    for failure text. *)
Definition url_only_failure : pydict :=
  [("testName", JStr "t"); ("testIdentifierURL", JStr "a/b/c");
   ("targetName", JStr "App"); ("failureText", JList [JStr "x"; JInt 1])].

(** The summary of scenario E. *)
Definition scenario_E : json :=
  JDict [("testFailures",
          JList [JDict [("testName", JStr "testFoo");
                        ("testIdentifierString", JStr "SuiteA/testFoo");
                        ("failureText", JStr "expected true")]])].

(** A failure whose identifier starts with a slash. *)
Definition rooted_failure : pydict :=
  [("testName", JStr "t"); ("testIdentifierString", JStr "/t");
   ("targetName", JStr "App")].

(** An index in which a key with the same last segment comes before a key
    that ends with the identifier [S/t]. *)
Definition segment_first_index : smap :=
  [("Other/t", ["a.png"]); ("Root/S/t", ["b.png"])].

(** A record whose name and failure excerpt are markup. *)
Definition markup_record : pydict :=
  [("name", JStr "<em>&</em>"); ("status", JStr "Failed"); ("suite", JStr "S");
   ("failure", JStr "x < y"); ("testIdentifierString", JStr "S/t")].

(** *** Occurrences of a pattern *)

(** Every character of [s] passes [f]. *)
Fixpoint all_chars (f : ascii -> bool) (s : string) : bool :=
  match s with
  | EmptyString => true
  | String c s' => f c && all_chars f s'
  end.

(** [pat] and [t] differ at a position they both have. *)
Fixpoint mismatch (pat t : string) : bool :=
  match pat, t with
  | String p pat', String c t' => if Ascii.eqb p c then mismatch pat' t' else true
  | _, _ => false
  end.

(** No occurrence of [pat] starts inside [a], whatever follows [a]. *)
Fixpoint suffixes_clash (pat a : string) : bool :=
  match a with
  | EmptyString => true
  | String _ a' => mismatch pat a && suffixes_clash pat a'
  end.

(** No occurrence of [pat] in [a ++ rest] starts inside [a]. *)
Fixpoint no_start (pat a rest : string) : bool :=
  match a with
  | EmptyString => true
  | String _ a' => negb (prefix pat (a ++ rest)) && no_start pat a' rest
  end.

(** No proper suffix of [pat] can be completed by the head of [follow]. *)
Definition border_free (pat follow : string) : bool :=
  forallb (fun k => mismatch (drop k pat) follow)
          (seq 1 (String.length pat - 1)).

(** [rest] does not go on with a sign or a digit. *)
Definition starts_plain (rest : string) : bool :=
  match rest with
  | EmptyString => true
  | String c _ => negb (is_numeral_char c)
  end.

(** [find_first], keeping only what follows the occurrence. *)
Definition after_first (pat s : string) : option string :=
  option_map snd (find_first pat s).
(** *** The fixed text of the document around the values *)

(** The header down to the title. *)
Definition head_0 : string :=
  "<!doctype html>
<html lang=" ++ dq ++ "en" ++ dq ++ ">
<head>
  <meta charset=" ++ dq ++ "utf-8" ++ dq ++ " />
  <title>".

(** From the title to the heading. *)
Definition head_1 : string :=
  "</title>
  <meta name=" ++ dq ++ "viewport" ++ dq ++ " content=" ++ dq ++ "width=device-width, initial-scale=1" ++ dq ++ " />
  <meta name=" ++ dq ++ "color-scheme" ++ dq ++ " content=" ++ dq ++ "dark" ++ dq ++ " />
  <style>
    body { font-family: -apple-system, BlinkMacSystemFont, 'Segoe UI', Roboto,
                Arial, sans-serif; margin: 32px; background: #1a1a1a; color: #e0e0e0; }
    .card { border: 1px solid #3a3a3a; border-radius: 12px; padding: 20px;
             max-width: 720px; box-shadow: 0 4px 12px rgba(0,0,0,0.3); background: #2b2b2b; }
    h1, h2 { margin: 0 0 8px 0; font-size: 22px; color: #fff; }
    h2 { font-size: 18px; margin-top: 4px; }
    .meta { color: #9ca3af; margin-bottom: 16px; font-size: 14px; }
    .grid { display: grid; grid-template-columns: repeat(4, 1fr); gap: 10px;
             margin: 16px 0 12px; }
    .kpi { border: 1px solid #3a3a3a; border-radius: 10px; padding: 12px;
            text-align: center; background: #1f1f1f; }
    .kpi .label { color: #9ca3af; font-size: 12px; }
    .kpi .value { font-size: 20px; margin-top: 6px; color: #fff; }
    .small { color: #9ca3af; font-size: 12px; margin-top: 10px; }
    canvas { max-width: 520px; margin: auto; }
    table { color: #e0e0e0; }
    th { color: #d1d5db; }
    @media print {
      body { background: #fff !important; color: #111 !important; -webkit-print-color-adjust: exact; print-color-adjust: exact; }
      .card { background: #fff !important; border-color: #333 !important; box-shadow: none !important; color: #111 !important; }
      .card * { color: #111 !important; }
      h1, h2 { color: #111 !important; }
      .meta, .small, .kpi .label { color: #444 !important; }
      .kpi { background: #f5f5f5 !important; border-color: #ccc !important; color: #111 !important; }
      .kpi .value { color: #111 !important; }
      table, th, td { color: #111 !important; border-color: #333 !important; }
      td { border-bottom-color: #ddd !important; }
      body > p { color: #444 !important; }
    }
  </style>
</head>
<body>
  <div class=" ++ dq ++ "card" ++ dq ++ ">
    <h1>".

(** From the heading to the total. *)
Definition head_2 : string :=
  "</h1>
    <div class=" ++ dq ++ "meta" ++ dq ++ ">This report is intended to be a quick overview of the test results. For detailed test results, please view the original xcresult bundle.</div>
    <div class=" ++ dq ++ "grid" ++ dq ++ ">
      <div class=" ++ dq ++ "kpi" ++ dq ++ "><div class=" ++ dq ++ "label" ++ dq ++ ">Total</div><div class=" ++ dq ++ "value" ++ dq ++ ">".

(** From one figure of the summary panel to the markup of the next. *)
Definition kpi_gap : string :=
  "</div></div>
      <div class=" ++ dq ++ "kpi" ++ dq ++ ">".

(** From the skipped count to the source label. *)
Definition head_6 : string :=
  "</div></div>
    </div>
    <canvas id=" ++ dq ++ "pie" ++ dq ++ " width=" ++ dq ++ "520" ++ dq ++ " height=" ++ dq ++ "320" ++ dq ++ "></canvas>
    <div class=" ++ dq ++ "small" ++ dq ++ ">Source: ".

(** The end of the summary card. *)
Definition head_7 : string :=
  "</div>
  </div>".

(** The script down to the data array. *)
Definition chart_lead : string :=
  "
  <script src=" ++ dq ++ "https://cdn.jsdelivr.net/npm/chart.js" ++ dq ++ "></script>
  <script>
    Chart.defaults.color = '#d1d5db';
    Chart.defaults.borderColor = '#404040';
    const ctx = document.getElementById('pie');
    new Chart(ctx, {
      type: 'pie',
      data: {
        labels: ['Passed', 'Failed', 'Skipped'],
        ".

(** The script from the end of the data array. *)
Definition chart_trail : string :=
  "],
          backgroundColor: ['#22c55e', '#ef4444', '#f59e0b'],
          borderColor: '#2b2b2b',
          borderWidth: 2 }]
      },
      options: {
        responsive: true,
        plugins: { legend: { position: 'bottom', labels: { color: '#d1d5db' } }, title: { display: false } }
      }
    });
  </script>
  <hr style=" ++ dq ++ "border: none; border-top: 1px solid #404040; margin: 24px 0 0 0;" ++ dq ++ " />
  <br /><br /><br />
  <p style=" ++ dq ++ "color: #6b7280; font-size: 12px; margin: 0;" ++ dq ++ ">This was built with passion</p>
</body>
</html>
".

(** The markup that opens the label of a figure of the summary panel. *)
Definition kpi_label_open : string := "<div class=" ++ dq ++ "label" ++ dq ++ ">".

(** *** Notions for the orchestration *)

(** The command completed and gave nothing to parse: a return code other
    than 0, or only blanks on its standard output. *)
Definition unusable (r : run_result) : bool :=
  match r with
  | Completed returncode stdout _ =>
      negb ((returncode =? 0) && nonempty (strip stdout))
  | _ => false
  end.

Definition stderr_of (r : run_result) : string :=
  match r with
  | Completed _ _ stderr => stderr
  | _ => EmptyString
  end.

(** The last text of [errs] that is not blank, [init] if there is none. *)
Definition last_nonblank (errs : list string) (init : string) : string :=
  fold_left (fun acc e => if nonempty (strip e) then e else acc) errs init.

(** The event writes the artifact or the JSON beside it. *)
Definition is_write (ev : event) : bool :=
  match ev with
  | EvWrite _ _ => true
  | _ => false
  end.

(** The position of the last occurrence of a character in a text. *)
Fixpoint rfind (c : ascii) (s : string) : option nat :=
  match s with
  | EmptyString => None
  | String a s' =>
      match rfind c s' with
      | Some i => Some (S i)
      | None => if Ascii.eqb a c then Some 0%nat else None
      end
  end.

(** [str(Path(p).with_suffix(".json"))] for a path that [Path] leaves as
    written and that ends in a file name: the suffix of the name, which
    starts at its last dot when that dot is neither its first nor its last
    character, is replaced; a name without suffix is given one. *)
Definition with_json_suffix (p : string) : string :=
  let name_start := match rfind "/" p with Some j => S j | None => 0%nat end in
  match rfind "." p with
  | Some i =>
      if (name_start <? i)%nat && (S i <? String.length p)%nat
      then substring 0 i p ++ ".json"
      else p ++ ".json"
  | None => p ++ ".json"
  end.

(** A world in which [xcresulttool] fails on every command line with the
    same complaint. *)
Definition failing_world : World :=
  {| which_xcrun := None;
     abspath := fun p => p;
     subprocess_run := fun _ => Completed 1 EmptyString "error: not a result bundle";
     json_loads := fun _ => inr "Expecting value";
     json_path_of := fun p => Ok (with_json_suffix p);
     path_name := fun p => p;
     write_file := fun _ _ => None;
     _export_attachments := fun _ _ => Ok (None, None) |}.

(** A world in which the first command prints [text], which [json.loads]
    reads as [parsed]. *)
Definition printing_world (text : string) (parsed : json + string) : World :=
  {| which_xcrun := Some "/usr/bin/xcrun";
     abspath := fun p => p;
     subprocess_run := fun _ => Completed 0 text EmptyString;
     json_loads := fun _ => parsed;
     json_path_of := fun p => Ok (with_json_suffix p);
     path_name := fun p => p;
     write_file := fun _ _ => None;
     _export_attachments := fun _ _ => Ok (None, None) |}.

(** *** The documents and reports of the examples *)

(** A summary nested in a wrapper, with a wrapped count. *)
Definition nested_summary : json :=
  JDict [("summary", JDict [("passedTests", wrapped 7); ("failedTests", JInt 2)])].

(** A summary of the older shape in which failed and skipped exceed the
    total, after a dictionary without counts. *)
Definition overfull_summary : json :=
  JList [JDict [("note", JStr "x")];
         JDict [("totalTestCount", wrapped 10); ("testsFailedCount", JInt 8);
                ("testsSkippedCount", JInt 5)]].

(** A document without counts. *)
Definition no_counts : json := JList [JDict [("name", JStr "x")]; JInt 3].

(** The report of scenario A, rendered without details. *)
Definition plain_report : string :=
  html_head "XCTest Summary" "13" "10" "2" "1" "r.xcresult"
  ++ html_tail "10" "2" "1".

(** An index with a key that ends with the identifier [S/t] before the key
    [S/t] itself. *)
Definition exact_last_index : smap :=
  [("Root/S/t", ["b.png"]); ("S/t", ["c.png"])].

(** The report with the record whose name is markup. *)
Definition markup_report {py : PyBuiltins} : result string :=
  build_html 0 1 0 "r.xcresult" "XCTest Summary" (Some [markup_record]) None None.

(** The text of a report, empty if the renderer raised. *)
Definition text_of_report (r : result string) : string :=
  match r with
  | Ok html => html
  | Raise _ => EmptyString
  end.

(** ** Notions for further properties *)

(** [isinstance(v, dict)] *)
Definition is_dict (v : json) : bool :=
  match v with
  | JDict _ => true
  | _ => false
  end.

(** [isinstance(v, str)] *)
Definition is_str (v : json) : bool :=
  match v with
  | JStr _ => true
  | _ => false
  end.

Section CountsNotions.
Context {py : PyBuiltins}.

(** The dictionary [d] has the keys [kp] and [kf] with integer values [p]
    and [f]; [s] is the integer value of [ks], or 0 when [d] has no such
    key. *)
Definition reads_counts (kp kf ks : string) (d : pydict) (p f s : Z) : Prop :=
  (exists vp, lookup kp d = Some vp /\ count_of vp = Some p)
  /\ (exists vf, lookup kf d = Some vf /\ count_of vf = Some f)
  /\ (lookup ks d = None /\ s = 0
      \/ exists vs, lookup ks d = Some vs /\ count_of vs = Some s).

End CountsNotions.

Section DetailsNotions.
Context {py : PyBuiltins}.

(** The name the extractor gives an entry of [testFailures]:
    [failure.get("testName") or failure.get("testIdentifierString") or ""]. *)
Definition test_name_of (failure : pydict) : json :=
  py_or (py_or (get failure "testName") (get failure "testIdentifierString"))
        (JStr EmptyString).

(** The entries of [testFailures] that are dictionaries with a name that is
    true, in their order. *)
Definition named_entries (failures : list json) : list pydict :=
  flat_map (fun v => match v with
                     | JDict e => if truthy (test_name_of e) then [e] else []
                     | _ => []
                     end) failures.

(** A failure excerpt: a string of at most 100 characters (empty when there
    is no failure text), or a list of at most 100 items. *)
Definition bounded_excerpt (v : json) : Prop :=
  match v with
  | JStr s => (String.length s <= 100)%nat
  | JList items => (List.length items <= 100)%nat
  | _ => False
  end.

(** The keys of a record, in the order the display reads them. *)
Definition record_keys : list string :=
  ["name"; "status"; "suite"; "failure"; "testIdentifierString"].

End DetailsNotions.

(** A summary whose one failure has a number for failure text. *)
Definition numeric_failure_text : json :=
  JDict [("testFailures",
          JList [JDict [("testName", JStr "testFoo");
                        ("failureText", JInt 3)]])].

(** From the heading to the first figure of the summary panel. *)
Definition head_2_lead : string :=
  "</h1>
    <div class=" ++ dq ++ "meta" ++ dq ++ ">This report is intended to be a quick overview of the test results. For detailed test results, please view the original xcresult bundle.</div>
    <div class=" ++ dq ++ "grid" ++ dq ++ ">
      <div class=" ++ dq ++ "kpi" ++ dq ++ ">".

(** *** Worlds for the examples *)

(** A world given by what the commands do, what [json.loads] makes of the
    output, what writing a file does and what the export of the attachments
    returns. *)
Definition scripted_world (run : list string -> run_result)
    (parsed : json + string) (write : string -> string -> option string)
    (exported : result (option string * option smap)) : World :=
  {| which_xcrun := Some "/usr/bin/xcrun";
     abspath := fun p => p;
     subprocess_run := run;
     json_loads := fun _ => parsed;
     json_path_of := fun p => Ok (with_json_suffix p);
     path_name := fun p => p;
     write_file := write;
     _export_attachments := fun _ _ => exported |}.

(** An [xcresulttool] that only knows the [--legacy] command line. *)
Definition legacy_only (cmd : list string) : run_result :=
  if existsb (String.eqb "--legacy") cmd
  then Completed 0 "{}" "warning: legacy format"
  else Completed 1 EmptyString "error: unknown subcommand".

(** No [xcrun] to start. *)
Definition no_xcrun (cmd : list string) : run_result :=
  FileNotFound "[Errno 2] No such file or directory: '/usr/bin/xcrun'".

(** An [xcresulttool] whose first command prints [text]. *)
Definition prints (text : string) (cmd : list string) : run_result :=
  Completed 0 text EmptyString.

(** A disk that takes every file, and one that takes none. *)
Definition writable (path content : string) : option string := None.

Definition read_only (path content : string) : option string :=
  Some "[Errno 30] Read-only file system".

(** The event is the export of the attachments. *)
Definition is_export (ev : event) : bool :=
  match ev with
  | EvExport _ _ => true
  | _ => false
  end.

(** The files written and the exports made, in their order. *)
Definition writes (trace : list event) : list event := filter is_write trace.

Definition exports (trace : list event) : list event := filter is_export trace.

(** A run whose summary is scenario A on a disk that takes every file. *)
Definition plain_world : World :=
  scripted_world (prints "{}") (inl scenario_A) writable (Ok (None, None)).

(** The same on a disk that takes no file. *)
Definition read_only_world : World :=
  scripted_world (prints "{}") (inl scenario_A) read_only (Ok (None, None)).

(** A run whose summary is scenario E, with one screenshot exported. *)
Definition screenshot_world : World :=
  scripted_world (prints "{}") (inl scenario_E) writable
    (Ok (Some "out_screenshots", Some [("SuiteA/testFoo", ["a.png"])])).

(** A run whose summary has a number for failure text. *)
Definition numeric_text_world : World :=
  scripted_world (prints "{}") (inl numeric_failure_text) writable
    (Ok (None, None)).

(** ** [_next_available_report_path] *)

(** The [pathlib] operations the function calls, on paths as text:
    [Path(p).exists()], [Path(p).stem], [Path(p).suffix] and
    [str(Path(p).parent / name)]. *)
Class Paths : Type := {
  path_exists : string -> bool;
  path_stem : string -> string;
  path_suffix : string -> string;
  parent_join : string -> string -> string
}.

Section NextAvailable.
Context {paths : Paths}.

(** [str(parent / f"{stem}_{n}{suffix}")], with [suffix = p.suffix or ".html"]. *)
Definition numbered_path (path : string) (n : nat) : string :=
  let suffix := if nonempty (path_suffix path) then path_suffix path else ".html" in
  parent_join path (path_stem path ++ "_" ++ str_of_nat n ++ suffix).

(** The [while] loop, from [n] on: [None] when [fuel] turns do not reach a
    path that does not exist. *)
Fixpoint first_free (fuel : nat) (path : string) (n : nat) : option string :=
  match fuel with
  | O => None
  | S fuel' =>
      if path_exists (numbered_path path n)
      then first_free fuel' path (S n)
      else Some (numbered_path path n)
  end.

(** If [path] exists, the next available path: [report_1.html],
    [report_2.html], ... *)
Definition _next_available_report_path (fuel : nat) (path : string)
  : option string :=
  if negb (path_exists path) then Some path else first_free fuel path 1.

End NextAvailable.

(** A directory that holds [report.html], [report_1.html] and
    [report_2.html]. *)
Definition three_reports : Paths :=
  {| path_exists := fun p =>
       existsb (String.eqb p)
         ["out/report.html"; "out/report_1.html"; "out/report_2.html"];
     path_stem := fun _ => "report";
     path_suffix := fun _ => ".html";
     parent_join := fun _ name => "out/" ++ name |}.

(** ** The command line: [run_cli] and [main] *)

(** What the command line adds to the outside world: the text [str(exc)] of
    an exception that is no [RuntimeError], the import of WeasyPrint
    ([None], or the text of the exception it raises), and the conversion
    [WeasyHTML(filename=html).write_pdf(pdf)] with the checks that follow it
    ([None], or the text of the exception raised). *)
Class Cli : Type := {
  exn_text : exn -> string;
  weasyprint_import : option string;
  write_pdf : string -> string -> option string
}.

(** What a run of the command line does, in order: a step of the pipeline
    or a line of the log, a line printed on the standard output, a line
    printed on the standard error, the conversion to PDF.  Of the log lines
    written during the conversion, those that depend on how far it got are
    left out. *)
Inductive cli_event : Type :=
| Step (ev : event)
| Print (line : string)
| PrintErr (line : string)
| PdfWrite (html_path pdf_path : string).

Section CommandLine.
Context {py : PyBuiltins} {world : World} {cli : Cli}.

(** [str(exc)] *)
Definition str_of_exn (e : exn) : string :=
  match e with
  | RuntimeError msg => msg
  | _ => exn_text e
  end.

(** The lines printed after the pipeline has returned. *)
Definition summary_lines (xcresult_path out_html_path : string)
    (passed failed skipped : Z) : list cli_event :=
  [ Print ("XCTest summary for " ++ xcresult_path ++ ":");
    Print ("  Passed : " ++ str_of_int passed);
    Print ("  Failed : " ++ str_of_int failed);
    Print ("  Skipped: " ++ str_of_int skipped);
    Print ("HTML report written to: " ++ out_html_path) ].

(** Returns the exit code: 0 on success, 1 on error. *)
Definition run_cli (xcresult_path out_html_path : string)
    (pdf_output_path report_title : option string)
    (include_details include_screenshots : bool) : list cli_event * Z :=
  let started := [Step (EvLog "[cli] starting"); Step (EvLog "[cli] xcresult")] in
  let (trace, r) :=
    _process_xcresult_to_html xcresult_path out_html_path report_title
      include_details include_screenshots in
  match r with
  | Raise exc =>
      ((started ++ map Step trace
        ++ [Step (EvLog "[cli] error"); PrintErr ("Error: " ++ str_of_exn exc)])%list,
       1)
  | Ok (passed, failed, skipped) =>
      let printed :=
        (started ++ map Step trace
         ++ summary_lines xcresult_path out_html_path passed failed skipped)%list in
      match pdf_output_path with
      | None => (printed, 0)
      | Some pdf =>
          if nonempty pdf
          then
            match weasyprint_import with
            | Some exc =>
                ((printed
                  ++ [Step (EvLog "[cli] weasyprint import_error");
                      PrintErr "Warning: WeasyPrint is not available or missing system dependencies; skipping PDF generation."])%list,
                 0)
            | None =>
                match write_pdf out_html_path pdf with
                | Some exc =>
                    ((printed
                      ++ [Step (EvLog "[cli] Loading HTML file with WeasyPrint");
                          PdfWrite out_html_path pdf;
                          Step (EvLog "[cli] pdf_error");
                          Step (EvLog "[cli] Exception type");
                          Step (EvLog "[cli] Traceback");
                          PrintErr ("Error while generating PDF: " ++ exc)])%list,
                     1)
                | None =>
                    ((printed
                      ++ [Step (EvLog "[cli] Loading HTML file with WeasyPrint");
                          PdfWrite out_html_path pdf;
                          Step (EvLog "[cli] PDF write completed");
                          Step (EvLog "[cli] NOTE");
                          Print ("PDF report written to: " ++ pdf)])%list,
                     0)
                end
            end
          else (printed, 0)
      end
  end.

(** What [parser.parse_args] returns. *)
Record Namespace : Type := {
  cli_flag : bool;
  xcresult : option string;
  output_html : option string;
  pdf_output : option string;
  title : option string;
  include_details : bool;
  include_screenshots : bool
}.

(** How [main] ends: [parser.error] (exit status 2, with its message),
    [SystemExit] with the code of [run_cli], or the window. *)
Inductive main_outcome : Type :=
| ParserError (message : string)
| SystemExit (code : Z)
| Window.

(** [main], from the parsed arguments on. *)
Definition main (args : Namespace) : list cli_event * main_outcome :=
  if cli_flag args
  then
    match xcresult args, output_html args with
    | Some xcresult_path, Some out_html_path =>
        if nonempty xcresult_path && nonempty out_html_path
        then
          let (trace, exit_code) :=
            run_cli xcresult_path out_html_path (pdf_output args) (title args)
              (include_details args)
              (if include_details args then include_screenshots args else false) in
          (trace, SystemExit exit_code)
        else ([], ParserError "--cli requires an .xcresult path and --output-html.")
    | _, _ => ([], ParserError "--cli requires an .xcresult path and --output-html.")
    end
  else ([], Window).

End CommandLine.

(** The steps of the pipeline among the events of a run. *)
Definition steps (trace : list cli_event) : list event :=
  flat_map (fun ev => match ev with Step e => [e] | _ => [] end) trace.

(** The lines printed on the standard output. *)
Definition printed (trace : list cli_event) : list string :=
  flat_map (fun ev => match ev with Print l => [l] | _ => [] end) trace.

(** The conversions to PDF. *)
Definition conversions (trace : list cli_event) : list cli_event :=
  filter (fun ev => match ev with PdfWrite _ _ => true | _ => false end) trace.

(** A command line without WeasyPrint, and one with it. *)
Definition no_weasyprint : Cli :=
  {| exn_text := fun _ => "error";
     weasyprint_import := Some "No module named 'weasyprint'";
     write_pdf := fun _ _ => None |}.

Definition with_weasyprint : Cli :=
  {| exn_text := fun _ => "error";
     weasyprint_import := None;
     write_pdf := fun _ _ => None |}.

(** [--cli r.xcresult --output-html out.html --include-screenshots] *)
Definition screenshots_only : Namespace :=
  {| cli_flag := true;
     xcresult := Some "r.xcresult";
     output_html := Some "out.html";
     pdf_output := None;
     title := None;
     include_details := false;
     include_screenshots := true |}.

(** ** [_export_attachments] *)

(** The function that the orchestration above takes from the world, as it is
    written: it runs [xcresulttool export attachments] and builds the index
    of the screenshots out of the manifest the tool leaves.  Nothing in it
    checks that the identifiers and the file names of the manifest are
    strings: the keys of the index are the values found, compared as Python
    compares the keys of a [dict]. *)
Module Attachments.

(** How [subprocess.run(cmd, ..., timeout=120)] ends: it completes, it
    raises [TimeoutExpired], or it raises something else. *)
Inductive export_run : Type :=
| Exported (returncode : Z) (stdout stderr : string)
| TimedOut
| ExportRaised.

(** The outside world of the export: [mkdir(parents=True, exist_ok=True)]
    on the screenshot directory ([None], or the exception it raises), the
    command, [manifest_path.exists()] and
    [json.loads(manifest_path.read_text(encoding="utf-8"))] for the manifest
    of a screenshot directory ([None] when reading or parsing raises). *)
Class ExportWorld : Type := {
  make_dir : string -> option exn;
  run_export : list string -> export_run;
  manifest_exists : string -> bool;
  read_manifest : string -> option json
}.

(** What the export does, in order. *)
Inductive export_event : Type :=
| MakeDir (path : string)
| RunExport (cmd : list string)
| ExportLog (tag : string).

(** *** Values as keys *)

(** A positive number as an odd number times a power of two. *)
Fixpoint odd_part (m : positive) (e : Z) : positive * Z :=
  match m with
  | xO m' => odd_part m' (e + 1)
  | _ => (m, e)
  end.

(** The numbers of Python that JSON gives: zero, a number that is not zero
    as sign, odd mantissa and exponent of two, the infinities, and NaN. *)
Inductive number : Type :=
| Zero
| Dyadic (negative : bool) (mantissa : positive) (exponent : Z)
| Infinite (negative : bool)
| NotANumber.

Definition number_of_Z (n : Z) : number :=
  match n with
  | Z0 => Zero
  | Zpos p => let (m, e) := odd_part p 0 in Dyadic false m e
  | Zneg p => let (m, e) := odd_part p 0 in Dyadic true m e
  end.

(** The number a value is, for a [bool], an [int] or a [float]. *)
Definition number_of (v : json) : option number :=
  match v with
  | JBool b => Some (number_of_Z (if b then 1 else 0))
  | JInt n => Some (number_of_Z n)
  | JFloat (S754_zero _) => Some Zero
  | JFloat (S754_finite s m e) => let (m', e') := odd_part m e in Some (Dyadic s m' e')
  | JFloat (S754_infinity s) => Some (Infinite s)
  | JFloat S754_nan => Some NotANumber
  | _ => None
  end.

(** [a == b] for numbers: by value, NaN being equal to nothing. *)
Definition number_eq (a b : number) : bool :=
  match a, b with
  | Zero, Zero => true
  | Dyadic s m e, Dyadic s' m' e' => Bool.eqb s s' && Pos.eqb m m' && Z.eqb e e'
  | Infinite s, Infinite s' => Bool.eqb s s'
  | _, _ => false
  end.

(** [a == b] where [a] is [None], a string or a number: strings by their
    characters, numbers by their value, and nothing else is equal to [a]. *)
Definition scalar_eq (a b : json) : bool :=
  match a, b with
  | JNull, JNull => true
  | JStr s, JStr t => String.eqb s t
  | _, _ =>
      match number_of a, number_of b with
      | Some x, Some y => number_eq x y
      | _, _ => false
      end
  end.

(** [a] and [b] are the same key of a [dict]: equal, or the same object,
    which the NaN of [json.loads] is. *)
Definition same_key (a b : json) : bool :=
  scalar_eq a b
  || match a, b with
     | JFloat S754_nan, JFloat S754_nan => true
     | _, _ => false
     end.

(** [hash(v)] does not raise: lists and dictionaries cannot be keys. *)
Definition hashable (v : json) : bool :=
  match v with
  | JList _ => false
  | JDict _ => false
  | _ => true
  end.

(** The index: keys in insertion order, each with its file names. *)
Definition index : Type := list (json * list json).

(** [d.get(k)] for a key that can be hashed. *)
Fixpoint index_get (k : json) (d : index) : option (list json) :=
  match d with
  | [] => None
  | (k', v) :: d' => if same_key k k' then Some v else index_get k d'
  end.

(** A key of [d] is already there: its value is replaced, the key and its
    place stay; a new key goes last. *)
Fixpoint index_put (k : json) (v : list json) (d : index) : index :=
  match d with
  | [] => [(k, v)]
  | (k', v') :: d' =>
      if same_key k k' then (k', v) :: d' else (k', v') :: index_put k v d'
  end.

(** [d[k] = v] *)
Definition index_set (k : json) (v : list json) (d : index) : result index :=
  if hashable k then Ok (index_put k v d) else Raise TypeError.

(** What [for x in v] goes through: the items of a list, the keys of a
    dictionary, the characters of a string; the other values raise. *)
Definition py_iter (v : json) : result (list json) :=
  match v with
  | JList items => Ok items
  | JDict entries => Ok (map (fun kv => JStr (fst kv)) entries)
  | JStr s => Ok (map (fun c => JStr (String c EmptyString)) (list_ascii_of_string s))
  | _ => Raise TypeError
  end.

(** *** The index of a manifest *)

(** The file names of the attachments of one entry. *)
Definition exported_names (attachments : list json) : list json :=
  flat_map (fun att =>
              match att with
              | JDict a =>
                  if truthy (get a "exportedFileName")
                  then [get a "exportedFileName"] else []
              | _ => []
              end) attachments.

(** One turn of the loop over [details_list]. *)
Definition add_entry (by_id : index) (entry : json) : result index :=
  match entry with
  | JDict e =>
      let test_id :=
        py_or (py_or (get e "testIdentifier") (get e "testIdentifierURL"))
              (JStr EmptyString) in
      let attachments := py_or (get e "attachments") (JList []) in
      if truthy test_id
      then
        items <- py_iter attachments ;;
        match exported_names items with
        | [] => Ok by_id
        | filenames =>
            by_id <- index_set test_id filenames by_id ;;
            let url := get e "testIdentifierURL" in
            if truthy url && negb (scalar_eq test_id url)
            then index_set url filenames by_id
            else Ok by_id
        end
      else Ok by_id
  | _ => Ok by_id
  end.

(** The loop. *)
Fixpoint add_entries (by_id : index) (entries : list json) : result index :=
  match entries with
  | [] => Ok by_id
  | entry :: rest =>
      by_id <- add_entry by_id entry ;;
      add_entries by_id rest
  end.

(** [details_list]: the manifest when it is a list; for a dictionary, the
    first of three keys whose value is true, or the empty list. *)
Definition details_list (manifest : json) : json :=
  match manifest with
  | JList _ => manifest
  | JDict d =>
      py_or (py_or (py_or (get d "testAttachmentDetails")
                          (get d "testAttachmentDetailsList"))
                   (get d "attachments"))
            (JList [])
  | _ => JList []
  end.

(** [by_id] for a manifest. *)
Definition index_of_manifest (manifest : json) : result index :=
  entries <- py_iter (details_list manifest) ;;
  add_entries [] entries.

(** *** Notions for the properties of the index *)

(** What a key is compared by: nothing for [None], its characters for a
    string, its value for a number; a list or a dictionary is no key. *)
Definition key_class (v : json) : option (option (string + number)) :=
  match v with
  | JNull => Some None
  | JStr s => Some (Some (inl s))
  | JList _ => None
  | JDict _ => None
  | _ => option_map (fun n => Some (inr n)) (number_of v)
  end.

(** [for x in v] does not raise. *)
Definition iterable (v : json) : bool :=
  match v with
  | JList _ => true
  | JDict _ => true
  | JStr _ => true
  | _ => false
  end.

(** The identifier of an entry of the manifest. *)
Definition entry_id (e : pydict) : json :=
  py_or (py_or (get e "testIdentifier") (get e "testIdentifierURL"))
        (JStr EmptyString).

(** The file names of an entry whose attachments can be gone through. *)
Definition entry_names (e : pydict) : list json :=
  match py_iter (py_or (get e "attachments") (JList [])) with
  | Ok items => exported_names items
  | Raise _ => []
  end.

(** The keys under which an entry puts its file names: none when it has no
    identifier or no file name; its identifier, and its [testIdentifierURL]
    when that is another value. *)
Definition entry_keys (entry : json) : list json :=
  match entry with
  | JDict e =>
      if truthy (entry_id e)
      then
        match entry_names e with
        | [] => []
        | _ =>
            entry_id e
            :: (if truthy (get e "testIdentifierURL")
                   && negb (scalar_eq (entry_id e) (get e "testIdentifierURL"))
                then [get e "testIdentifierURL"] else [])
        end
      else []
  | _ => []
  end.

(** An entry that stops the loop: it has an identifier, and attachments
    that cannot be gone through, or file names and an identifier or a
    [testIdentifierURL] that cannot be a key. *)
Definition bad_entry (entry : json) : bool :=
  match entry with
  | JDict e =>
      truthy (entry_id e)
      && (negb (iterable (py_or (get e "attachments") (JList [])))
          || match entry_names e with
             | [] => false
             | _ =>
                 negb (hashable (entry_id e))
                 || (truthy (get e "testIdentifierURL")
                     && negb (hashable (get e "testIdentifierURL")))
             end)
  | _ => false
  end.

(** The file names of an entry, none for an entry that is no dictionary. *)
Definition names_of (entry : json) : list json :=
  match entry with
  | JDict e => entry_names e
  | _ => []
  end.

(** The entry puts its file names under the key [k]. *)
Definition sets_key (k : json) (entry : json) : bool :=
  existsb (same_key k) (entry_keys entry).

(** The index after [names] were put under each of [keys]. *)
Definition put_keys (keys : list json) (names : list json) (d : index) : index :=
  fold_left (fun acc k => index_put k names acc) keys d.

(** No two keys of an index are the same key. *)
Fixpoint distinct_keys (d : index) : Prop :=
  match d with
  | [] => True
  | (k, _) :: d' =>
      (forall k' v, In (k', v) d' -> same_key k k' = false) /\ distinct_keys d'
  end.

(** Every key of an index is true and can be hashed, and holds at least one
    file name, all of them true. *)
Definition filled (d : index) : Prop :=
  forall k names, In (k, names) d ->
    truthy k = true /\ hashable k = true /\ names <> []
    /\ forall fn, In fn names -> truthy fn = true.

(** What holds of the index while the loop has gone through [seen]: it is
    filled, its keys are distinct, and the file names under a key are those
    of an entry seen that sets this key. *)
Definition loop_invariant (seen : list json) (d : index) : Prop :=
  filled d /\ distinct_keys d
  /\ forall k names, In (k, names) d ->
       exists entry, In entry seen /\ names = names_of entry
                     /\ sets_key k entry = true.

Section Exporting.
Context {world : World} {paths : Paths} {export : ExportWorld}.

(** [xcrun xcresulttool export attachments --path ... --output-path ...] *)
Definition export_command (xcresult_path screenshot_abs : string) : list string :=
  [xcrun_path; "xcresulttool"; "export"; "attachments"; "--path"; xcresult_path;
   "--output-path"; screenshot_abs].

(** Returns the directory of the screenshots, relative to the report, and
    the index; [(None, None)] on failure. *)
Definition _export_attachments (xcresult_path out_html_path : string)
  : list export_event * result (option string * option index) :=
  let xcresult_path := abspath xcresult_path in
  let screenshot_dir_name := path_stem out_html_path ++ "_screenshots" in
  let screenshot_abs := parent_join out_html_path screenshot_dir_name in
  match make_dir screenshot_abs with
  | Some e => ([MakeDir screenshot_abs], Raise e)
  | None =>
      let cmd := export_command xcresult_path screenshot_abs in
      let started :=
        [MakeDir screenshot_abs; ExportLog "[screenshots] Running";
         RunExport cmd] in
      match run_export cmd with
      | TimedOut =>
          ((started ++ [ExportLog "[screenshots] Export timed out"])%list,
           Ok (None, None))
      | ExportRaised =>
          ((started ++ [ExportLog "[screenshots] Export failed"])%list,
           Ok (None, None))
      | Exported returncode _ _ =>
          if negb (returncode =? 0)
          then ((started ++ [ExportLog "[screenshots] xcresulttool exit"])%list,
                Ok (None, None))
          else if negb (manifest_exists screenshot_abs)
          then ((started ++ [ExportLog "[screenshots] No manifest.json"])%list,
                Ok (Some screenshot_dir_name, Some []))
          else
            match read_manifest screenshot_abs with
            | None =>
                ((started
                  ++ [ExportLog "[screenshots] Failed to parse manifest"])%list,
                 Ok (Some screenshot_dir_name, Some []))
            | Some manifest =>
                match index_of_manifest manifest with
                | Raise e => (started, Raise e)
                | Ok by_id =>
                    ((started ++ [ExportLog "[screenshots] Manifest"])%list,
                     Ok (Some screenshot_dir_name,
                         match by_id with
                         | [] => None
                         | _ => Some by_id
                         end))
                end
            end
      end
  end.

End Exporting.

End Attachments.

(** A manifest that lists the test [S/t] twice, the first time with its
    URL. *)
Definition twice_listed_manifest : json :=
  JDict [("testAttachmentDetails",
          JList [JDict [("testIdentifier", JStr "S/t");
                        ("testIdentifierURL", JStr "test://S/t");
                        ("attachments",
                         JList [JDict [("exportedFileName", JStr "a.png")]])];
                 JDict [("testIdentifier", JStr "S/t");
                        ("attachments",
                         JList [JDict [("exportedFileName", JStr "b.png")]])]])].

(** The index of that manifest. *)
Definition twice_listed_index : Attachments.index :=
  [(JStr "S/t", [JStr "b.png"]); (JStr "test://S/t", [JStr "a.png"])].

(** A manifest whose one entry has a number for attachments. *)
Definition numeric_attachments_manifest : json :=
  JList [JDict [("testIdentifier", JStr "S/t"); ("attachments", JInt 3)]].

(** ** [build_html] over the index as the export builds it

    The keys of the index of [_export_attachments] and its file names are
    whatever the manifest holds: a key is any value that is true and can be
    hashed, a file name any value that is true.  This is [build_html] over
    such an index. *)

Module Indexed.
Import Attachments.

(** The fallback loop over the keys still to visit.  [test_id in key] raises
    for a key that is no [str], and for a [str] key when [test_id] is no
    [str]; [screenshot_map[key]] is read for the first key that matches. *)
Fixpoint scan_keys (screenshot_map : index) (test_id : json)
    (keys : list json) (imgs : option (list json))
  : result (option (list json)) :=
  match keys with
  | [] => Ok imgs
  | key :: keys' =>
      match key, test_id with
      | JStr k, JStr t =>
          if key_matches t k then Ok (index_get key screenshot_map)
          else scan_keys screenshot_map test_id keys' imgs
      | _, _ => Raise TypeError
      end
  end.

(** [imgs] after [screenshot_map.get(test_id)] and, when that is not true,
    the fallback loop. *)
Definition find_screens (screenshot_map : index) (test_id : json)
  : result (option (list json)) :=
  if hashable test_id
  then
    match index_get test_id screenshot_map with
    | Some (fn :: fns) => Ok (Some (fn :: fns))
    | imgs => scan_keys screenshot_map test_id (map fst screenshot_map) imgs
    end
  else Raise TypeError.

Section Render.
Context {py : PyBuiltins}.

(** What one turn of the loop over [details] appends to [html]; the file
    names are inserted as [str] makes them. *)
Definition render_item (has_failures : bool) (shots : option (string * index))
    (item : pydict) : result string :=
  let test_id := get_default item "testIdentifierString" (JStr EmptyString) in
  match shots with
  | None => Ok (item_row has_failures item)
  | Some (dir, screenshot_map) =>
      imgs <- find_screens screenshot_map test_id ;;
      Ok (item_row has_failures item
          ++ match imgs with
             | Some (fn :: fns) =>
                 shots_row has_failures dir (map py_str (fn :: fns))
             | _ => EmptyString
             end)
  end.

(** The loop over [details]. *)
Fixpoint render_items (has_failures : bool) (shots : option (string * index))
    (details : list pydict) : result string :=
  match details with
  | [] => Ok EmptyString
  | item :: rest =>
      row <- render_item has_failures shots item ;;
      rows <- render_items has_failures shots rest ;;
      Ok (row ++ rows)
  end.

(** [screenshot_dir_relative and screenshot_map], when it is true. *)
Definition active_shots (screenshot_dir_relative : option string)
    (screenshot_map : option index) : option (string * index) :=
  match screenshot_dir_relative, screenshot_map with
  | Some dir, Some (e :: m) =>
      if nonempty dir then Some (dir, e :: m) else None
  | _, _ => None
  end.

(** The optional details section, for [details] that is true. *)
Definition details_section (details : list pydict)
    (screenshot_dir_relative : option string) (screenshot_map : option index)
  : result string :=
  let shots := active_shots screenshot_dir_relative screenshot_map in
  let has_failures := existsb (fun item => truthy (get item "failure")) details in
  let meta_note :=
    match shots with
    | Some _ => "Screenshots included below when available."
    | None => "Best-effort list of tests discovered in the xcresult summary. Screenshots and other rich attachments are not included."
    end in
  rows <- render_items has_failures shots details ;;
  Ok (details_open meta_note
      ++ (if has_failures then th_failure else EmptyString)
      ++ thead_close ++ rows ++ details_close).

Definition build_html (passed failed skipped : Z) (source_name title : string)
    (details : option (list pydict))
    (screenshot_dir_relative : option string) (screenshot_map : option index)
  : result string :=
  let total := passed + failed + skipped in
  let head := html_head title (str_of_int total) (str_of_int passed)
                (str_of_int failed) (str_of_int skipped) source_name in
  section <- match details with
             | Some (item :: rest) =>
                 details_section (item :: rest) screenshot_dir_relative
                   screenshot_map
             | _ => Ok EmptyString
             end ;;
  Ok (head ++ section
      ++ html_tail (str_of_int passed) (str_of_int failed) (str_of_int skipped)).

End Render.

(** *** Notions for the properties of the lookup *)

(** The fallback loop over [keys] meets, before any key that matches, a key
    on which the membership test raises: any key when [test_id] is no
    string, a key that is no string otherwise. *)
Definition blocked (test_id : json) (keys : list json) : Prop :=
  match test_id with
  | JStr t =>
      exists pre key post,
        keys = (pre ++ key :: post)%list
        /\ is_str key = false
        /\ forall k, In k pre -> exists s, k = JStr s /\ key_matches t s = false
  | _ => keys <> []
  end.

(** The lookup of [test_id] raises: it cannot be hashed, or the index holds
    no file name under it and the fallback loop is blocked. *)
Definition lookup_fails (screenshot_map : index) (test_id : json) : Prop :=
  hashable test_id = false
  \/ ((index_get test_id screenshot_map = None
       \/ index_get test_id screenshot_map = Some [])
      /\ blocked test_id (map fst screenshot_map)).

(** Every key of the index is a string. *)
Definition string_keys (screenshot_map : index) : Prop :=
  forall key names, In (key, names) screenshot_map -> is_str key = true.

(** An index of strings as an index. *)
Definition index_of_smap (m : smap) : index :=
  map (fun kv => (JStr (fst kv), map JStr (snd kv))) m.

End Indexed.

(** The index of a manifest whose one test has the number 1 for
    identifier. *)
Definition numbered_index : Attachments.index := [(JInt 1, [JStr "a.png"])].

(** A record whose identifier is the number 1. *)
Definition first_id_record : pydict :=
  [("name", JStr "t"); ("status", JStr "Failed"); ("suite", JStr "S");
   ("failure", JStr "x"); ("testIdentifierString", JInt 1)].

(** ** The web server: [server/app.py] *)

Module Server.

(** A path that is absolute, as [Path.resolve] and the directories of the
    server are: its components below the root. *)
Definition path : Type := list string.

(** [p.parent]: the root is its own parent. *)
Definition parent (p : path) : path := removelast p.

(** [p.name] *)
Definition name (p : path) : string := last p EmptyString.

(** [str(p)] *)
Definition path_str (p : path) : string := "/" ++ String.concat "/" p.

(** [p == q] *)
Fixpoint path_eqb (p q : path) : bool :=
  match p, q with
  | [], [] => true
  | a :: p', b :: q' => String.eqb a b && path_eqb p' q'
  | _, _ => false
  end.

(** How [_unpack_upload] ends: with the path of the bundle, with a
    [ValueError], or with another exception, of which [upload] reads the
    text. *)
Inductive unpack_result : Type :=
| Unpacked (bundle : path)
| UnpackValueError (text : string)
| UnpackFailed (text : string).

(** The outside world of the server: its two directories, a fresh
    identifier ([uuid.uuid4().hex[:12]]), [Path(s).expanduser().resolve()],
    which raises when the home directory of [~user] is not known or the file
    system refuses, [p.exists()], which raises on the errors of [stat] it
    does not take for an absent file, [p.suffix], and [_unpack_upload] on the
    file of the request. *)
Class ServerWorld : Type := {
  UPLOAD_DIR : path;
  REPORT_DIR : path;
  new_id : string;
  resolve : string -> result path;
  exists_ : path -> result bool;
  suffix : path -> string;
  _unpack_upload : unpack_result
}.

(** How [_resolve_local_path] ends when it does not return the path: with a
    [ValueError] of its own, of which [upload] reads the text, or with the
    exception that [expanduser], [resolve] or [exists] has raised. *)
Inductive refusal : Type :=
| Invalid (text : string)
| Escaped (e : exn).

(** What a request leaves behind, in order: a step of the pipeline, a
    message flashed, the upload unpacked, a directory tree removed. *)
Inductive srv_event : Type :=
| Ran (ev : event)
| Flash (message : string)
| Unpack
| RmTree (p : path).

(** Where a redirect goes. *)
Inductive target : Type :=
| Index
| Report (report_id : string).

(** What a view returns. *)
Inductive response : Type :=
| Redirect (to : target)
| SendFile (file : string) (download_name : option string).

(** [request.form.get] and the file name of [request.files["file"]], when
    there is such a file. *)
Record request : Type := {
  form : string -> option string;
  file : option (option string)
}.

Section Views.
Context {py : PyBuiltins} {world : World} {cli : Cli} {server : ServerWorld}.

(** Validate and return a local [.xcresult] path. *)
Definition _resolve_local_path (raw_path : string) : path + refusal :=
  match resolve (strip raw_path) with
  | Raise e => inr (Escaped e)
  | Ok p =>
      match exists_ p with
      | Raise e => inr (Escaped e)
      | Ok found =>
          if negb found
          then inr (Invalid ("Path does not exist: " ++ path_str p))
          else if negb (String.eqb (suffix p) ".xcresult")
          then inr (Invalid ("Not a .xcresult bundle: " ++ name p
                             ++ ". Select a path ending in .xcresult."))
          else inl p
      end
  end.

(** [REPORT_DIR / f"{report_id}.html"] *)
Definition report_file (report_id : string) : path :=
  (REPORT_DIR ++ [(report_id ++ ".html")%string])%list.

(** Run the report pipeline and return a redirect to the result, or to the
    index on error. *)
Definition _generate_report (xcresult_path : path) (title : string)
    (include_details : bool) (cleanup_path : option path)
  : list srv_event * response :=
  let report_id := new_id in
  let out_html := report_file report_id in
  let cleanup :=
    match cleanup_path with
    | Some p => [RmTree p]
    | None => []
    end in
  let (trace, r) :=
    _process_xcresult_to_html (path_str xcresult_path) (path_str out_html)
      (Some title) include_details false in
  match r with
  | Raise exc =>
      ((map Ran trace
        ++ [Flash ("Error generating report: " ++ str_of_exn exc)]
        ++ cleanup)%list,
       Redirect Index)
  | Ok _ => ((map Ran trace ++ cleanup)%list, Redirect (Report report_id))
  end.

(** The loop of [upload] that climbs from the bundle to the directory of
    the job: [fuel] turns at most. *)
Fixpoint climb (fuel : nat) (cleanup : path) : path :=
  match fuel with
  | O => cleanup
  | S fuel' =>
      if negb (path_eqb (parent cleanup) UPLOAD_DIR)
         && negb (path_eqb (parent cleanup) cleanup)
      then climb fuel' (parent cleanup)
      else cleanup
  end.

(** [(request.form.get(k) or "").strip()] *)
Definition form_text (req : request) (k : string) : string :=
  strip (match form req k with
         | Some s => s
         | None => EmptyString
         end).

(** The view of the form.  Around [_resolve_local_path] it catches
    [ValueError] only: any other exception leaves the view. *)
Definition upload (req : request) : list srv_event * result response :=
  let title :=
    if nonempty (form_text req "title") then form_text req "title"
    else "XCTest Summary" in
  let include_details :=
    match form req "include_details" with
    | Some s => String.eqb s "on"
    | None => false
    end in
  let local_path := form_text req "local_path" in
  let has_file :=
    match file req with
    | Some (Some filename) => nonempty filename
    | _ => false
    end in
  if negb (nonempty local_path) && negb has_file
  then ([Flash "Provide a path to a .xcresult bundle or upload a zipped one."],
        Ok (Redirect Index))
  else if nonempty local_path
  then
    match _resolve_local_path local_path with
    | inr (Invalid text) => ([Flash text], Ok (Redirect Index))
    | inr (Escaped ValueError) =>
        ([Flash (str_of_exn ValueError)], Ok (Redirect Index))
    | inr (Escaped exc) => ([], Raise exc)
    | inl xcresult_path =>
        let (trace, resp) :=
          _generate_report xcresult_path title include_details None in
        (trace, Ok resp)
    end
  else
    match _unpack_upload with
    | UnpackValueError text => ([Unpack; Flash text], Ok (Redirect Index))
    | UnpackFailed text =>
        ([Unpack; Flash ("Failed to process upload: " ++ text)],
         Ok (Redirect Index))
    | Unpacked xcresult_path =>
        let cleanup := climb (List.length xcresult_path) xcresult_path in
        let (trace, resp) :=
          _generate_report xcresult_path title include_details (Some cleanup) in
        (Unpack :: trace, Ok resp)
    end.

(** The view of a report, and its download. *)
Definition report (report_id : string) : list srv_event * result response :=
  match exists_ (report_file report_id) with
  | Raise exc => ([], Raise exc)
  | Ok found =>
      if negb found
      then ([Flash "Report not found or expired."], Ok (Redirect Index))
      else ([], Ok (SendFile (path_str (report_file report_id)) None))
  end.

Definition download (report_id : string)
  : list srv_event * result response :=
  match exists_ (report_file report_id) with
  | Raise exc => ([], Raise exc)
  | Ok found =>
      if negb found
      then ([Flash "Report not found or expired."], Ok (Redirect Index))
      else ([], Ok (SendFile (path_str (report_file report_id))
                      (Some ("xctest_report_" ++ report_id ++ ".html"))))
  end.

End Views.

(** The trees removed, and the steps of the pipeline, among the events. *)
Definition removed (trace : list srv_event) : list path :=
  flat_map (fun ev => match ev with RmTree p => [p] | _ => [] end) trace.

Definition ran (trace : list srv_event) : list event :=
  flat_map (fun ev => match ev with Ran e => [e] | _ => [] end) trace.

Definition flashed (trace : list srv_event) : list string :=
  flat_map (fun ev => match ev with Flash m => [m] | _ => [] end) trace.

End Server.

(** A server with its directories under [/tmp], local paths that all exist
    and end in [.xcresult], except those of the user [~nobody], who has no
    home directory, and an upload that unpacks as given. *)
Definition temp_server (unpacked : Server.unpack_result) : Server.ServerWorld :=
  {| Server.UPLOAD_DIR := ["tmp"; "xcresult_server_uploads"];
     Server.REPORT_DIR := ["tmp"; "xcresult_server_reports"];
     Server.new_id := "0123456789ab";
     Server.resolve := fun s =>
       if prefix "~nobody" s
       then Raise (RuntimeError "Could not determine home directory.")
       else Ok [s];
     Server.exists_ := fun _ => Ok true;
     Server.suffix := fun _ => ".xcresult";
     Server._unpack_upload := unpacked |}.

(** A bundle two levels below the directory of its job. *)
Definition unpacked_bundle : Server.path :=
  ["tmp"; "xcresult_server_uploads"; "job1"; "extracted"; "Run.xcresult"].

(** A request with a zip and no path, and one with a path and no zip. *)
Definition zip_request : Server.request :=
  {| Server.form := fun _ => None;
     Server.file := Some (Some "run.zip") |}.

Definition path_request : Server.request :=
  {| Server.form := fun k =>
       if String.eqb k "local_path" then Some " r.xcresult " else None;
     Server.file := None |}.

(** A request with the path of a bundle of a user that does not exist. *)
Definition nobody_request : Server.request :=
  {| Server.form := fun k =>
       if String.eqb k "local_path" then Some "~nobody/r.xcresult" else None;
     Server.file := None |}.

(** ** The window: [XCResultGUI._generate_html] *)

Module Gui.

(** The values of the variables of the window that the method reads. *)
Record fields : Type := {
  xcresult_path : string;
  output_path : string;
  report_title : string;
  include_details : bool
}.

(** What the method does, in order: a step of the pipeline or a line of the
    log, an error dialog, the output path of the window set, the status line
    set (by its head), the spinner started or stopped, and
    [_finish_success], called at once or when the minimum time of the
    spinner is over. *)
Inductive gui_event : Type :=
| Did (ev : event)
| ShowError (title message : string)
| SetOutputPath (path : string)
| SetStatus (head : string)
| StartSpinner
| StopSpinner
| FinishSuccess (out_path : string).

Section Generate.
Context {py : PyBuiltins} {world : World} {cli : Cli} {paths : Paths}.

(** [None]: the search for a free path does not end within [fuel] turns. *)
Definition _generate_html (fuel : nat) (f : fields) : option (list gui_event) :=
  let xc_path := xcresult_path f in
  let out_path := output_path f in
  if negb (nonempty xc_path)
  then Some [ShowError "Missing input" "Please select an .xcresult bundle first."]
  else if negb (nonempty out_path)
  then Some [ShowError "Missing output"
               "Please choose where to save the HTML file."]
  else
    match _next_available_report_path fuel out_path with
    | None => None
    | Some out_path =>
        let set_path :=
          if negb (String.eqb out_path (output_path f))
          then [SetOutputPath out_path] else [] in
        let title :=
          if nonempty (strip (report_title f))
          then Some (strip (report_title f)) else None in
        let (trace, r) :=
          _process_xcresult_to_html xc_path out_path title
            (include_details f) false in
        Some (set_path
              ++ [SetStatus "Extracting summary"; StartSpinner;
                  Did (EvLog "[generate]")]
              ++ map Did trace
              ++ match r with
                 | Raise exc =>
                     [ShowError "Error" (str_of_exn exc);
                      SetStatus "Error generating HTML"; StopSpinner]
                 | Ok _ => [FinishSuccess out_path]
                 end)%list
    end.

End Generate.

(** The steps of the pipeline among the events. *)
Definition did (trace : list gui_event) : list event :=
  flat_map (fun ev => match ev with Did e => [e] | _ => [] end) trace.

End Gui.

(** The window asked for a report at [out/report.html]. *)
Definition report_fields : Gui.fields :=
  {| Gui.xcresult_path := "r.xcresult";
     Gui.output_path := "out/report.html";
     Gui.report_title := "  ";
     Gui.include_details := true |}.

(** An export that leaves the manifest that lists [S/t] twice. *)
Definition listing_twice : Attachments.ExportWorld :=
  {| Attachments.make_dir := fun _ => None;
     Attachments.run_export := fun _ => Attachments.Exported 0 EmptyString EmptyString;
     Attachments.manifest_exists := fun _ => true;
     Attachments.read_manifest := fun _ => Some twice_listed_manifest |}.

(** * Properties *)

(** ** Induction on documents *)

Section JsonInd.
Variable P : json -> Prop.
Hypothesis HNull : P JNull.
Hypothesis HBool : forall b, P (JBool b).
Hypothesis HInt : forall n, P (JInt n).
Hypothesis HFloat : forall x, P (JFloat x).
Hypothesis HStr : forall s, P (JStr s).
Hypothesis HList : forall items, Forall P items -> P (JList items).
Hypothesis HDict : forall entries,
  Forall (fun kv => P (snd kv)) entries -> P (JDict entries).

Fixpoint json_nested_ind (v : json) : P v :=
  match v with
  | JNull => HNull
  | JBool b => HBool b
  | JInt n => HInt n
  | JFloat x => HFloat x
  | JStr s => HStr s
  | JList items =>
      HList items
        ((fix go (l : list json) : Forall P l :=
            match l with
            | [] => Forall_nil _
            | x :: l' => Forall_cons x (json_nested_ind x) (go l')
            end) items)
  | JDict entries =>
      HDict entries
        ((fix go (l : list (string * json)) : Forall (fun kv => P (snd kv)) l :=
            match l with
            | [] => Forall_nil _
            | kv :: l' => Forall_cons kv (json_nested_ind (snd kv)) (go l')
            end) entries)
  end.
End JsonInd.

(** ** Dictionaries *)

Lemma has_key_lookup (k : string) (d : pydict) :
  has_key k d = true <-> exists v, lookup k d = Some v.
Proof.
  induction d as [|[k' v'] d IH]; simpl.
  - split; [discriminate | intros [v H]; discriminate].
  - destruct (String.eqb k k').
    + split; [eauto | reflexivity].
    + exact IH.
Qed.

Lemma has_key_false_lookup (k : string) (d : pydict) :
  has_key k d = false <-> lookup k d = None.
Proof.
  induction d as [|[k' v'] d IH]; simpl.
  - tauto.
  - destruct (String.eqb k k'); [split; discriminate | exact IH].
Qed.

Lemma lookup_In (k : string) (d : pydict) (v : json) :
  lookup k d = Some v -> In (k, v) d.
Proof.
  induction d as [|[k' v'] d IH]; simpl; [discriminate|].
  destruct (String.eqb_spec k k') as [->|_].
  - intros [= ->]. now left.
  - intros H. right. auto.
Qed.

Lemma get_default_cases (d : pydict) (k : string) (default : json) :
  (has_key k d = false /\ get_default d k default = default)
  \/ (exists v, In (k, v) d /\ get_default d k default = v).
Proof.
  unfold get_default. destruct (lookup k d) as [v|] eqn:E.
  - right. exists v. split; [now apply lookup_In | reflexivity].
  - left. split; [now apply has_key_false_lookup | reflexivity].
Qed.

(** ** The fall-through of the loop *)

Section CountsFacts.
Context {py : PyBuiltins}.

Lemma first_counts_skip (pre rest : list json) :
  (forall n, In n pre -> node_counts n = None) ->
  first_counts (pre ++ rest) = first_counts rest.
Proof.
  induction pre as [|n pre IH]; intros H; simpl; [reflexivity|].
  rewrite (H n (or_introl eq_refl)). apply IH. intros m Hm. apply H. now right.
Qed.

Lemma first_counts_hit (pre post : list json) (n : json) (r : Z * Z * Z) :
  (forall m, In m pre -> node_counts m = None) ->
  node_counts n = Some r ->
  first_counts (pre ++ n :: post) = r.
Proof.
  intros Hpre Hn. rewrite first_counts_skip by exact Hpre. simpl. now rewrite Hn.
Qed.

Lemma count_of_int (n : Z) : count_of (JInt n) = Some n.
Proof.
  unfold count_of, py_or. simpl. destruct (Z.eqb_spec n 0) as [->|_]; reflexivity.
Qed.

Lemma count_of_wrapped (n : Z) : count_of (wrapped n) = Some n.
Proof.
  unfold count_of, py_or, wrapped. simpl.
  destruct (Z.eqb_spec n 0) as [->|_]; reflexivity.
Qed.

End CountsFacts.

(** ** Count normalisation *)

Section CountsTheorems.
Context {py : PyBuiltins}.

Lemma get_default_lookup (d : pydict) (k : string) (default v : json) :
  lookup k d = Some v -> get_default d k default = v.
Proof. unfold get_default. now intros ->. Qed.

Lemma get_default_missing (d : pydict) (k : string) (default : json) :
  lookup k d = None -> get_default d k default = default.
Proof. unfold get_default. now intros ->. Qed.

Lemma lookup_has_key (d : pydict) (k : string) (v : json) :
  lookup k d = Some v -> has_key k d = true.
Proof. intros H. apply has_key_lookup. eauto. Qed.

Lemma read3_some (a b c : json) (x y z : Z) :
  count_of a = Some x -> count_of b = Some y -> count_of c = Some z ->
  read3 a b c = Some (x, y, z).
Proof. unfold read3. now intros -> -> ->. Qed.

Lemma read3_none (a b c : json) :
  read3 a b c = None <->
  count_of a = None \/ count_of b = None \/ count_of c = None.
Proof.
  unfold read3.
  destruct (count_of a), (count_of b), (count_of c);
    intuition discriminate.
Qed.

(** A dictionary whose key set has none of the five shapes is passed over. *)
Lemma key_miss (d : pydict) :
  matches_key_pattern d = false -> node_counts (JDict d) = None.
Proof.
  unfold matches_key_pattern, node_counts, pattern_summary, pattern_total,
    pattern_A, pattern_B, pattern_alt, direct_pattern.
  intros H.
  repeat (apply orb_false_iff in H; destruct H as [H ?]).
  repeat match goal with
         | E : _ && _ = false |- _ => rewrite E; clear E
         end.
  reflexivity.
Qed.

(** C4.  When the first dictionary of the pre-order traversal at which a
    block returns has the keys [passedTests] and [failedTests],
    [extract_counts] returns the integer values of [passedTests],
    [failedTests] and [skippedTests], the last one being 0 when the key is
    absent; the integer value of a count is the count itself, also when it is
    wrapped as [{"_value": n}]; the dictionaries before it are passed over
    when their key sets have none of the five shapes; scenario A yields
    (10, 2, 1). *)
Theorem summary_pattern_reads_counts :
  (forall (doc : json) (pre post : list json) (d : pydict)
          (vp vf : json) (p f s : Z),
      deep_iter doc = (pre ++ JDict d :: post)%list ->
      (forall n, In n pre -> node_counts n = None) ->
      lookup "passedTests" d = Some vp -> count_of vp = Some p ->
      lookup "failedTests" d = Some vf -> count_of vf = Some f ->
      (lookup "skippedTests" d = None /\ s = 0
       \/ exists vs, lookup "skippedTests" d = Some vs /\ count_of vs = Some s) ->
      extract_counts doc = (p, f, s))
  /\ (forall n, count_of (JInt n) = Some n /\ count_of (wrapped n) = Some n)
  /\ (forall d, matches_key_pattern d = false -> node_counts (JDict d) = None)
  /\ extract_counts scenario_A = (10, 2, 1).
Proof.
  split; [|split; [|split; [exact key_miss | reflexivity]]].
  - intros doc pre post d vp vf p f s Hdoc Hpre Hp Sp Hf Sf Hs.
    unfold extract_counts. rewrite Hdoc.
    apply first_counts_hit; [exact Hpre|].
    unfold node_counts, pattern_summary, direct_pattern.
    rewrite (lookup_has_key _ _ _ Hp), (lookup_has_key _ _ _ Hf). simpl.
    rewrite (get_default_lookup _ _ _ _ Hp), (get_default_lookup _ _ _ _ Hf).
    erewrite read3_some; [reflexivity | exact Sp | exact Sf |].
    destruct Hs as [[Hs ->] | [vs [Hs Ss]]].
    + rewrite (get_default_missing _ _ _ Hs). apply count_of_int.
    + rewrite (get_default_lookup _ _ _ _ Hs). exact Ss.
  - intros n. split; [apply count_of_int | apply count_of_wrapped].
Qed.

(** C3.  At a dictionary with [totalTestCount] and [failedTests] or
    [testsFailedCount], reached with no earlier block having returned,
    [extract_counts] returns passed = max(total - failed - skipped, 0), which
    is never negative, also when failed + skipped exceeds total, with failed
    and skipped as read (skipped 0 when absent); scenario B yields
    (95, 5, 0). *)
Theorem total_pattern_clamps_passed :
  (forall (doc : json) (pre post : list json) (d : pydict)
          (vt vf : json) (total f s : Z),
      deep_iter doc = (pre ++ JDict d :: post)%list ->
      (forall n, In n pre -> node_counts n = None) ->
      pattern_summary d = None ->
      lookup "totalTestCount" d = Some vt -> count_of vt = Some total ->
      (lookup "failedTests" d = Some vf
       \/ lookup "failedTests" d = None /\ lookup "testsFailedCount" d = Some vf) ->
      count_of vf = Some f ->
      (lookup "skippedTests" d = None /\ lookup "testsSkippedCount" d = None /\ s = 0
       \/ (exists vs, lookup "skippedTests" d = Some vs /\ count_of vs = Some s)
       \/ (exists vs, lookup "skippedTests" d = None
                      /\ lookup "testsSkippedCount" d = Some vs
                      /\ count_of vs = Some s)) ->
      extract_counts doc = (Z.max (total - f - s) 0, f, s)
      /\ 0 <= Z.max (total - f - s) 0
      /\ (total < f + s -> extract_counts doc = (0, f, s)))
  /\ (forall n, count_of (JInt n) = Some n /\ count_of (wrapped n) = Some n)
  /\ extract_counts scenario_B = (95, 5, 0).
Proof.
  split; [|split; [|reflexivity]].
  2: { intros n. split; [apply count_of_int | apply count_of_wrapped]. }
  intros doc pre post d vt vf total f s Hdoc Hpre H0 Ht St Hf Sf Hs.
  assert (E : extract_counts doc = (Z.max (total - f - s) 0, f, s)).
  { unfold extract_counts. rewrite Hdoc.
    apply first_counts_hit; [exact Hpre|].
    unfold node_counts. rewrite H0. simpl.
    unfold pattern_total.
    rewrite (lookup_has_key _ _ _ Ht).
    assert (Hk : has_key "failedTests" d || has_key "testsFailedCount" d = true).
    { destruct Hf as [Hf | [_ Hf]]; rewrite (lookup_has_key _ _ _ Hf);
        [reflexivity | apply orb_true_r]. }
    rewrite Hk. simpl.
    erewrite read3_some; [reflexivity | | |].
    - rewrite (get_default_lookup _ _ _ _ Ht). exact St.
    - destruct Hf as [Hf | [Hn Hf]].
      + rewrite (get_default_lookup _ _ _ _ Hf). exact Sf.
      + rewrite (get_default_missing _ _ _ Hn), (get_default_lookup _ _ _ _ Hf).
        exact Sf.
    - destruct Hs as [(Hs1 & Hs2 & ->) | [[vs [Hs Ss]] | [vs (Hs1 & Hs2 & Ss)]]].
      + rewrite (get_default_missing _ _ _ Hs1), (get_default_missing _ _ _ Hs2).
        apply count_of_int.
      + rewrite (get_default_lookup _ _ _ _ Hs). exact Ss.
      + rewrite (get_default_missing _ _ _ Hs1), (get_default_lookup _ _ _ _ Hs2).
        exact Ss. }
  split; [exact E|]. split; [lia|].
  intros Hlt. rewrite E. f_equal. f_equal. lia.
Qed.

(** C5.  A document none of whose dictionaries has a key set of one of the
    five shapes yields (0, 0, 0); [extract_counts] is a total function, so
    nothing is raised; the empty object is such a document. *)
Theorem no_pattern_yields_zero :
  (forall doc : json,
      (forall d, In (JDict d) (deep_iter doc) -> matches_key_pattern d = false) ->
      extract_counts doc = (0, 0, 0))
  /\ extract_counts scenario_C = (0, 0, 0).
Proof.
  split; [|reflexivity].
  intros doc H. unfold extract_counts.
  rewrite <- (List.app_nil_r (deep_iter doc)).
  rewrite first_counts_skip; [reflexivity|].
  intros n Hn. destruct n; try reflexivity.
  apply key_miss, H, Hn.
Qed.

End CountsTheorems.

(** ** The sign of the counts *)

Lemma subvalues_refl (v : json) : In v (subvalues v).
Proof. destruct v; simpl; now left. Qed.

Lemma subvalues_cases (x v : json) :
  In x (subvalues v) ->
  x = v
  \/ (exists items item, v = JList items /\ In item items /\ In x (subvalues item))
  \/ (exists entries kv, v = JDict entries /\ In kv entries
                         /\ In x (subvalues (snd kv))).
Proof.
  destruct v; simpl; intros [H | H]; auto; try contradiction.
  - apply in_flat_map in H. destruct H as [item [H1 H2]]. right. left. eauto.
  - apply in_flat_map in H. destruct H as [kv [H1 H2]]. right. right. eauto.
Qed.

Lemma subvalues_list (items : list json) (item x : json) :
  In item items -> In x (subvalues item) -> In x (subvalues (JList items)).
Proof. intros H1 H2. simpl. right. apply in_flat_map. eauto. Qed.

Lemma subvalues_dict (entries : pydict) (kv : string * json) (x : json) :
  In kv entries -> In x (subvalues (snd kv)) -> In x (subvalues (JDict entries)).
Proof. intros H1 H2. simpl. right. apply in_flat_map. eauto. Qed.

Lemma subvalues_trans (z : json) :
  forall u w, In u (subvalues w) -> In w (subvalues z) -> In u (subvalues z).
Proof.
  induction z using json_nested_ind; intros u w Hu Hw;
    apply subvalues_cases in Hw;
    destruct Hw as [-> | [(items' & item & E & Hi & Hw) | (entries' & kv & E & Hi & Hw)]];
    try exact Hu; try discriminate.
  - injection E as <-.
    apply (subvalues_list _ item); [exact Hi|].
    rewrite Forall_forall in H. exact (H item Hi u w Hu Hw).
  - injection E as <-.
    apply (subvalues_dict _ kv); [exact Hi|].
    rewrite Forall_forall in H. exact (H kv Hi u w Hu Hw).
Qed.

(** The dictionaries [deep_iter] yields are values of the document. *)
Lemma deep_iter_subvalues (doc : json) :
  forall node, In node (deep_iter doc) -> In node (subvalues doc).
Proof.
  induction doc using json_nested_ind; simpl; intros node Hn; try contradiction.
  - right. apply in_flat_map in Hn. destruct Hn as [item [Hi Hn]].
    apply in_flat_map. exists item. split; [exact Hi|].
    rewrite Forall_forall in H. now apply H.
  - destruct Hn as [Hn | Hn]; [now left | right].
    apply in_flat_map in Hn. destruct Hn as [kv [Hi Hn]].
    apply in_flat_map. exists kv. split; [exact Hi|].
    rewrite Forall_forall in H. now apply H.
Qed.

Section SignFacts.
Context {py : PyBuiltins}.

Lemma no_negative_value_sub (doc v : json) :
  no_negative_value doc -> In v (subvalues doc) -> no_negative_value v.
Proof.
  intros H Hv x z Hx. apply H. now apply (subvalues_trans doc x v).
Qed.

Lemma unwrap_subvalue (v : json) :
  unwrap v = JNull \/ In (unwrap v) (subvalues v).
Proof.
  destruct v; simpl; auto.
  destruct (has_key "_value" entries); [|right; now left].
  unfold get. destruct (get_default_cases entries "_value" JNull)
    as [[_ ->] | [x [Hx ->]]]; [now left | right; right].
  apply in_flat_map. exists ("_value", x). split; [exact Hx | apply subvalues_refl].
Qed.

Lemma count_of_nonneg (v : json) (z : Z) :
  no_negative_value v -> count_of v = Some z -> 0 <= z.
Proof.
  intros H. unfold count_of, py_or.
  destruct (truthy (unwrap v)) eqn:T.
  - destruct (unwrap_subvalue v) as [E | Hin].
    + rewrite E in T. discriminate.
    + intros Hz. exact (H _ _ Hin Hz).
  - simpl. intros [= <-]. lia.
Qed.

Lemma field_nonneg (d : pydict) (k : string) (default : json) (z : Z) :
  no_negative_value (JDict d) ->
  (forall z', count_of default = Some z' -> 0 <= z') ->
  count_of (get_default d k default) = Some z -> 0 <= z.
Proof.
  intros H Hd.
  destruct (get_default_cases d k default) as [[_ ->] | [x [Hx ->]]]; [apply Hd|].
  apply count_of_nonneg. apply (no_negative_value_sub (JDict d)); [exact H|].
  apply (subvalues_dict d (k, x)); [exact Hx | apply subvalues_refl].
Qed.

Lemma zero_default_nonneg (z : Z) : count_of (JInt 0) = Some z -> 0 <= z.
Proof. rewrite count_of_int. intros [= <-]. lia. Qed.

Lemma read3_nonneg (d : pydict) (a b c : json) (r : Z * Z * Z) :
  (forall z, count_of a = Some z -> 0 <= z) ->
  (forall z, count_of b = Some z -> 0 <= z) ->
  (forall z, count_of c = Some z -> 0 <= z) ->
  read3 a b c = Some r -> nonneg3 r.
Proof.
  intros Ha Hb Hc. unfold read3.
  destruct (count_of a) as [x|]; [|discriminate].
  destruct (count_of b) as [y|]; [|discriminate].
  destruct (count_of c) as [z|]; [|discriminate].
  intros [= <-]. simpl. auto.
Qed.

Lemma direct_pattern_nonneg (kp kf ks : string) (d : pydict) (r : Z * Z * Z) :
  no_negative_value (JDict d) ->
  direct_pattern kp kf ks d = Some r -> nonneg3 r.
Proof.
  intros H. unfold direct_pattern.
  destruct (has_key kp d && has_key kf d); [|discriminate].
  apply (read3_nonneg d); intros z; apply field_nonneg;
    auto using zero_default_nonneg.
Qed.

(** The passed count of the [totalTestCount] block is clamped, whatever the
    document holds. *)
Lemma pattern_total_passed_nonneg (d : pydict) (p f s : Z) :
  pattern_total d = Some (p, f, s) -> 0 <= p.
Proof.
  unfold pattern_total.
  destruct (_ && _); [|discriminate].
  destruct (read3 _ _ _) as [[[total f'] s']|]; [|discriminate].
  intros [= <- _ _]. lia.
Qed.

Lemma pattern_total_nonneg (d : pydict) (r : Z * Z * Z) :
  no_negative_value (JDict d) -> pattern_total d = Some r -> nonneg3 r.
Proof.
  intros H. unfold pattern_total.
  destruct (_ && _); [|discriminate].
  destruct (read3 _ _ _) as [[[total f] s]|] eqn:E; [|discriminate].
  intros [= <-].
  assert (N : nonneg3 (total, f, s)).
  { revert E.
    apply (read3_nonneg d); intros z; apply field_nonneg;
      auto using zero_default_nonneg;
      intros z'; apply field_nonneg; auto using zero_default_nonneg. }
  destruct N as (_ & Hf & Hs). simpl. repeat split; [lia | exact Hf | exact Hs].
Qed.

Lemma node_counts_nonneg (n : json) (r : Z * Z * Z) :
  no_negative_value n -> node_counts n = Some r -> nonneg3 r.
Proof.
  intros H. destruct n as [| | | | | |d]; try discriminate. simpl.
  unfold or_else.
  destruct (pattern_summary d) eqn:E1.
  { intros [= <-]. exact (direct_pattern_nonneg _ _ _ _ _ H E1). }
  destruct (pattern_total d) eqn:E2.
  { intros [= <-]. exact (pattern_total_nonneg _ _ H E2). }
  destruct (pattern_A d) eqn:E3.
  { intros [= <-]. exact (direct_pattern_nonneg _ _ _ _ _ H E3). }
  destruct (pattern_B d) eqn:E4.
  { intros [= <-]. exact (direct_pattern_nonneg _ _ _ _ _ H E4). }
  intros E5. exact (direct_pattern_nonneg _ _ _ _ _ H E5).
Qed.

Lemma first_counts_nonneg (nodes : list json) :
  (forall n, In n nodes -> no_negative_value n) -> nonneg3 (first_counts nodes).
Proof.
  induction nodes as [|n nodes IH]; intros H; simpl.
  - lia.
  - destruct (node_counts n) as [r|] eqn:E.
    + apply (node_counts_nonneg n); [apply H; now left | exact E].
    + apply IH. intros m Hm. apply H. now right.
Qed.

(** C2, for the counts as they are read.  The triple [extract_counts]
    returns is made of three integers, which are not negative when no value
    of the document converts to a negative integer; the passed count of the
    [totalTestCount] block is never negative. *)
Theorem counts_nonneg_without_negative_values :
  (forall doc : json, no_negative_value doc -> nonneg3 (extract_counts doc))
  /\ (forall (d : pydict) (p f s : Z), pattern_total d = Some (p, f, s) -> 0 <= p).
Proof.
  split.
  - intros doc H. unfold extract_counts. apply first_counts_nonneg.
    intros n Hn. apply (no_negative_value_sub doc); [exact H|].
    now apply deep_iter_subvalues.
  - exact pattern_total_passed_nonneg.
Qed.

End SignFacts.

(** ** Values that are false *)

Section FalsyTheorems.
Context {py : PyBuiltins}.

Lemma count_of_falsy (v : json) :
  truthy (unwrap v) = false -> count_of v = Some 0.
Proof. unfold count_of, py_or. now intros ->. Qed.

Lemma count_of_none (v : json) :
  count_of v = None <-> truthy (unwrap v) = true /\ py_int (unwrap v) = None.
Proof.
  unfold count_of, py_or. destruct (truthy (unwrap v)); simpl.
  - tauto.
  - split; [discriminate | intros [H _]; discriminate].
Qed.

(** C10.  A count whose value, unwrapped, is false ([null], the empty
    string, [false], zero, an empty list or dictionary) reads as 0, and the
    block returns; a block whose keys are present is passed over exactly
    when one of its three values is true and [int] raises on it, as on a
    string that is no number; [{"passedTests": null, "failedTests": 2}]
    yields (0, 2, 0). *)
Theorem falsy_count_reads_zero :
  (forall v, truthy (unwrap v) = false -> count_of v = Some 0)
  /\ (forall v, count_of v = None
                <-> truthy (unwrap v) = true /\ py_int (unwrap v) = None)
  /\ (forall kp kf ks d,
         has_key kp d = true -> has_key kf d = true ->
         (direct_pattern kp kf ks d = None
          <-> count_of (get_default d kp (JInt 0)) = None
              \/ count_of (get_default d kf (JInt 0)) = None
              \/ count_of (get_default d ks (JInt 0)) = None))
  /\ (forall s, s <> EmptyString -> int_of_str s = None -> count_of (JStr s) = None)
  /\ (count_of JNull = Some 0 /\ count_of (JStr EmptyString) = Some 0
      /\ count_of (JBool false) = Some 0 /\ count_of (JList []) = Some 0
      /\ count_of (JDict []) = Some 0
      /\ count_of (JDict [("_value", JNull)]) = Some 0)
  /\ extract_counts null_passed = (0, 2, 0).
Proof.
  split; [exact count_of_falsy|].
  split; [exact count_of_none|].
  split.
  { intros kp kf ks d Hp Hf. unfold direct_pattern. rewrite Hp, Hf. simpl.
    apply read3_none. }
  split.
  { intros s Hs Hi. apply count_of_none. simpl.
    destruct (String.eqb_spec s EmptyString) as [E|_]; [contradiction|].
    now split. }
  split; [repeat split; reflexivity | reflexivity].
Qed.

End FalsyTheorems.

(** ** Strings *)

Lemma append_nil_r (s : string) : s ++ EmptyString = s.
Proof. induction s as [|c s IH]; simpl; [reflexivity | now rewrite IH]. Qed.

Lemma append_assoc (a b c : string) : (a ++ b) ++ c = a ++ (b ++ c).
Proof. induction a as [|x a IH]; simpl; [reflexivity | now rewrite IH]. Qed.

Lemma length_append (a b : string) :
  String.length (a ++ b) = (String.length a + String.length b)%nat.
Proof. induction a as [|x a IH]; simpl; [reflexivity | now rewrite IH]. Qed.

Lemma prefix_nil (s : string) : prefix EmptyString s = true.
Proof. now destruct s. Qed.

Lemma prefix_cons (a b : ascii) (p s : string) :
  prefix (String a p) (String b s) = Ascii.eqb a b && prefix p s.
Proof.
  simpl. destruct (ascii_dec a b) as [->|N].
  - now rewrite Ascii.eqb_refl.
  - apply Ascii.eqb_neq in N. now rewrite N.
Qed.

Lemma prefix_append (p r : string) : prefix p (p ++ r) = true.
Proof.
  induction p as [|a p IH]; [apply prefix_nil|].
  change (String a p ++ r) with (String a (p ++ r)).
  rewrite prefix_cons, Ascii.eqb_refl. exact IH.
Qed.

Lemma prefix_inv (p s : string) :
  prefix p s = true -> exists r, s = p ++ r.
Proof.
  revert s. induction p as [|a p IH]; intros s H.
  - exists s. reflexivity.
  - destruct s as [|b s]; [discriminate|].
    rewrite prefix_cons in H. apply andb_true_iff in H. destruct H as [E H].
    apply Ascii.eqb_eq in E. subst b.
    destruct (IH s H) as [r ->]. exists r. reflexivity.
Qed.

Lemma contains_unfold (sub s : string) :
  contains sub s =
  if prefix sub s then true
  else match s with
       | EmptyString => false
       | String _ s' => contains sub s'
       end.
Proof. now destruct s. Qed.

Lemma contains_here (sub s : string) : prefix sub s = true -> contains sub s = true.
Proof. intros H. rewrite contains_unfold. now rewrite H. Qed.

Lemma contains_later (sub : string) (c : ascii) (s : string) :
  contains sub s = true -> contains sub (String c s) = true.
Proof.
  intros H. change (contains sub (String c s))
    with (if prefix sub (String c s) then true else contains sub s).
  now destruct (prefix sub (String c s)).
Qed.

(** [sub] occurs in any text built around it. *)
Lemma contains_middle (sub a b : string) : contains sub (a ++ sub ++ b) = true.
Proof.
  induction a as [|c a IH].
  - change (EmptyString ++ sub ++ b) with (sub ++ b).
    apply contains_here, prefix_append.
  - change (String c a ++ sub ++ b) with (String c (a ++ sub ++ b)).
    apply contains_later, IH.
Qed.

Lemma contains_inv (sub s : string) :
  contains sub s = true -> exists a b, s = a ++ sub ++ b.
Proof.
  induction s as [|c s IH].
  - change (contains sub EmptyString)
      with (if prefix sub EmptyString then true else false).
    destruct (prefix sub EmptyString) eqn:E; [|discriminate].
    intros _. destruct (prefix_inv _ _ E) as [r Hr]. exists EmptyString, r.
    exact Hr.
  - change (contains sub (String c s))
      with (if prefix sub (String c s) then true else contains sub s).
    destruct (prefix sub (String c s)) eqn:E.
    + intros _. destruct (prefix_inv _ _ E) as [r Hr]. exists EmptyString, r.
      exact Hr.
    + intros H. destruct (IH H) as (a & b & ->). now exists (String c a), b.
Qed.

Lemma contains_extend (sub a s b : string) :
  contains sub s = true -> contains sub (a ++ s ++ b) = true.
Proof.
  intros H. destruct (contains_inv _ _ H) as (x & y & ->).
  rewrite <- (append_assoc a), !append_assoc, <- (append_assoc a x).
  apply contains_middle.
Qed.

Lemma split_nonempty (sep : ascii) (s : string) : split sep s <> [].
Proof.
  destruct s as [|c s]; simpl; [discriminate|].
  destruct (split sep s); [discriminate|].
  destruct (Ascii.eqb c sep); discriminate.
Qed.

(** A text with the separator in it splits in two parts or more. *)
Lemma split_two_parts (sep : ascii) (s : string) :
  contains (String sep EmptyString) s = true ->
  (2 <=? List.length (split sep s))%nat = true.
Proof.
  induction s as [|c s IH].
  - discriminate.
  - rewrite contains_unfold, prefix_cons, prefix_nil, andb_true_r, Ascii.eqb_sym.
    simpl split.
    destruct (split sep s) as [|seg segs] eqn:E.
    + now destruct (split_nonempty sep s).
    + destruct (Ascii.eqb c sep); [reflexivity|].
      intros H. exact (IH H).
Qed.

Lemma substring_length (n : nat) (s : string) :
  (String.length (substring 0 n s) <= n)%nat.
Proof.
  revert s. induction n as [|n IH]; intros [|c s]; simpl; try lia.
  specialize (IH s). lia.
Qed.

Lemma substring_prefix (n : nat) (s : string) : prefix (substring 0 n s) s = true.
Proof.
  revert s. induction n as [|n IH]; intros [|c s]; try reflexivity.
  change (substring 0 (S n) (String c s)) with (String c (substring 0 n s)).
  rewrite prefix_cons, Ascii.eqb_refl. apply IH.
Qed.

Lemma substring_short (n : nat) (s : string) :
  (String.length s <= n)%nat -> substring 0 n s = s.
Proof.
  revert s. induction n as [|n IH]; intros [|c s]; simpl; intros H;
    try reflexivity; try lia.
  rewrite IH; [reflexivity | lia].
Qed.

(** ** Detail extraction *)

Section DetailsTheorems.
Context {py : PyBuiltins}.

(** A field that is text or missing reads as its text. *)
Lemma text_or_empty (v : json) (t : string) :
  text_of v = Some t -> py_or v (JStr EmptyString) = JStr t.
Proof.
  destruct v; try discriminate; simpl; intros [= <-]; [reflexivity|].
  unfold py_or. simpl. now destruct (String.eqb_spec s EmptyString) as [->|_].
Qed.

Lemma excerpt_returns (v : json) :
  sliceable v = true ->
  exists r,
    (if truthy (py_or v (JStr EmptyString))
     then slice_to 100 (py_or v (JStr EmptyString))
     else Ok (JStr EmptyString)) = Ok r.
Proof.
  intros H. unfold py_or. destruct (truthy v) eqn:T.
  - rewrite T.
    destruct v; simpl in H |- *; eauto; try discriminate;
      simpl in T; rewrite T in H; discriminate.
  - simpl. eauto.
Qed.

Lemma detail_of_returns (entry : pydict) :
  sliceable (get entry "failureText") = true -> exists o, detail_of entry = Ok o.
Proof.
  intros H. unfold detail_of.
  destruct (truthy (py_or (py_or _ _) _)); [|eauto].
  destruct (excerpt_returns _ H) as [r ->]. simpl. eauto.
Qed.

Lemma collect_details_returns (failures : list json) :
  (forall e, In (JDict e) failures -> sliceable (get e "failureText") = true) ->
  exists ds, collect_details failures = Ok ds.
Proof.
  induction failures as [|x failures IH]; intros H; simpl; [eauto|].
  destruct IH as [ds Hds]; [intros e He; apply H; now right|].
  destruct x; eauto.
  destruct (detail_of_returns entries) as [o Ho]; [apply H; now left|].
  rewrite Ho, Hds. simpl. eauto.
Qed.

Lemma collect_details_middle (pre post : list json) (entry r : pydict)
    (before after : list pydict) :
  collect_details pre = Ok before -> collect_details post = Ok after ->
  detail_of entry = Ok (Some r) ->
  collect_details (pre ++ JDict entry :: post)%list = Ok (before ++ r :: after)%list.
Proof.
  intros Hb Ha Hr. revert before Hb.
  induction pre as [|x pre IH]; intros before Hb.
  - injection Hb as <-. simpl. now rewrite Hr, Ha.
  - simpl in Hb |- *. destruct x; try now apply IH.
    destruct (detail_of entries) as [o|]; [|discriminate].
    simpl in Hb |- *.
    destruct (collect_details pre) as [ds|]; [|discriminate].
    rewrite (IH ds eq_refl). simpl in Hb |- *.
    injection Hb as <-. now destruct o.
Qed.

Lemma extract_details_of_list (d : pydict) (failures : list json)
    (ds : list pydict) :
  lookup "testFailures" d = Some (JList failures) ->
  collect_details failures = Ok ds ->
  snd (_extract_details_from_summary (JDict d)) = Ok (none_if_empty ds).
Proof.
  intros Hl Hc. unfold _extract_details_from_summary.
  rewrite (lookup_has_key _ _ _ Hl). unfold get.
  rewrite (get_default_lookup _ _ _ _ Hl).
  unfold io_bind, emit, lift, io_ret. rewrite Hc. reflexivity.
Qed.

Lemma Some_text (a b : string) : Some a = Some b -> a = b.
Proof. now intros [= ->]. Qed.

(** Two fields, the first text or missing, the second read only when the
    first is empty: the first of them that is not empty. *)
Lemma first_text_or (a b : json) (x y : string) :
  text_of a = Some x ->
  nonempty x = true \/ text_of b = Some y ->
  py_or (py_or a b) (JStr EmptyString) = JStr (first_text x y).
Proof.
  intros Ha Hb. unfold first_text.
  destruct a; try discriminate; cbn in Ha; apply Some_text in Ha; subst x.
  - destruct Hb as [Hb | Hb]; [discriminate Hb|].
    change (py_or JNull b) with b. now apply text_or_empty.
  - unfold py_or at 2. cbn [truthy]. unfold nonempty in Hb |- *.
    destruct (String.eqb_spec s EmptyString) as [->|Hs]; cbn [negb].
    + destruct Hb as [Hb | Hb]; [discriminate Hb | now apply text_or_empty].
    + unfold py_or. cbn [truthy].
      now destruct (String.eqb_spec s EmptyString).
Qed.

(** The suite the extractor stores, for any identifier and target. *)
Lemma suite_of_any (test_id target : json) :
  py_or (suite_of test_id target) target = suite_value test_id target.
Proof.
  unfold suite_of, suite_value.
  destruct (truthy test_id && contains "/" (py_str test_id)) eqn:C;
    cbn [andb]; [|reflexivity].
  apply andb_true_iff in C. destruct C as [_ C].
  rewrite (split_two_parts "/" _ C).
  unfold py_or, nonempty. cbn [truthy].
  now destruct (negb (String.eqb (second_to_last (split "/" (py_str test_id)))
                        EmptyString)).
Qed.

(** On text it is the suite of the text. *)
Lemma suite_value_text (id target : string) :
  suite_value (JStr id) (JStr target) = JStr (suite_name id target).
Proof.
  unfold suite_value, suite_name. cbn [py_str truthy].
  destruct (String.eqb_spec id EmptyString) as [->|_]; [reflexivity|].
  cbn [negb andb]. destruct (contains "/" id); [|reflexivity].
  cbn [andb]. now destruct (nonempty (second_to_last (split "/" id))).
Qed.

Lemma excerpt_of_sliceable (v : json) :
  sliceable v = true ->
  (if truthy (py_or v (JStr EmptyString))
   then slice_to 100 (py_or v (JStr EmptyString))
   else Ok (JStr EmptyString)) = Ok (excerpt_of v).
Proof.
  intros H. unfold py_or, excerpt_of. destruct (truthy v) eqn:T.
  - rewrite T.
    destruct v; try reflexivity; cbn [sliceable] in H; rewrite T in H;
      discriminate.
  - reflexivity.
Qed.

Lemma detail_of_record (entry : pydict) :
  sliceable (get entry "failureText") = true ->
  truthy (test_name_of entry) = true ->
  detail_of entry
  = Ok (Some (detail_record (test_name_of entry) (test_id_of entry)
                (target_of entry) (excerpt_of (get entry "failureText")))).
Proof.
  intros Hs Hn. unfold detail_of.
  fold (test_name_of entry). fold (test_id_of entry). fold (target_of entry).
  rewrite Hn, (excerpt_of_sliceable _ Hs). unfold bind.
  rewrite suite_of_any.
  assert (E : py_or (test_id_of entry) (JStr EmptyString) = test_id_of entry).
  { unfold test_id_of.
    set (v := py_or (get entry "testIdentifierString")
                (get entry "testIdentifierURL")).
    unfold py_or. destruct (truthy v) eqn:T; [now rewrite T | reflexivity]. }
  rewrite E. reflexivity.
Qed.

(** C6, with the fallback of the suite as it is.  Every entry of
    [testFailures] with a test name that is not empty ([testName], or the
    identifier string in its place) yields one record, in the order of the
    entries (the failure texts being text, lists or absent, so that the
    slice does not raise), whatever its other fields are.  Its name is that
    name and its status is [Failed]; its identifier is
    [testIdentifierString], or [testIdentifierURL] when that one is missing
    or empty; its failure excerpt is the first 100 characters of the failure
    text, the first 100 items when the text is a list, and empty when there
    is none; its suite is the second-to-last segment of the identifier when
    the identifier has a slash and that segment is not empty, and the target
    otherwise: without identifier, without slash, or with an empty segment.
    Scenario E yields the one record expected. *)
Theorem failed_test_yields_record :
  (forall (failures pre post : list json) (entry : pydict),
      failures = (pre ++ JDict entry :: post)%list ->
      (forall e, In (JDict e) failures -> sliceable (get e "failureText") = true) ->
      truthy (test_name_of entry) = true ->
      let record :=
        detail_record (test_name_of entry) (test_id_of entry) (target_of entry)
          (excerpt_of (get entry "failureText")) in
      exists before after,
        collect_details pre = Ok before
        /\ collect_details post = Ok after
        /\ collect_details failures = Ok (before ++ record :: after)%list
        /\ forall d, lookup "testFailures" d = Some (JList failures) ->
             snd (_extract_details_from_summary (JDict d))
             = Ok (Some (before ++ record :: after)%list))
  /\ (forall (a b : json) (x y : string),
         text_of a = Some x ->
         nonempty x = true \/ text_of b = Some y ->
         py_or (py_or a b) (JStr EmptyString) = JStr (first_text x y))
  /\ (forall text,
         excerpt_of (JStr text) = JStr (substring 0 100 text)
         /\ (String.length (substring 0 100 text) <= 100)%nat
         /\ prefix (substring 0 100 text) text = true
         /\ ((String.length text <= 100)%nat -> substring 0 100 text = text))
  /\ (forall item items,
         excerpt_of (JList (item :: items)) = JList (firstn 100 (item :: items))
         /\ (List.length (firstn 100 (item :: items)) <= 100)%nat)
  /\ (forall v, truthy v = false -> excerpt_of v = JStr EmptyString)
  /\ (forall test_id target : json,
         let segment := second_to_last (split "/" (py_str test_id)) in
         (truthy test_id = false -> suite_value test_id target = target)
         /\ (contains "/" (py_str test_id) = false ->
             suite_value test_id target = target)
         /\ (truthy test_id = true -> contains "/" (py_str test_id) = true ->
             segment <> EmptyString ->
             suite_value test_id target = JStr segment)
         /\ (segment = EmptyString -> suite_value test_id target = target))
  /\ (forall id target : string,
         suite_value (JStr id) (JStr target) = JStr (suite_name id target)
         /\ (contains "/" id = false -> suite_name id target = target)
         /\ (contains "/" id = true ->
             second_to_last (split "/" id) <> EmptyString ->
             suite_name id target = second_to_last (split "/" id))
         /\ (contains "/" id = true ->
             second_to_last (split "/" id) = EmptyString ->
             suite_name id target = target))
  /\ snd (_extract_details_from_summary scenario_E)
     = Ok (Some [[("name", JStr "testFoo"); ("status", JStr "Failed");
                  ("suite", JStr "SuiteA"); ("failure", JStr "expected true");
                  ("testIdentifierString", JStr "SuiteA/testFoo")]]).
Proof.
  split; [|split; [|split; [|split; [|split; [|split; [|split;
    [|reflexivity]]]]]]].
  - intros failures pre post entry -> Hs Hn record.
    destruct (collect_details_returns pre) as [before Hb].
    { intros e He. apply Hs. apply in_or_app. now left. }
    destruct (collect_details_returns post) as [after Ha].
    { intros e He. apply Hs. apply in_or_app. right. now right. }
    exists before, after.
    assert (Hc : collect_details (pre ++ JDict entry :: post)%list
                 = Ok (before ++ record :: after)%list).
    { apply collect_details_middle; auto.
      apply detail_of_record; auto.
      apply Hs. apply in_or_app. right. now left. }
    repeat split; auto.
    intros d Hd. rewrite (extract_details_of_list d _ _ Hd Hc).
    now destruct before.
  - exact first_text_or.
  - intros text. split.
    { unfold excerpt_of. cbn [truthy].
      now destruct (String.eqb_spec text EmptyString) as [->|_]. }
    split; [apply substring_length|].
    split; [apply substring_prefix | apply substring_short].
  - intros item items. split; [reflexivity | apply firstn_le_length].
  - intros v T. unfold excerpt_of. now rewrite T.
  - intros test_id target. cbv zeta. unfold suite_value, nonempty.
    repeat split.
    + now intros ->.
    + intros ->. now rewrite andb_false_r.
    + intros -> -> H. cbn [andb].
      now destruct (String.eqb_spec
                      (second_to_last (split "/" (py_str test_id))) EmptyString).
    + intros ->. cbn [String.eqb negb]. now rewrite andb_false_r.
  - intros id target. split; [apply suite_value_text|].
    unfold suite_name, nonempty. repeat split.
    + now intros ->.
    + intros -> H.
      now destruct (String.eqb_spec (second_to_last (split "/" id)) EmptyString).
    + intros -> ->. reflexivity.
Qed.

End DetailsTheorems.

(** ** Screenshot matching *)

Lemma smap_get_first (pre post : smap) (key : string) (imgs : list string) :
  (forall k v, In (k, v) pre -> k <> key) ->
  smap_get key (pre ++ (key, imgs) :: post)%list = Some imgs.
Proof.
  induction pre as [|[k v] pre IH]; intros H; simpl.
  - now rewrite String.eqb_refl.
  - destruct (String.eqb_spec key k) as [->|_].
    + now destruct (H k v (or_introl eq_refl)).
    + apply IH. intros k' v' Hin. apply (H k' v'). now right.
Qed.

Lemma fallback_first_match (m pre post : smap) (test_id key : string)
    (imgs0 : list string) (start : option (list string)) :
  (forall k v, In (k, v) pre -> key_matches test_id k = false) ->
  key_matches test_id key = true ->
  fallback_screens m test_id (map fst (pre ++ (key, imgs0) :: post)%list) start
  = smap_get key m.
Proof.
  intros Hpre Hkey. induction pre as [|[k v] pre IH]; simpl.
  - now rewrite Hkey.
  - rewrite (Hpre k v (or_introl eq_refl)). apply IH.
    intros k' v' Hin. apply (Hpre k' v'). now right.
Qed.

Lemma fallback_no_match (m : smap) (test_id : string) (keys : list string)
    (start : option (list string)) :
  (forall k, In k keys -> key_matches test_id k = false) ->
  fallback_screens m test_id keys start = start.
Proof.
  induction keys as [|k keys IH]; intros H; simpl; [reflexivity|].
  rewrite (H k (or_introl eq_refl)). apply IH. intros k' Hk. apply H. now right.
Qed.

Section ScreenshotTheorems.
Context {py : PyBuiltins}.

(** The screenshot row that follows the row of a record whose identifier is
    a string is the one of the entry selected. *)
Lemma render_item_attaches (has_failures : bool) (dir : string) (m : smap)
    (item : pydict) (test_id : string) :
  get_default item "testIdentifierString" (JStr EmptyString) = JStr test_id ->
  render_item has_failures (Some (dir, m)) item
  = Ok (item_row has_failures item
        ++ match select_screens m test_id with
           | Some (fn :: fns) => shots_row has_failures dir (fn :: fns)
           | _ => EmptyString
           end).
Proof. intros H. unfold render_item. now rewrite H. Qed.

(** C9, for the scan as it is.  The screenshots attached to a row are those
    of the entry [select_screens] gives.  The entry keyed by the test
    identifier itself is the one selected whenever it holds a file, whatever
    the other keys are.  Otherwise the index is scanned in its own order and
    the first key that contains the identifier, ends with it, or has the last
    path segment of the identifier (which must not be empty) gives the entry;
    with no such key nothing is attached.  The three tests of the scan decide
    together, key by key: none of them has priority over another across
    keys. *)
Theorem screenshot_entry_selected (m : smap) (test_id : string) :
  (forall has_failures dir item,
      get_default item "testIdentifierString" (JStr EmptyString) = JStr test_id ->
      render_item has_failures (Some (dir, m)) item
      = Ok (item_row has_failures item
            ++ match select_screens m test_id with
               | Some (fn :: fns) => shots_row has_failures dir (fn :: fns)
               | _ => EmptyString
               end))
  /\ (forall fn fns, smap_get test_id m = Some (fn :: fns) ->
        select_screens m test_id = Some (fn :: fns))
  /\ (smap_get test_id m = None \/ smap_get test_id m = Some [] ->
      (forall pre post key imgs,
          m = (pre ++ (key, imgs) :: post)%list ->
          (forall k v, In (k, v) pre -> key_matches test_id k = false) ->
          key_matches test_id key = true ->
          select_screens m test_id = Some imgs)
      /\ ((forall k v, In (k, v) m -> key_matches test_id k = false) ->
          select_screens m test_id = smap_get test_id m))
  /\ (forall key,
         key_matches test_id key = true <->
         contains test_id key = true
         \/ endswith key test_id = true
         \/ (test_id <> EmptyString
             /\ last_part (split "/" key) = last_part (split "/" test_id))).
Proof.
  split; [|split; [|split]].
  - intros has_failures dir item. apply render_item_attaches.
  - intros fn fns H. unfold select_screens. now rewrite H.
  - intros Hmiss.
    assert (E : select_screens m test_id
                = fallback_screens m test_id (map fst m) (smap_get test_id m)).
    { unfold select_screens. now destruct Hmiss as [-> | ->]. }
    split.
    + intros pre post key imgs Hm Hpre Hkey. rewrite E.
      rewrite Hm at 2. rewrite (fallback_first_match m pre post); auto.
      rewrite Hm. apply smap_get_first.
      intros k v Hin ->. rewrite (Hpre _ _ Hin) in Hkey. discriminate.
    + intros Hnone. rewrite E. apply fallback_no_match.
      intros k Hk. apply in_map_iff in Hk. destruct Hk as [[k' v] [<- Hin]].
      exact (Hnone _ _ Hin).
  - intros key. unfold key_matches, nonempty.
    rewrite !orb_true_iff, andb_true_iff, negb_true_iff,
      String.eqb_neq, String.eqb_eq. tauto.
Qed.

End ScreenshotTheorems.

(** ** What the renderer embeds *)

Lemma contains_app_r (sub a s : string) :
  contains sub s = true -> contains sub (a ++ s) = true.
Proof.
  intros H. rewrite <- (append_nil_r s). now apply contains_extend.
Qed.

Lemma contains_app_l (sub s b : string) :
  contains sub s = true -> contains sub (s ++ b) = true.
Proof.
  intros H. change (s ++ b) with (EmptyString ++ s ++ b). now apply contains_extend.
Qed.

Lemma contains_refl (s : string) : contains s s = true.
Proof.
  rewrite <- (append_nil_r s) at 2. apply contains_here, prefix_append.
Qed.

Lemma contains_trans (a b c : string) :
  contains a b = true -> contains b c = true -> contains a c = true.
Proof.
  intros Hab Hbc. destruct (contains_inv _ _ Hbc) as (x & y & ->).
  now apply contains_extend.
Qed.

(** Peels a concatenation until the text looked for is found in it. *)
Ltac find_piece :=
  repeat first [ apply contains_refl
               | apply contains_middle
               | apply contains_app_l; apply contains_refl
               | apply contains_app_r ].

(** Reads [Ok a = Ok b] without computing [a]. *)
Lemma Ok_inj {A : Type} (a b : A) : Ok a = Ok b -> a = b.
Proof. now intros [= ->]. Qed.

Section RenderTheorems.
Context {py : PyBuiltins}.

Lemma row_cells_name (name suite color status : string) :
  contains name (row_cells name suite color status) = true.
Proof. unfold row_cells. find_piece. Qed.

Lemma row_cells_suite (name suite color status : string) :
  contains suite (row_cells name suite color status) = true.
Proof. unfold row_cells. find_piece. Qed.

Lemma row_failure_text (failure : string) :
  contains failure (row_failure failure) = true.
Proof. unfold row_failure. find_piece. Qed.

(** The row of an item starts with its three cells; the failure cell
    follows when the table has a failure column. *)
Lemma render_item_cells (has_failures : bool) (shots : option (string * smap))
    (item : pydict) (row : string) :
  render_item has_failures shots item = Ok row ->
  contains (row_cells (py_str (get_default item "name" (JStr EmptyString)))
                      (py_str (get_default item "suite" (JStr EmptyString)))
                      (status_color (get_default item "status" (JStr EmptyString)))
                      (py_str (get_default item "status" (JStr EmptyString))))
           row = true
  /\ (has_failures = true ->
      contains (row_failure (py_str (get_default item "failure" (JStr EmptyString))))
               row = true).
Proof.
  unfold render_item, item_row, bind. cbv zeta.
  destruct shots as [[dir m]|].
  - destruct (find_screens m _) as [imgs|]; [|discriminate].
    intros H. apply Ok_inj in H. subst row. split.
    + apply contains_app_l, contains_app_l, contains_refl.
    + intros ->. apply contains_app_l. find_piece.
  - intros H. apply Ok_inj in H. subst row. split.
    + apply contains_app_l, contains_refl.
    + intros ->. find_piece.
Qed.

Lemma render_items_cells (has_failures : bool) (shots : option (string * smap))
    (details : list pydict) (rows : string) (item : pydict) :
  render_items has_failures shots details = Ok rows ->
  In item details ->
  exists row, render_item has_failures shots item = Ok row
              /\ contains row rows = true.
Proof.
  revert rows. induction details as [|x details IH]; intros rows H Hin;
    [contradiction|].
  cbn [render_items] in H. unfold bind in H.
  destruct (render_item has_failures shots x) as [row|] eqn:Ex; [|discriminate].
  destruct (render_items has_failures shots details) as [rest|]; [|discriminate].
  apply Ok_inj in H. subst rows.
  destruct Hin as [-> | Hin].
  - exists row. split; [exact Ex | apply contains_app_l, contains_refl].
  - destruct (IH rest eq_refl Hin) as [r [Hr Hc]].
    exists r. split; [exact Hr | now apply contains_app_r].
Qed.

(** The rows of the details table are part of the document. *)
Lemma build_html_rows (passed failed skipped : Z) (source_name title : string)
    (details : list pydict) (dir : option string) (m : option smap)
    (html : string) (item : pydict) :
  build_html passed failed skipped source_name title (Some details) dir m = Ok html ->
  In item details ->
  exists row,
    render_item (existsb (fun i => truthy (get i "failure")) details)
                (active_shots dir m) item = Ok row
    /\ contains row html = true.
Proof.
  intros H Hin. unfold build_html in H.
  destruct details as [|x details]; [contradiction|].
  unfold details_section, bind in H.
  destruct (render_items _ _ (x :: details)) as [rows|] eqn:Er; [|discriminate].
  apply Ok_inj in H. subst html.
  destruct (render_items_cells _ _ _ _ item Er Hin) as [row [Hr Hc]].
  exists row. split; [exact Hr|].
  apply contains_app_r, contains_app_l.
  apply contains_app_r, contains_app_r, contains_app_r, contains_app_l.
  exact Hc.
Qed.

(** C1, for the renderer as it is.  For every detail record rendered, the
    name, the suite and (when the table has a failure column) the failure
    excerpt stand in the document exactly as the record holds them, inside
    their cells: the renderer escapes nothing. *)
Theorem details_embedded_verbatim
    (passed failed skipped : Z) (source_name title : string)
    (details : list pydict) (dir : option string) (m : option smap)
    (html : string) (item : pydict) :
  build_html passed failed skipped source_name title (Some details) dir m = Ok html ->
  In item details ->
  let name := py_str (get_default item "name" (JStr EmptyString)) in
  let suite := py_str (get_default item "suite" (JStr EmptyString)) in
  let status := get_default item "status" (JStr EmptyString) in
  let failure := py_str (get_default item "failure" (JStr EmptyString)) in
  contains (row_cells name suite (status_color status) (py_str status)) html = true
  /\ contains name html = true
  /\ contains suite html = true
  /\ (existsb (fun i => truthy (get i "failure")) details = true ->
      contains (row_failure failure) html = true
      /\ contains failure html = true).
Proof.
  intros H Hin name suite status failure.
  destruct (build_html_rows _ _ _ _ _ _ _ _ _ _ H Hin) as [row [Hr Hc]].
  destruct (render_item_cells _ _ _ _ Hr) as [Hcells Hfail].
  assert (C : contains (row_cells name suite (status_color status) (py_str status))
                       html = true)
    by (eapply contains_trans; eauto).
  split; [exact C|].
  split; [eapply contains_trans; [apply row_cells_name | exact C]|].
  split; [eapply contains_trans; [apply row_cells_suite | exact C]|].
  intros Hf. specialize (Hfail Hf).
  assert (F : contains (row_failure failure) html = true)
    by (eapply contains_trans; eauto).
  split; [exact F|].
  eapply contains_trans; [apply row_failure_text | exact F].
Qed.

End RenderTheorems.

(** ** Searching a text *)

Lemma find_first_unfold (pat s : string) :
  find_first pat s =
  if prefix pat s then Some (EmptyString, drop (String.length pat) s)
  else match s with
       | EmptyString => None
       | String c s' =>
           match find_first pat s' with
           | Some (before, after) => Some (String c before, after)
           | None => None
           end
       end.
Proof. now destruct s. Qed.

Lemma drop_append (a b : string) : drop (String.length a) (a ++ b) = b.
Proof. induction a as [|c a IH]; [reflexivity | exact IH]. Qed.

Lemma mismatch_no_prefix (pat t rest : string) :
  mismatch pat t = true -> prefix pat (t ++ rest) = false.
Proof.
  revert t. induction pat as [|p pat IH]; intros [|c t] H; try discriminate.
  change (String c t ++ rest) with (String c (t ++ rest)).
  rewrite prefix_cons. simpl in H.
  destruct (Ascii.eqb p c); [|reflexivity].
  simpl. now apply IH.
Qed.

Lemma suffixes_clash_no_start (pat a rest : string) :
  suffixes_clash pat a = true -> no_start pat a rest = true.
Proof.
  induction a as [|c a IH]; [reflexivity|].
  cbn [suffixes_clash no_start]. intros H.
  apply andb_true_iff in H. destruct H as [H1 H2].
  rewrite (mismatch_no_prefix _ _ rest H1). simpl. now apply IH.
Qed.

(** A text none of whose characters is the first of [pat]. *)
Lemma all_chars_no_start (p : ascii) (pat a rest : string) :
  all_chars (fun c => negb (Ascii.eqb p c)) a = true ->
  no_start (String p pat) a rest = true.
Proof.
  induction a as [|c a IH]; [reflexivity|].
  cbn [all_chars no_start]. intros H.
  apply andb_true_iff in H. destruct H as [H1 H2].
  change (String c a ++ rest) with (String c (a ++ rest)).
  rewrite prefix_cons. apply negb_true_iff in H1. rewrite H1. simpl.
  now apply IH.
Qed.

Lemma no_start_app (pat a b rest : string) :
  no_start pat a (b ++ rest) = true -> no_start pat b rest = true ->
  no_start pat (a ++ b) rest = true.
Proof.
  intros Ha Hb. induction a as [|c a IH]; [exact Hb|].
  cbn [no_start] in Ha. apply andb_true_iff in Ha. destruct Ha as [H1 H2].
  change (String c a ++ b) with (String c (a ++ b)). cbn [no_start].
  change (String c (a ++ b) ++ rest) with (String c ((a ++ b) ++ rest)).
  rewrite append_assoc.
  change (String c (a ++ b ++ rest)) with (String c a ++ b ++ rest).
  rewrite H1. simpl. now apply IH.
Qed.

Lemma after_first_skip (pat a rest : string) :
  no_start pat a rest = true ->
  after_first pat (a ++ rest) = after_first pat rest.
Proof.
  unfold after_first. induction a as [|c a IH]; [reflexivity|].
  cbn [no_start]. intros H. apply andb_true_iff in H. destruct H as [H1 H2].
  apply negb_true_iff in H1.
  change (String c a ++ rest) with (String c (a ++ rest)) in H1 |- *.
  rewrite find_first_unfold, H1.
  rewrite <- (IH H2).
  now destruct (find_first pat (a ++ rest)) as [[x y]|].
Qed.

Lemma after_first_here (pat rest : string) :
  after_first pat (pat ++ rest) = Some rest.
Proof.
  unfold after_first. rewrite find_first_unfold, prefix_append, drop_append.
  reflexivity.
Qed.

(** If [pat] starts [t ++ follow], it starts [t] or runs over the end of [t]. *)
Lemma prefix_split (pat t follow : string) :
  prefix pat (t ++ follow) = true ->
  prefix pat t = true
  \/ ((String.length t < String.length pat)%nat
      /\ prefix (drop (String.length t) pat) follow = true).
Proof.
  revert pat. induction t as [|c t IH]; intros pat H.
  - destruct pat as [|p pat]; [left; reflexivity|].
    right. simpl. split; [lia | exact H].
  - destruct pat as [|p pat]; [left; reflexivity|].
    change (String c t ++ follow) with (String c (t ++ follow)) in H.
    rewrite prefix_cons in H. apply andb_true_iff in H. destruct H as [E H].
    destruct (IH pat H) as [H' | [L H']].
    + left. rewrite prefix_cons, E. exact H'.
    + right. simpl. split; [lia | exact H'].
Qed.

Lemma border_free_spec (pat follow rest : string) (k : nat) :
  border_free pat follow = true ->
  (0 < k)%nat -> (k < String.length pat)%nat ->
  prefix (drop k pat) (follow ++ rest) = false.
Proof.
  unfold border_free. intros H H0 Hk.
  rewrite forallb_forall in H.
  apply mismatch_no_prefix, H, in_seq. lia.
Qed.

(** A text without [pat] in it, followed by a text that completes no proper
    suffix of [pat]. *)
Lemma contains_free_no_start (pat a follow rest : string) :
  contains pat a = false -> border_free pat follow = true ->
  no_start pat a (follow ++ rest) = true.
Proof.
  intros Hc Hb. induction a as [|c a IH]; [reflexivity|].
  rewrite contains_unfold in Hc.
  destruct (prefix pat (String c a)) eqn:P; [discriminate|].
  cbn [no_start]. rewrite (IH Hc), andb_true_r.
  apply negb_true_iff.
  destruct (prefix pat (String c a ++ follow ++ rest)) eqn:Q; [|reflexivity].
  destruct (prefix_split _ _ _ Q) as [Q' | [L Q']]; [congruence|].
  rewrite (border_free_spec pat follow rest) in Q';
    [discriminate | exact Hb | simpl; lia | exact L].
Qed.

Lemma find_last_none (p : ascii) (pat s : string) :
  no_start (String p pat) s EmptyString = true ->
  find_last (String p pat) s = None.
Proof.
  induction s as [|c s IH]; [reflexivity|].
  cbn [no_start]. intros H. apply andb_true_iff in H. destruct H as [H1 H2].
  rewrite append_nil_r in H1. apply negb_true_iff in H1.
  cbn [find_last]. now rewrite (IH H2), H1.
Qed.

Lemma find_last_here (p : ascii) (pat rest : string) :
  no_start (String p pat) (pat ++ rest) EmptyString = true ->
  find_last (String p pat) (String p pat ++ rest) = Some (EmptyString, rest).
Proof.
  intros H.
  change (String p pat ++ rest) with (String p (pat ++ rest)).
  cbn [find_last]. rewrite (find_last_none _ _ _ H).
  change (String p (pat ++ rest)) with (String p pat ++ rest).
  now rewrite prefix_append, drop_append.
Qed.

Lemma find_last_skip (pat a s x y : string) :
  find_last pat s = Some (x, y) -> find_last pat (a ++ s) = Some (a ++ x, y).
Proof.
  intros H. induction a as [|c a IH]; [exact H|].
  change (String c a ++ s) with (String c (a ++ s)).
  cbn [find_last]. now rewrite IH.
Qed.

(** ** Numerals *)

Lemma all_chars_impl (f g : ascii -> bool) (s : string) :
  (forall c, f c = true -> g c = true) ->
  all_chars f s = true -> all_chars g s = true.
Proof.
  intros Hfg. induction s as [|c s IH]; [reflexivity|].
  cbn [all_chars]. intros H. apply andb_true_iff in H. destruct H as [H1 H2].
  now rewrite (Hfg c H1), (IH H2).
Qed.

Lemma uint_digits (d : Decimal.uint) :
  all_chars is_digit (NilEmpty.string_of_uint d) = true.
Proof. induction d; simpl; auto. Qed.

Lemma str_of_int_numeral (n : Z) : all_chars is_numeral_char (str_of_int n) = true.
Proof.
  assert (U : forall d, all_chars is_numeral_char (NilZero.string_of_uint d) = true).
  { intros d. apply (all_chars_impl is_digit).
    - intros c H. unfold is_numeral_char. rewrite H. apply orb_true_r.
    - destruct d; try apply (uint_digits (_ _)); reflexivity. }
  unfold str_of_int. destruct (Z.to_int n) as [d|d]; cbn [NilZero.string_of_int].
  - apply U.
  - cbn [all_chars]. now rewrite U.
Qed.

(** The characters of a numeral are not the character [p], which is none of
    theirs. *)
Lemma str_of_int_avoids (p : ascii) (n : Z) :
  is_numeral_char p = false ->
  all_chars (fun c => negb (Ascii.eqb p c)) (str_of_int n) = true.
Proof.
  intros Hp. apply (all_chars_impl is_numeral_char); [|apply str_of_int_numeral].
  intros c Hc. destruct (Ascii.eqb_spec p c) as [->|_]; [congruence | reflexivity].
Qed.

Lemma span_numeral_all (numeral rest : string) :
  all_chars is_numeral_char numeral = true -> starts_plain rest = true ->
  span_numeral (numeral ++ rest) = (numeral, rest).
Proof.
  intros Hn Hr. induction numeral as [|c numeral IH].
  - destruct rest as [|c rest]; [reflexivity|].
    simpl in Hr |- *. apply negb_true_iff in Hr. now rewrite Hr.
  - cbn [all_chars] in Hn. apply andb_true_iff in Hn. destruct Hn as [H1 H2].
    change (String c numeral ++ rest) with (String c (numeral ++ rest)).
    cbn [span_numeral]. now rewrite H1, (IH H2).
Qed.

Lemma int_of_str_of_int (n : Z) :
  NilZero.int_of_string (str_of_int n) = Some (Z.to_int n).
Proof.
  unfold str_of_int. apply NilZero.isi; destruct n; simpl; try discriminate;
    intros [= H]; exact (DecimalPos.Unsigned.to_uint_nonnil _ H).
Qed.

(** Reading back a number that was printed. *)
Lemma read_int_str_of_int (n : Z) (rest : string) :
  starts_plain rest = true -> read_int (str_of_int n ++ rest) = Some (n, rest).
Proof.
  intros Hr. unfold read_int.
  rewrite (span_numeral_all _ _ (str_of_int_numeral n) Hr).
  now rewrite int_of_str_of_int, DecimalZ.of_to.
Qed.

(** ** The shape of the document *)

Lemma html_head_shape (title total passed failed skipped source_name : string) :
  html_head title total passed failed skipped source_name
  = head_0 ++ title ++ head_1 ++ title ++ head_2 ++ total
    ++ kpi_gap ++ kpi_marker "Passed" ++ passed
    ++ kpi_gap ++ kpi_marker "Failed" ++ failed
    ++ kpi_gap ++ kpi_marker "Skipped" ++ skipped
    ++ head_6 ++ source_name ++ head_7.
Proof. reflexivity. Qed.

Lemma html_tail_shape (passed failed skipped : string) :
  html_tail passed failed skipped
  = chart_lead ++ chart_marker ++ passed ++ ", " ++ failed ++ ", " ++ skipped
    ++ chart_trail.
Proof. reflexivity. Qed.

Lemma kpi_marker_label (label : string) :
  kpi_marker label
  = kpi_label_open
    ++ (label ++ "</div><div class=" ++ dq ++ "value" ++ dq ++ ">").
Proof. reflexivity. Qed.

Lemma contains_prefix_false (a b s : string) :
  contains a s = false -> contains (a ++ b) s = false.
Proof.
  intros H. destruct (contains (a ++ b) s) eqn:E; [|reflexivity].
  destruct (contains_inv _ _ E) as (x & y & ->).
  rewrite append_assoc, contains_middle in H. discriminate.
Qed.

(** A printed number holds no occurrence of a pattern whose first character
    is neither a sign nor a digit. *)
Lemma numeral_no_start (pat : string) (n : Z) (rest : string) :
  match pat with
  | EmptyString => false
  | String p _ => negb (is_numeral_char p)
  end = true ->
  no_start pat (str_of_int n) rest = true.
Proof.
  destruct pat as [|p pat]; [discriminate|]. intros H.
  apply all_chars_no_start, str_of_int_avoids. now apply negb_true_iff.
Qed.

(** ** Reading the counts back *)

(** Steps over a piece of fixed text, a printed number, or the title. *)
Ltac skip_fixed :=
  rewrite after_first_skip
    by (apply suffixes_clash_no_start; vm_compute; reflexivity).
Ltac skip_number :=
  rewrite after_first_skip by (apply numeral_no_start; reflexivity).
Ltac skip_title H :=
  rewrite after_first_skip
    by (apply contains_free_no_start;
        [ rewrite kpi_marker_label; apply contains_prefix_false; exact H
        | vm_compute; reflexivity ]).
Ltac locate H :=
  rewrite html_head_shape, !append_assoc;
  repeat first [ skip_fixed | skip_number | skip_title H ];
  apply after_first_here.

Lemma kpi_value_after (label html : string) (n : Z) (rest : string) :
  after_first (kpi_marker label) html = Some (str_of_int n ++ rest) ->
  starts_plain rest = true ->
  kpi_value label html = Some n.
Proof.
  unfold after_first, kpi_value. intros E Hr.
  destruct (find_first (kpi_marker label) html) as [[before x]|]; [|discriminate].
  apply (f_equal (fun o => match o with Some t => t | None => EmptyString end)) in E.
  cbn [option_map snd] in E. rewrite E.
  now rewrite read_int_str_of_int.
Qed.

Section ReadBack.
Variables (title source_name rest : string) (p f s : Z).
Hypothesis plain_title : contains kpi_label_open title = false.

Let head : string :=
  html_head title (str_of_int (p + f + s)) (str_of_int p) (str_of_int f)
    (str_of_int s) source_name.

Lemma kpi_passed_read : kpi_value "Passed" (head ++ rest) = Some p.
Proof.
  eapply kpi_value_after; [unfold head; locate plain_title | reflexivity].
Qed.

Lemma kpi_failed_read : kpi_value "Failed" (head ++ rest) = Some f.
Proof.
  eapply kpi_value_after; [unfold head; locate plain_title | reflexivity].
Qed.

Lemma kpi_skipped_read : kpi_value "Skipped" (head ++ rest) = Some s.
Proof.
  eapply kpi_value_after; [unfold head; locate plain_title | reflexivity].
Qed.

Lemma kpi_values_read : kpi_values (head ++ rest) = Some (p, f, s).
Proof.
  unfold kpi_values.
  now rewrite kpi_passed_read, kpi_failed_read, kpi_skipped_read.
Qed.

End ReadBack.

Lemma expect_here (pat rest : string) : expect pat (pat ++ rest) = Some rest.
Proof. unfold expect. now rewrite prefix_append, drop_append. Qed.

(** The data array is the last thing of its kind in the document, whatever
    comes before the script. *)
Lemma chart_data_read (before : string) (p f s : Z) :
  chart_data (before ++ html_tail (str_of_int p) (str_of_int f) (str_of_int s))
  = Some (p, f, s).
Proof.
  unfold chart_data. rewrite html_tail_shape.
  rewrite <- (append_assoc before chart_lead).
  rewrite (find_last_skip chart_marker (before ++ chart_lead) _ EmptyString
             (str_of_int p ++ ", " ++ str_of_int f ++ ", " ++ str_of_int s
              ++ chart_trail)).
  - rewrite read_int_str_of_int by reflexivity.
    rewrite expect_here.
    rewrite read_int_str_of_int by reflexivity.
    rewrite expect_here.
    rewrite read_int_str_of_int by reflexivity.
    reflexivity.
  - change chart_marker with (String "d" "atasets: [{ data: [").
    apply find_last_here.
    repeat (apply no_start_app;
            [ first [ apply suffixes_clash_no_start; vm_compute; reflexivity
                    | apply numeral_no_start; reflexivity ] | ]).
    apply suffixes_clash_no_start. vm_compute. reflexivity.
Qed.

Section RoundTrip.
Context {py : PyBuiltins}.

Lemma build_html_shape (passed failed skipped : Z) (source_name title : string)
    (details : option (list pydict)) (dir : option string) (m : option smap)
    (html : string) :
  build_html passed failed skipped source_name title details dir m = Ok html ->
  exists section,
    html = html_head title (str_of_int (passed + failed + skipped))
             (str_of_int passed) (str_of_int failed) (str_of_int skipped)
             source_name
           ++ section
           ++ html_tail (str_of_int passed) (str_of_int failed) (str_of_int skipped).
Proof.
  unfold build_html, bind.
  destruct (match details with
            | Some (item :: rest) => details_section (item :: rest) dir m
            | _ => Ok EmptyString
            end) as [section|]; [|discriminate].
  intros H. apply Ok_inj in H. now exists section.
Qed.

(** Without details the renderer returns. *)
Lemma build_html_without_details (passed failed skipped : Z)
    (source_name title : string) (dir : option string) (m : option smap) :
  build_html passed failed skipped source_name title None dir m
  = Ok (html_head title (str_of_int (passed + failed + skipped))
          (str_of_int passed) (str_of_int failed) (str_of_int skipped)
          source_name
        ++ html_tail (str_of_int passed) (str_of_int failed) (str_of_int skipped)).
Proof. reflexivity. Qed.

(** C8.  The numbers read back from a rendered report are the counts that
    were rendered: the data array of the chart gives them back whatever the
    other arguments are, and so do the figures of the summary panel when the
    title does not itself hold the markup of a figure's label. *)
Theorem rendered_counts_read_back
    (passed failed skipped : Z) (source_name title : string)
    (details : option (list pydict)) (dir : option string) (m : option smap)
    (html : string) :
  build_html passed failed skipped source_name title details dir m = Ok html ->
  chart_data html = Some (passed, failed, skipped)
  /\ (contains kpi_label_open title = false ->
      kpi_values html = Some (passed, failed, skipped)).
Proof.
  intros H. destruct (build_html_shape _ _ _ _ _ _ _ _ _ H) as [section ->].
  split.
  - rewrite <- append_assoc. apply chart_data_read.
  - intros Ht. now apply kpi_values_read.
Qed.

End RoundTrip.

(** ** The orchestration *)

Lemma last_cons_default {A : Type} (l : list A) (x d : A) :
  last (x :: l) d = last l x.
Proof.
  revert x d. induction l as [|y l IH]; intros x d; [reflexivity|].
  change (last (x :: y :: l) d) with (last (y :: l) d).
  now rewrite !IH.
Qed.

(** Finds an event in a trace written as a concatenation. *)
Ltac find_event :=
  repeat first [ now left | apply in_or_app; right | right ].

Section ProcessTheorems.
Context {py : PyBuiltins} {world : World}.

(** When no command gives usable output, all are run, and the stderr kept
    is the last one that is not blank. *)
Lemma try_candidates_unusable (cmds : list (list string))
    (last_stderr last_cmd : string) :
  (forall cmd, In cmd cmds -> unusable (subprocess_run cmd) = true) ->
  try_candidates cmds last_stderr last_cmd
  = (map EvRun cmds,
     Ok (None,
         last_nonblank (map (fun cmd => stderr_of (subprocess_run cmd)) cmds)
           last_stderr,
         last (map (String.concat " ") cmds) last_cmd)).
Proof.
  revert last_stderr last_cmd.
  induction cmds as [|cmd cmds IH]; intros last_stderr last_cmd H; [reflexivity|].
  cbn [try_candidates]. unfold io_bind at 1. cbn [emit].
  pose proof (H cmd (or_introl eq_refl)) as Hc.
  destruct (subprocess_run cmd) as [rc out err| |] eqn:E; try discriminate.
  cbn [unusable] in Hc. apply negb_true_iff in Hc. rewrite Hc.
  rewrite IH by (intros c Hin; apply H; now right).
  cbn [map app]. rewrite E. cbn [stderr_of].
  rewrite last_cons_default. reflexivity.
Qed.

(** What the entry point does when [run_xcresulttool] returns no text. *)
Lemma process_without_summary (xcresult_path out_html_path : string)
    (report_title : option string) (include_details include_screenshots : bool)
    (ran : list event) (err_text cmd_text debug_json_path : string) :
  run_xcresulttool xcresult_path = (ran, Ok (None, err_text, cmd_text)) ->
  json_path_of out_html_path = Ok debug_json_path ->
  _process_xcresult_to_html xcresult_path out_html_path report_title
    include_details include_screenshots
  = ((EvLog "[process]" :: ran)
       ++ EvLog "[xcresulttool] cmd"
       :: (if nonempty (strip err_text) then [EvLog "[xcresulttool] stderr"] else [])
       ++ [EvLog "[xcresulttool] stdout_len"],
     Raise (RuntimeError (no_summary_message err_text cmd_text)))%list.
Proof.
  intros Hrun Hpath. unfold _process_xcresult_to_html.
  rewrite Hrun, Hpath. unfold io_bind, emit, when, lift, io_ret, io_raise.
  destruct (nonempty (strip err_text)); cbn [app]; rewrite ?List.app_nil_r;
    reflexivity.
Qed.

Lemma detailed_path_none (data : json) (xcresult_path out_html_path : string)
    (include_details include_screenshots : bool) :
  include_details = false
  \/ snd (_extract_details_from_summary data) = Ok None ->
  exists logged,
    detailed_path data xcresult_path out_html_path include_details
      include_screenshots = (logged, Ok (None, None, None)).
Proof.
  intros H. unfold detailed_path.
  destruct include_details; [|exists []; reflexivity].
  destruct H as [H | H]; [discriminate|].
  destruct (_extract_details_from_summary data) as [logged r].
  simpl in H. subst r. exists (logged ++ [])%list. reflexivity.
Qed.

Lemma process_parse_error (xcresult_path out_html_path : string)
    (report_title : option string) (include_details include_screenshots : bool)
    (ran : list event) (text err_text cmd_text debug_json_path exc : string) :
  run_xcresulttool xcresult_path = (ran, Ok (Some text, err_text, cmd_text)) ->
  nonempty text = true ->
  json_path_of out_html_path = Ok debug_json_path ->
  json_loads text = inr exc ->
  _process_xcresult_to_html xcresult_path out_html_path report_title
    include_details include_screenshots
  = ((EvLog "[process]" :: ran)
       ++ EvLog "[xcresulttool] cmd"
       :: (if nonempty (strip err_text) then [EvLog "[xcresulttool] stderr"] else [])
       ++ [EvLog "[xcresulttool] stdout_len"; EvWrite debug_json_path text;
           EvLog "[json] ERROR parsing JSON"; EvLog "[json] JSON string length";
           EvLog "[json] JSON string preview"],
     Raise (RuntimeError ("Failed to parse JSON summary: " ++ exc)))%list.
Proof.
  intros Hrun Ht Hpath Hj. unfold _process_xcresult_to_html.
  rewrite Hrun, Hpath. unfold io_bind at 1 2. cbn [emit].
  rewrite Ht, Hj.
  unfold io_bind, emit, when, lift, io_ret, io_raise.
  destruct (nonempty (strip err_text)); cbn [app]; rewrite ?List.app_nil_r;
    reflexivity.
Qed.

Lemma process_succeeds (xcresult_path out_html_path : string)
    (report_title : option string) (include_details include_screenshots : bool)
    (ran : list event) (text err_text cmd_text debug_json_path : string)
    (data : json) :
  run_xcresulttool xcresult_path = (ran, Ok (Some text, err_text, cmd_text)) ->
  nonempty text = true ->
  json_path_of out_html_path = Ok debug_json_path ->
  json_loads text = inl data ->
  include_details = false
  \/ snd (_extract_details_from_summary data) = Ok None ->
  (forall html, write_file out_html_path html = None) ->
  exists trace html,
    _process_xcresult_to_html xcresult_path out_html_path report_title
      include_details include_screenshots = (trace, Ok (extract_counts data))
    /\ (let '(passed, failed, skipped) := extract_counts data in
        build_html passed failed skipped (path_name xcresult_path)
          (title_or_default report_title) None None None) = Ok html
    /\ In (EvWrite out_html_path html) trace.
Proof.
  intros Hrun Ht Hpath Hj Hd Hw.
  destruct (detailed_path_none data xcresult_path out_html_path
              include_details include_screenshots Hd) as [logged Hdp].
  unfold _process_xcresult_to_html.
  rewrite Hrun, Hpath. unfold io_bind at 1 2. cbn [emit].
  rewrite Ht, Hj.
  destruct (extract_counts data) as [[p f] s].
  unfold io_bind, emit, when, lift, io_ret, io_raise.
  rewrite Hdp, build_html_without_details, Hw.
  destruct (nonempty (strip err_text)),
    ((p =? 0) && (f =? 0) && (s =? 0))%bool;
    cbv beta iota zeta;
    (eexists; eexists; split; [reflexivity | split; [reflexivity | find_event]]).
Qed.

Lemma nonempty_strip (s : string) : nonempty (strip s) = true -> nonempty s = true.
Proof. now destruct s. Qed.

(** The text [run_xcresulttool] returns is never empty. *)
Lemma try_candidates_text (cmds : list (list string)) (last_stderr last_cmd : string)
    (ran : list event) (text err_text cmd_text : string) :
  try_candidates cmds last_stderr last_cmd
  = (ran, Ok (Some text, err_text, cmd_text)) ->
  nonempty text = true.
Proof.
  revert last_stderr last_cmd ran.
  induction cmds as [|cmd cmds IH]; intros last_stderr last_cmd ran;
    [discriminate|].
  cbn [try_candidates]. unfold io_bind at 1. cbn [emit].
  destruct (subprocess_run cmd) as [rc out err|msg|e]; try discriminate.
  destruct ((rc =? 0) && nonempty (strip out)) eqn:E.
  - unfold io_ret. intros [= _ <- _ _].
    apply andb_true_iff in E. now apply nonempty_strip.
  - destruct (try_candidates cmds _ _) as [t r] eqn:Et.
    intros [= _ ->]. exact (IH _ _ _ Et).
Qed.

Lemma message_names_command (err_text cmd_text : string) :
  nonempty cmd_text = true ->
  contains ("Command: " ++ cmd_text) (no_summary_message err_text cmd_text) = true.
Proof.
  intros H. unfold no_summary_message. cbv zeta. rewrite H.
  destruct (nonempty (strip err_text));
    rewrite ?append_assoc, <- (append_assoc "Command: " cmd_text);
    find_piece.
Qed.

Lemma message_holds_stderr (err_text cmd_text : string) :
  nonempty (strip err_text) = true ->
  contains ("Error output:
" ++ strip err_text) (no_summary_message err_text cmd_text) = true.
Proof.
  intros H. unfold no_summary_message. cbv zeta. rewrite H.
  destruct (nonempty cmd_text);
    rewrite ?append_assoc;
    rewrite <- (append_assoc "Error output:
" (strip err_text));
    find_piece.
Qed.

Lemma message_without_stderr (err_text cmd_text : string) :
  nonempty (strip err_text) = false ->
  contains "No error output captured." (no_summary_message err_text cmd_text)
  = true.
Proof.
  intros H. unfold no_summary_message. cbv zeta. rewrite H.
  destruct (nonempty cmd_text); rewrite ?append_assoc; find_piece.
Qed.

(** The two messages are different texts. *)
Lemma messages_distinct (err_text cmd_text exc : string) :
  no_summary_message err_text cmd_text <> "Failed to parse JSON summary: " ++ exc.
Proof. unfold no_summary_message. discriminate. Qed.

(** C7.  When every command variant completes without usable output, the
    entry point raises the error whose text names the last command tried and
    holds the stderr captured, after running the three commands, and neither
    the artifact nor the JSON beside it is written.  When the text extracted
    does not parse, it raises an error with another text.  When the text
    parses and the artifact can be written, it returns the counts, whatever
    they are, zero included, also when details are not asked for or none are
    found. *)
Theorem process_fails_only_without_summary :
  (forall (xcresult_path out_html_path : string) (report_title : option string)
          (include_details include_screenshots : bool) (debug_json_path : string),
      let cmds := candidates xcrun_path (abspath xcresult_path) in
      let cmd_text :=
        String.concat " " [xcrun_path; "xcresulttool"; "get"; "--path";
                           abspath xcresult_path; "--format"; "json"] in
      let err_text :=
        last_nonblank (map (fun cmd => stderr_of (subprocess_run cmd)) cmds)
          EmptyString in
      (forall cmd, In cmd cmds -> unusable (subprocess_run cmd) = true) ->
      json_path_of out_html_path = Ok debug_json_path ->
      exists trace,
        _process_xcresult_to_html xcresult_path out_html_path report_title
          include_details include_screenshots
        = (trace, Raise (RuntimeError (no_summary_message err_text cmd_text)))
        /\ contains ("Command: " ++ cmd_text)
             (no_summary_message err_text cmd_text) = true
        /\ (nonempty (strip err_text) = true ->
            contains ("Error output:
" ++ strip err_text) (no_summary_message err_text cmd_text) = true)
        /\ existsb is_write trace = false
        /\ (forall cmd, In cmd cmds -> In (EvRun cmd) trace))
  /\ (forall (xcresult_path out_html_path : string) (report_title : option string)
             (include_details include_screenshots : bool) (ran : list event)
             (text err_text cmd_text debug_json_path exc : string),
         run_xcresulttool xcresult_path
         = (ran, Ok (Some text, err_text, cmd_text)) ->
         json_path_of out_html_path = Ok debug_json_path ->
         json_loads text = inr exc ->
         snd (_process_xcresult_to_html xcresult_path out_html_path report_title
                include_details include_screenshots)
         = Raise (RuntimeError ("Failed to parse JSON summary: " ++ exc))
         /\ forall e c,
              no_summary_message e c <> "Failed to parse JSON summary: " ++ exc)
  /\ (forall (xcresult_path out_html_path : string) (report_title : option string)
             (include_details include_screenshots : bool) (ran : list event)
             (text err_text cmd_text debug_json_path : string) (data : json),
         run_xcresulttool xcresult_path
         = (ran, Ok (Some text, err_text, cmd_text)) ->
         json_path_of out_html_path = Ok debug_json_path ->
         json_loads text = inl data ->
         include_details = false
         \/ snd (_extract_details_from_summary data) = Ok None ->
         (forall html, write_file out_html_path html = None) ->
         exists trace html,
           _process_xcresult_to_html xcresult_path out_html_path report_title
             include_details include_screenshots
           = (trace, Ok (extract_counts data))
           /\ (let '(passed, failed, skipped) := extract_counts data in
               build_html passed failed skipped (path_name xcresult_path)
                 (title_or_default report_title) None None None) = Ok html
           /\ In (EvWrite out_html_path html) trace).
Proof.
  split; [|split].
  - intros xcresult_path out_html_path report_title include_details
      include_screenshots debug_json_path cmds cmd_text err_text Hall Hpath.
    assert (Hrun : run_xcresulttool xcresult_path
                   = (map EvRun cmds, Ok (None, err_text, cmd_text))).
    { unfold run_xcresulttool. now rewrite try_candidates_unusable. }
    eexists. split; [exact (process_without_summary _ _ _ _ _ _ _ _ _ Hrun Hpath)|].
    split.
    { apply message_names_command. unfold cmd_text.
      now destruct xcrun_path. }
    split; [apply message_holds_stderr|].
    split.
    { destruct (nonempty (strip err_text)); reflexivity. }
    intros cmd Hin. right. apply in_or_app. left. now apply in_map.
  - intros xcresult_path out_html_path report_title include_details
      include_screenshots ran text err_text cmd_text debug_json_path exc
      Hrun Hpath Hj.
    split; [|intros e c; apply messages_distinct].
    rewrite (process_parse_error _ _ _ _ _ _ _ _ _ _ _ Hrun
               (try_candidates_text _ _ _ _ _ _ _ Hrun) Hpath Hj).
    reflexivity.
  - intros xcresult_path out_html_path report_title include_details
      include_screenshots ran text err_text cmd_text debug_json_path data
      Hrun Hpath Hj Hd Hw.
    exact (process_succeeds _ _ _ _ _ _ _ _ _ _ _ Hrun
             (try_candidates_text _ _ _ _ _ _ _ Hrun) Hpath Hj Hd Hw).
Qed.

End ProcessTheorems.

(** * Further properties *)

(** ** The traversal *)

Lemma filter_flat_map {A B : Type} (f : B -> bool) (g : A -> list B) (l : list A) :
  filter f (flat_map g l) = flat_map (fun x => filter f (g x)) l.
Proof.
  induction l as [|x l IH]; simpl; [reflexivity|].
  now rewrite filter_app, IH.
Qed.

Lemma flat_map_ext_Forall {A B : Type} (g h : A -> list B) (l : list A) :
  Forall (fun x => g x = h x) l -> flat_map g l = flat_map h l.
Proof.
  induction 1 as [|x l Hx _ IH]; simpl; [reflexivity|]. now rewrite Hx, IH.
Qed.

(** X1.  [deep_iter] yields exactly the dictionaries of the document, those
    inside lists and inside the values of dictionaries included, in the order
    of a pre-order walk: a dictionary before the values below it, the values
    in insertion order. *)
Theorem deep_iter_yields_the_dictionaries (doc : json) :
  deep_iter doc = filter is_dict (subvalues doc).
Proof.
  induction doc using json_nested_ind; try reflexivity.
  - cbn [deep_iter subvalues filter is_dict].
    rewrite filter_flat_map. now apply flat_map_ext_Forall.
  - cbn [deep_iter subvalues filter is_dict]. f_equal.
    rewrite filter_flat_map. now apply flat_map_ext_Forall.
Qed.

(** ** The order of the search for the counts *)

Section CountsOrder.
Context {py : PyBuiltins}.

(** X2.  The counts [extract_counts] returns are never put together from two
    dictionaries: either no block returns at any dictionary of the document
    and the result is (0, 0, 0), or the result is what the five blocks give
    at one dictionary, the first in the order of [deep_iter] at which a block
    returns.  So a dictionary wins over everything nested in it, and an
    earlier value of a dictionary over a later one, whatever their depth. *)
Theorem first_returning_dictionary_decides (doc : json) :
  ((forall n, In n (deep_iter doc) -> node_counts n = None)
   /\ extract_counts doc = (0, 0, 0))
  \/ (exists pre n post,
        deep_iter doc = (pre ++ n :: post)%list
        /\ (forall m, In m pre -> node_counts m = None)
        /\ node_counts n = Some (extract_counts doc)).
Proof.
  unfold extract_counts. induction (deep_iter doc) as [|n nodes IH].
  - left. split; [intros n [] | reflexivity].
  - cbn [first_counts]. destruct (node_counts n) as [r|] eqn:E.
    + right. exists [], n, nodes. repeat split; [intros m [] | exact E].
    + destruct IH as [[Hall H0] | (pre & k & post & -> & Hpre & Hk)].
      * left. split; [|exact H0]. intros m [<-|Hm]; [exact E | now apply Hall].
      * right. exists (n :: pre), k, post. repeat split; [|exact Hk].
        intros m [<-|Hm]; [exact E | now apply Hpre].
Qed.

Lemma direct_pattern_reads (kp kf ks : string) (d : pydict) (p f s : Z) :
  reads_counts kp kf ks d p f s ->
  direct_pattern kp kf ks d = Some (p, f, s).
Proof.
  intros ((vp & Hp & Sp) & (vf & Hf & Sf) & Hs). unfold direct_pattern.
  rewrite (lookup_has_key _ _ _ Hp), (lookup_has_key _ _ _ Hf). simpl.
  rewrite (get_default_lookup _ _ _ _ Hp), (get_default_lookup _ _ _ _ Hf).
  apply read3_some; [exact Sp | exact Sf |].
  destruct Hs as [[Hs ->] | [vs [Hs Ss]]].
  - rewrite (get_default_missing _ _ _ Hs). apply count_of_int.
  - rewrite (get_default_lookup _ _ _ _ Hs). exact Ss.
Qed.

(** X3.  The three older schemas are read like the summary one.  At the
    first dictionary at which a block returns, when the two blocks for the
    summary keys do not return there, the counts are the integer values of
    [passed], [failed] and [skipped]; failing that block, those of
    [testsPassedCount], [testsFailedCount] and [testsSkippedCount]; failing
    that one too, those of [passedCount], [failedCount] and [skippedCount].
    The third count is 0 when its key is absent. *)
Theorem legacy_patterns_read_counts
        (doc : json) (pre post : list json) (d : pydict) (p f s : Z) :
  deep_iter doc = (pre ++ JDict d :: post)%list ->
  (forall n, In n pre -> node_counts n = None) ->
  pattern_summary d = None ->
  pattern_total d = None ->
  (reads_counts "passed" "failed" "skipped" d p f s ->
   extract_counts doc = (p, f, s))
  /\ (pattern_A d = None ->
      reads_counts "testsPassedCount" "testsFailedCount" "testsSkippedCount"
                   d p f s ->
      extract_counts doc = (p, f, s))
  /\ (pattern_A d = None -> pattern_B d = None ->
      reads_counts "passedCount" "failedCount" "skippedCount" d p f s ->
      extract_counts doc = (p, f, s)).
Proof.
  intros Hdoc Hpre H0 H1.
  assert (Hn : forall r, node_counts (JDict d) = Some r -> extract_counts doc = r).
  { intros r Hr. unfold extract_counts. rewrite Hdoc.
    now apply first_counts_hit. }
  unfold node_counts in Hn. rewrite H0, H1 in Hn. cbn [or_else] in Hn.
  split; [|split].
  - intros R. apply Hn. unfold pattern_A.
    now rewrite (direct_pattern_reads _ _ _ _ _ _ _ R).
  - intros HA R. apply Hn. rewrite HA. cbn [or_else]. unfold pattern_B.
    now rewrite (direct_pattern_reads _ _ _ _ _ _ _ R).
  - intros HA HB R. apply Hn. rewrite HA, HB. cbn [or_else]. unfold pattern_alt.
    exact (direct_pattern_reads _ _ _ _ _ _ _ R).
Qed.

End CountsOrder.

(** ** What the detail extractor returns *)

Section DetailsShape.
Context {py : PyBuiltins}.

Lemma detail_of_unnamed (e : pydict) :
  truthy (test_name_of e) = false -> detail_of e = Ok None.
Proof. unfold detail_of, test_name_of. now intros ->. Qed.

Lemma slice_to_bounded (v r : json) :
  slice_to 100 v = Ok r -> bounded_excerpt r.
Proof.
  destruct v; try discriminate; cbn [slice_to]; intros H;
    apply Ok_inj in H; subst r; cbn [bounded_excerpt].
  - apply substring_length.
  - apply firstn_le_length.
Qed.

Lemma detail_of_shape (e r : pydict) :
  detail_of e = Ok (Some r) ->
  truthy (test_name_of e) = true
  /\ map fst r = record_keys
  /\ get r "name" = test_name_of e
  /\ get r "status" = JStr "Failed"
  /\ bounded_excerpt (get r "failure").
Proof.
  unfold detail_of. fold (test_name_of e).
  destruct (truthy (test_name_of e)) eqn:T; [|discriminate].
  destruct (if truthy (py_or (get e "failureText") (JStr EmptyString))
            then slice_to 100 (py_or (get e "failureText") (JStr EmptyString))
            else Ok (JStr EmptyString)) as [x|] eqn:X; [|discriminate].
  unfold bind. intros [= <-].
  repeat split.
  change (bounded_excerpt x).
  destruct (truthy (py_or (get e "failureText") (JStr EmptyString))).
  - exact (slice_to_bounded _ _ X).
  - injection X as <-. simpl. lia.
Qed.

Lemma detail_of_raises (e : pydict) :
  (exists x, detail_of e = Raise x)
  <-> truthy (test_name_of e) = true /\ sliceable (get e "failureText") = false.
Proof.
  unfold detail_of. fold (test_name_of e).
  destruct (truthy (test_name_of e)) eqn:T.
  - unfold py_or. destruct (truthy (get e "failureText")) eqn:F.
    + rewrite F.
      destruct (get e "failureText") eqn:G; simpl in F |- *;
        try (split; [now intros [x [=]] | now intros [_ [=]]]);
        try (rewrite ?F; split; [intros _; now split | intros _; eauto]).
    + simpl.
      split; [now intros [x [=]] | intros [_ S]].
      destruct (get e "failureText"); simpl in F, S; try discriminate;
        rewrite F in S; discriminate.
  - split; [now intros [x [=]] | now intros [[=] _]].
Qed.

Lemma collect_details_raises (failures : list json) :
  (exists x, collect_details failures = Raise x)
  <-> exists e, In (JDict e) failures /\ exists x, detail_of e = Raise x.
Proof.
  induction failures as [|v failures IH].
  - simpl. split; [now intros [x [=]] | now intros [e [[] _]]].
  - assert (Hskip : is_dict v = false ->
              ((exists x, collect_details (v :: failures) = Raise x)
               <-> exists e, In (JDict e) (v :: failures)
                             /\ exists x, detail_of e = Raise x)).
    { intros Hv.
      assert (E : collect_details (v :: failures) = collect_details failures)
        by (destruct v; try reflexivity; discriminate).
      rewrite E, IH. split.
      - intros (e & He & Hx). exists e. split; [now right | exact Hx].
      - intros (e & [-> | He] & Hx); [discriminate|]. now exists e. }
    destruct v; try (apply Hskip; reflexivity). clear Hskip.
    simpl. destruct (detail_of entries) as [o|x] eqn:D.
    + simpl. destruct (collect_details failures) as [ds|y] eqn:C.
      * simpl. split; [now intros [x [=]]|].
        intros (e & [[= <-] | He] & x & Hx); [congruence|].
        destruct (proj2 IH) as [y [=]]. exists e. eauto.
      * simpl. split; [|eauto].
        intros _. destruct (proj1 IH (ex_intro _ y eq_refl)) as (e & He & Hx).
        exists e. split; [now right | exact Hx].
    + simpl. split; [|eauto]. intros _. exists entries. split; [now left | eauto].
Qed.

Lemma collect_details_named (failures : list json) (ds : list pydict) :
  collect_details failures = Ok ds ->
  Forall2 (fun e r => detail_of e = Ok (Some r)) (named_entries failures) ds.
Proof.
  revert ds. induction failures as [|v failures IH]; intros ds.
  - simpl. intros [= <-]. constructor.
  - destruct v; try exact (IH ds).
    simpl. destruct (detail_of entries) as [o|] eqn:D; [|discriminate].
    destruct (collect_details failures) as [ds'|]; [|discriminate].
    simpl. intros [= <-].
    destruct o as [r|].
    + destruct (detail_of_shape _ _ D) as [T _]. rewrite T. simpl.
      constructor; [exact D | now apply IH].
    + destruct (truthy (test_name_of entries)) eqn:T.
      * unfold detail_of in D. fold (test_name_of entries) in D. rewrite T in D.
        destruct (if truthy _ then _ else _); discriminate.
      * simpl. now apply IH.
Qed.

Lemma extract_details_cases (d : pydict) :
  (exists failures, lookup "testFailures" d = Some (JList failures)
     /\ snd (_extract_details_from_summary (JDict d))
        = (ds <- collect_details failures ;; Ok (none_if_empty ds)))
  \/ ((forall failures, lookup "testFailures" d <> Some (JList failures))
      /\ snd (_extract_details_from_summary (JDict d)) = Ok None).
Proof.
  unfold _extract_details_from_summary.
  destruct (lookup "testFailures" d) as [v|] eqn:L.
  - rewrite (lookup_has_key _ _ _ L). unfold get.
    rewrite (get_default_lookup _ _ _ _ L).
    destruct v; try (right; split; [intros f; congruence | reflexivity]).
    left. exists items. split; [reflexivity|].
    unfold io_bind, emit, lift, io_ret.
    destruct (collect_details items); reflexivity.
  - rewrite (proj2 (has_key_false_lookup _ _) L).
    right. split; [intros f; congruence | reflexivity].
Qed.

(** X4.  What [_extract_details_from_summary] returns is never an empty
    list.  The list has one record for each entry of [testFailures] that is
    a dictionary with a name (test name, or identifier string in its place)
    that is true, in the order of the entries and without merging
    duplicates; a record has the five keys [name], [status], [suite],
    [failure] and [testIdentifierString], its name is that name, its status
    is [Failed], and its failure excerpt is a string of at most 100
    characters or a list of at most 100 items. *)
Theorem detail_records_well_formed (data : json) (ds : list pydict) :
  snd (_extract_details_from_summary data) = Ok (Some ds) ->
  ds <> []
  /\ exists d failures,
       data = JDict d
       /\ lookup "testFailures" d = Some (JList failures)
       /\ Forall2 (fun e r =>
                     map fst r = record_keys
                     /\ get r "name" = test_name_of e
                     /\ truthy (get r "name") = true
                     /\ get r "status" = JStr "Failed"
                     /\ bounded_excerpt (get r "failure"))
                  (named_entries failures) ds.
Proof.
  intros H. destruct data; try discriminate.
  destruct (extract_details_cases entries) as [(failures & L & E) | [_ E]];
    rewrite E in H; [|discriminate].
  destruct (collect_details failures) as [ds'|] eqn:C; [|discriminate].
  simpl in H. destruct ds' as [|r ds']; [discriminate|].
  injection H as <-. split; [discriminate|].
  exists entries, failures. repeat split; [exact L|].
  apply collect_details_named in C.
  eapply Forall2_impl; [|exact C].
  intros e r' D. destruct (detail_of_shape _ _ D) as (T & K & N & S & B).
  rewrite N. repeat split; assumption.
Qed.

(** X5.  [_extract_details_from_summary] returns [None], and does not raise,
    when the summary is no dictionary (without a line in the log then), when
    it has no [testFailures] or a value that is not a list, and when no
    entry of the list is a dictionary with a name that is true: such entries
    are passed over before their failure text is looked at. *)
Theorem no_named_failure_no_details :
  (forall data, is_dict data = false ->
     _extract_details_from_summary data = ([], Ok None))
  /\ (forall d, (forall failures, lookup "testFailures" d <> Some (JList failures)) ->
        snd (_extract_details_from_summary (JDict d)) = Ok None)
  /\ (forall d failures,
        lookup "testFailures" d = Some (JList failures) ->
        (forall e, In (JDict e) failures -> truthy (test_name_of e) = false) ->
        snd (_extract_details_from_summary (JDict d)) = Ok None).
Proof.
  split; [|split].
  - intros data H. destruct data; try reflexivity. discriminate.
  - intros d H.
    destruct (extract_details_cases d) as [(failures & L & _) | [_ E]];
      [now destruct (H failures) | exact E].
  - intros d failures L H.
    assert (C : collect_details failures = Ok []).
    { clear L. induction failures as [|v failures IH]; [reflexivity|].
      assert (IH' : collect_details failures = Ok []).
      { apply IH. intros e He. apply H. now right. }
      destruct v; try exact IH'.
      simpl. rewrite detail_of_unnamed by (apply H; now left).
      now rewrite IH'. }
    now rewrite (extract_details_of_list d failures [] L C).
Qed.

(** X6.  [_extract_details_from_summary] raises exactly when some entry of
    the [testFailures] list is a dictionary with a name that is true and a
    failure text that is true and is neither a string nor a list (a number,
    [true] or a dictionary that is not empty), wherever the entry stands in
    the list. *)
Theorem unsliceable_failure_text_raises (d : pydict) (failures : list json) :
  lookup "testFailures" d = Some (JList failures) ->
  ((exists x, snd (_extract_details_from_summary (JDict d)) = Raise x)
   <-> exists e, In (JDict e) failures
                 /\ truthy (test_name_of e) = true
                 /\ sliceable (get e "failureText") = false).
Proof.
  intros L.
  destruct (extract_details_cases d) as [(failures' & L' & E) | [N _]];
    [|now destruct (N failures)].
  rewrite L in L'. injection L' as <-. rewrite E.
  split.
  - intros [x Hx].
    destruct (collect_details failures) as [ds|y] eqn:C; [discriminate|].
    destruct (proj1 (collect_details_raises failures) (ex_intro _ y C))
      as (e & He & R).
    exists e. split; [exact He|]. now apply detail_of_raises.
  - intros (e & He & T & S).
    destruct (proj2 (collect_details_raises failures)) as [x ->]; [|simpl; eauto].
    exists e. split; [exact He|]. apply detail_of_raises. now split.
Qed.

End DetailsShape.

(** ** When the renderer raises, and the total it shows *)

Lemma Raise_inj {A : Type} (a b : exn) : @Raise A a = Raise b -> a = b.
Proof. now intros [= ->]. Qed.

Lemma Some_inj {A : Type} (a b : A) : Some a = Some b -> a = b.
Proof. now intros [= ->]. Qed.

Section IndexedRender.
Context {py : PyBuiltins}.
Import Attachments.

Lemma scan_keys_raises (idx : index) (test_id : json) (keys : list json)
      (imgs : option (list json)) :
  (exists x, Indexed.scan_keys idx test_id keys imgs = Raise x)
  <-> Indexed.blocked test_id keys.
Proof.
  assert (N : is_str test_id = false ->
              ((exists x, Indexed.scan_keys idx test_id keys imgs = Raise x)
               <-> keys <> [])).
  { intros T. destruct keys as [|key keys].
    - split; [now intros [x [=]] | now intros []].
    - split; [discriminate|]. intros _. exists TypeError.
      destruct key, test_id; try reflexivity; discriminate T. }
  destruct test_id as [| | | |t| |]; try (apply N; reflexivity). clear N.
  induction keys as [|key keys IH].
  - split; [now intros [x [=]]|].
    intros (pre & key & post & H & _). now destruct pre.
  - cbn [Indexed.scan_keys Indexed.blocked].
    assert (B : is_str key = false -> Indexed.blocked (JStr t) (key :: keys)).
    { intros K. exists [], key, keys. repeat split; [exact K | intros k []]. }
    destruct key as [| | | |k| |]; try (split; [intros _; now apply B | eauto]).
    clear B. destruct (key_matches t k) eqn:M.
    + split; [now intros [x [=]]|].
      intros (pre & key & post & H & K & P). destruct pre as [|k' pre].
      * injection H as <- _. discriminate K.
      * injection H as <- _.
        destruct (P (JStr k) (or_introl eq_refl)) as (s & [= <-] & M').
        congruence.
    + rewrite IH. split.
      * intros (pre & key & post & -> & K & P).
        exists (JStr k :: pre), key, post. repeat split; [exact K|].
        intros k' [<- | H]; [eauto | now apply P].
      * intros (pre & key & post & H & K & P). destruct pre as [|k' pre].
        -- injection H as <- _. discriminate K.
        -- injection H as _ ->. exists pre, key, post. repeat split; [exact K|].
           intros k'' H. apply P. now right.
Qed.

Lemma scan_keys_type_error (idx : index) (test_id : json) (keys : list json)
      (imgs : option (list json)) (x : exn) :
  Indexed.scan_keys idx test_id keys imgs = Raise x -> x = TypeError.
Proof.
  induction keys as [|key keys IH]; [discriminate|].
  cbn [Indexed.scan_keys].
  destruct key as [| | | |k| |], test_id as [| | | |t| |];
    try (intros H; apply Raise_inj in H; now subst x).
  destruct (key_matches t k); [discriminate | exact IH].
Qed.

Lemma indexed_find_screens_raises (idx : index) (test_id : json) :
  (exists x, Indexed.find_screens idx test_id = Raise x)
  <-> Indexed.lookup_fails idx test_id.
Proof.
  unfold Indexed.find_screens, Indexed.lookup_fails.
  destruct (hashable test_id).
  - destruct (index_get test_id idx) as [[|fn fns]|].
    + rewrite scan_keys_raises. split; [intros B; right; auto|].
      now intros [H | [_ B]].
    + split; [now intros [x [=]]|].
      intros [H | [[H | H] _]]; discriminate H.
    + rewrite scan_keys_raises. split; [intros B; right; auto|].
      now intros [H | [_ B]].
  - split; [now left | eauto].
Qed.

Lemma indexed_find_screens_type_error (idx : index) (test_id : json) (x : exn) :
  Indexed.find_screens idx test_id = Raise x -> x = TypeError.
Proof.
  unfold Indexed.find_screens. destruct (hashable test_id).
  - destruct (index_get test_id idx) as [[|fn fns]|];
      try apply scan_keys_type_error. discriminate.
  - intros H. apply Raise_inj in H. now subst x.
Qed.

Lemma indexed_render_item_raises (has_failures : bool) (dir : string)
      (idx : index) (item : pydict) (x : exn) :
  Indexed.render_item has_failures (Some (dir, idx)) item = Raise x
  <-> Indexed.find_screens idx
        (get_default item "testIdentifierString" (JStr EmptyString)) = Raise x.
Proof.
  unfold Indexed.render_item.
  destruct (Indexed.find_screens idx _) as [imgs|y]; unfold bind.
  - split; discriminate.
  - split; intros H; apply Raise_inj in H; now subst y.
Qed.

Lemma indexed_render_items_raises (has_failures : bool)
      (shots : option (string * index)) (details : list pydict) :
  (exists x, Indexed.render_items has_failures shots details = Raise x)
  <-> exists item, In item details
                   /\ exists x, Indexed.render_item has_failures shots item
                                = Raise x.
Proof.
  induction details as [|item details IH].
  - split; [now intros [x [=]] | now intros [item [[] _]]].
  - cbn [Indexed.render_items].
    destruct (Indexed.render_item has_failures shots item) as [row|x] eqn:R;
      unfold bind.
    + destruct (Indexed.render_items has_failures shots details)
        as [rows|y] eqn:Rs.
      * split; [now intros [x [=]]|].
        intros (i & [<- | Hi] & x & Hx); [congruence|].
        destruct (proj2 IH) as [y [=]]. exists i. eauto.
      * split; [|eauto]. intros _.
        destruct (proj1 IH (ex_intro _ y eq_refl)) as (i & Hi & Hx).
        exists i. split; [now right | exact Hx].
    + split; [|eauto]. intros _. exists item. split; [now left | eauto].
Qed.

Lemma indexed_render_items_type_error (has_failures : bool)
      (shots : option (string * index)) (details : list pydict) (x : exn) :
  Indexed.render_items has_failures shots details = Raise x -> x = TypeError.
Proof.
  induction details as [|item details IH]; [discriminate|].
  cbn [Indexed.render_items].
  destruct (Indexed.render_item has_failures shots item) as [row|y] eqn:R;
    unfold bind.
  - destruct (Indexed.render_items has_failures shots details) as [rows|z];
      [discriminate|].
    intros H. apply Raise_inj in H. subst z. now apply IH.
  - intros H. apply Raise_inj in H. subst y.
    destruct shots as [[dir idx]|]; [|discriminate R].
    apply indexed_render_item_raises in R.
    now apply indexed_find_screens_type_error in R.
Qed.

Lemma indexed_render_items_plain (has_failures : bool) (details : list pydict) :
  exists rows, Indexed.render_items has_failures None details = Ok rows.
Proof.
  induction details as [|item details [rows IH]]; [simpl; eauto|].
  cbn [Indexed.render_items Indexed.render_item]. unfold bind. rewrite IH. eauto.
Qed.

Lemma indexed_active_shots_nonempty (dir : option string) (m : option index)
      (d : string) (idx : index) :
  Indexed.active_shots dir m = Some (d, idx) -> m = Some idx /\ idx <> [].
Proof.
  unfold Indexed.active_shots. destruct dir as [dir'|]; [|discriminate].
  destruct m as [[|e m']|]; try discriminate.
  destruct (nonempty dir'); [|discriminate]. now intros [= _ <-].
Qed.

(** A value that is no string is the same key as no string. *)
Lemma same_key_str (v : json) (s : string) :
  is_str v = false -> same_key v (JStr s) = false.
Proof.
  intros V. unfold same_key.
  assert (E : scalar_eq v (JStr s) = false).
  { unfold scalar_eq.
    destruct v; try reflexivity; try discriminate V;
      now destruct (number_of _). }
  rewrite E. now destruct v as [| | |[]| | |].
Qed.

Lemma index_get_string_keys (idx : index) (v : json) :
  Indexed.string_keys idx -> is_str v = false -> index_get v idx = None.
Proof.
  intros K V. induction idx as [|[k names] idx IH]; [reflexivity|].
  cbn [index_get].
  assert (Hk : is_str k = true) by (apply (K k names); now left).
  destruct k; try discriminate Hk. rewrite (same_key_str v s V).
  apply IH. intros k' n' H. apply (K k' n'). now right.
Qed.

(** Over an index whose keys are strings, the lookup raises for the
    identifiers that are no strings, and for no other. *)
Lemma lookup_fails_string_keys (idx : index) (test_id : json) :
  Indexed.string_keys idx -> idx <> [] ->
  (Indexed.lookup_fails idx test_id <-> is_str test_id = false).
Proof.
  intros K N. unfold Indexed.lookup_fails. split.
  - intros [H | [_ B]]; [now destruct test_id|].
    destruct test_id; try reflexivity.
    destruct B as (pre & key & post & E & Hk & _).
    assert (I : In key (map fst idx)).
    { rewrite E. apply in_or_app. right. now left. }
    apply in_map_iff in I. destruct I as ([k names] & <- & I).
    cbn [fst] in Hk. rewrite (K _ _ I) in Hk. discriminate Hk.
  - intros T. destruct (hashable test_id) eqn:Hh; [right | now left].
    split; [left; now apply index_get_string_keys|].
    destruct test_id; try discriminate T; cbn [Indexed.blocked];
      now destruct idx.
Qed.

(** X7.  [build_html], over the index as the export builds it, raises
    exactly when there are details, a screenshot directory and a screenshot
    index that are all true (not [None], not empty), and the lookup of the
    [testIdentifierString] of some record fails: the identifier cannot be
    hashed, or the index holds no file name under it and the fallback scan
    meets, before any key that matches, a key on which the membership test
    raises (any key for an identifier that is no string, a key that is no
    string otherwise).  Over an index whose keys are all strings this is:
    the identifier of some record is no string.  The exception is a
    [TypeError]; in every other case a document is returned. *)
Theorem build_html_raises_iff
        (passed failed skipped : Z) (source_name title : string)
        (details : option (list pydict))
        (dir : option string) (screenshot_map : option index) :
  let raises :=
    exists x, Indexed.build_html passed failed skipped source_name title
                details dir screenshot_map = Raise x in
  (raises <->
   exists ds d idx item,
     details = Some ds
     /\ Indexed.active_shots dir screenshot_map = Some (d, idx)
     /\ In item ds
     /\ Indexed.lookup_fails idx
          (get_default item "testIdentifierString" (JStr EmptyString)))
  /\ (forall idx,
         screenshot_map = Some idx -> Indexed.string_keys idx ->
         (raises <->
          exists ds shots item,
            details = Some ds
            /\ Indexed.active_shots dir screenshot_map = Some shots
            /\ In item ds
            /\ is_str (get_default item "testIdentifierString"
                         (JStr EmptyString)) = false))
  /\ (forall x,
         Indexed.build_html passed failed skipped source_name title details
           dir screenshot_map = Raise x ->
         x = TypeError).
Proof.
  cbv zeta.
  assert (G : (exists x, Indexed.build_html passed failed skipped source_name
                           title details dir screenshot_map = Raise x)
              <-> exists ds d idx item,
                  details = Some ds
                  /\ Indexed.active_shots dir screenshot_map = Some (d, idx)
                  /\ In item ds
                  /\ Indexed.lookup_fails idx
                       (get_default item "testIdentifierString"
                          (JStr EmptyString))).
  { unfold Indexed.build_html. cbv zeta.
    destruct details as [[|item rest]|].
    - unfold bind. split; [now intros [x [=]]|].
      now intros (ds & d & idx & i & [= <-] & _ & [] & _).
    - unfold Indexed.details_section. cbv zeta.
      remember (existsb (fun i => truthy (get i "failure")) (item :: rest))
        as hf.
      destruct (Indexed.active_shots dir screenshot_map) as [[d idx]|] eqn:A.
      + destruct (Indexed.render_items hf (Some (d, idx)) (item :: rest))
          as [rows|x] eqn:R; unfold bind.
        * split; [now intros [x [=]]|].
          intros (ds & d' & idx' & i & [= <-] & [= <- <-] & Hi & Hs).
          destruct (proj2 (indexed_render_items_raises hf (Some (d, idx))
                             (item :: rest))) as [y Hy]; [|congruence].
          exists i. split; [exact Hi|].
          apply indexed_find_screens_raises in Hs. destruct Hs as [y Hy].
          exists y. now apply indexed_render_item_raises.
        * split; [|eauto]. intros _.
          destruct (proj1 (indexed_render_items_raises hf (Some (d, idx))
                             (item :: rest)) (ex_intro _ x R))
            as (i & Hi & y & Hy).
          exists (item :: rest), d, idx, i. repeat split; [exact Hi|].
          apply indexed_find_screens_raises. exists y.
          now apply (indexed_render_item_raises hf d idx).
      + destruct (indexed_render_items_plain hf (item :: rest)) as [rows ->].
        unfold bind. split; [now intros [x [=]]|].
        now intros (ds & d & idx & i & _ & [=] & _).
    - unfold bind. split; [now intros [x [=]]|].
      now intros (ds & d & idx & i & [=] & _). }
  split; [exact G|]. split.
  - intros idx -> K. rewrite G. split.
    + intros (ds & d & idx' & item & Hd & A & Hi & F).
      destruct (indexed_active_shots_nonempty _ _ _ _ A) as [E N].
      apply Some_inj in E. subst idx'.
      exists ds, (d, idx), item. repeat split; auto.
      now apply (lookup_fails_string_keys idx _ K N).
    + intros (ds & [d idx'] & item & Hd & A & Hi & F).
      destruct (indexed_active_shots_nonempty _ _ _ _ A) as [E N].
      apply Some_inj in E. subst idx'.
      exists ds, d, idx, item. repeat split; auto.
      now apply (lookup_fails_string_keys idx _ K N).
  - intros x. unfold Indexed.build_html. cbv zeta.
    destruct details as [[|item rest]|]; try discriminate.
    unfold Indexed.details_section. cbv zeta.
    destruct (Indexed.render_items _ _ _) as [rows|y] eqn:R; unfold bind;
      [discriminate|].
    intros H. apply Raise_inj in H. subst y.
    now apply indexed_render_items_type_error in R.
Qed.

End IndexedRender.

Lemma head_2_split : head_2 = head_2_lead ++ kpi_marker "Total".
Proof. reflexivity. Qed.

Section TotalFigure.
Context {py : PyBuiltins}.

(** X8.  The figure a rendered report shows under [Total] is the sum of the
    three counts it was rendered from, whatever the details and the
    screenshots, when the title does not itself hold the markup of a
    figure's label. *)
Theorem total_figure_is_the_sum
    (passed failed skipped : Z) (source_name title : string)
    (details : option (list pydict)) (dir : option string) (m : option smap)
    (html : string) :
  build_html passed failed skipped source_name title details dir m = Ok html ->
  contains kpi_label_open title = false ->
  kpi_value "Total" html = Some (passed + failed + skipped).
Proof.
  intros H Ht. destruct (build_html_shape _ _ _ _ _ _ _ _ _ H) as [section ->].
  eapply kpi_value_after;
    [ rewrite html_head_shape, head_2_split, !append_assoc;
      repeat first [ skip_fixed | skip_title Ht ];
      apply after_first_here
    | reflexivity ].
Qed.

End TotalFigure.

(** ** The command that gives the summary *)

Section RunTheorems.
Context {py : PyBuiltins} {world : World}.

Lemma try_candidates_prefix (pre : list (list string)) (cmds : list (list string))
    (last_stderr last_cmd : string) :
  (forall c, In c pre -> unusable (subprocess_run c) = true) ->
  exists e c,
    try_candidates (pre ++ cmds) last_stderr last_cmd
    = let (t, r) := try_candidates cmds e c in ((map EvRun pre ++ t)%list, r).
Proof.
  revert last_stderr last_cmd.
  induction pre as [|cmd pre IH]; intros last_stderr last_cmd H.
  - exists last_stderr, last_cmd. cbn [app map].
    now destruct (try_candidates cmds last_stderr last_cmd).
  - cbn [app try_candidates]. unfold io_bind at 1. cbn [emit].
    pose proof (H cmd (or_introl eq_refl)) as Hc.
    destruct (subprocess_run cmd) as [rc out err| |] eqn:E; try discriminate.
    cbn [unusable] in Hc. apply negb_true_iff in Hc. rewrite Hc.
    destruct (IH (if nonempty (strip err) then err else last_stderr)
                 (String.concat " " cmd)) as (e & c & ->);
      [intros c Hin; apply H; now right|].
    exists e, c. now destruct (try_candidates cmds e c).
Qed.

Lemma candidates_head (xcrun xcresult : string) (cmd : list string) :
  In cmd (candidates xcrun xcresult) -> hd EmptyString cmd = xcrun.
Proof. intros [<- | [<- | [<- | []]]]; reflexivity. Qed.

(** X9.  [run_xcresulttool] stops at the first command that completes with
    return code 0 and an output that is not blank: it returns that output as
    printed, the stderr of that command alone, whatever the commands before
    it wrote there, and the command line; the commands after it are not
    run. *)
Theorem first_usable_command_wins
        (xcresult_path : string) (pre post : list (list string))
        (cmd : list string) (stdout stderr : string) :
  candidates xcrun_path (abspath xcresult_path) = (pre ++ cmd :: post)%list ->
  (forall c, In c pre -> unusable (subprocess_run c) = true) ->
  subprocess_run cmd = Completed 0 stdout stderr ->
  nonempty (strip stdout) = true ->
  run_xcresulttool xcresult_path
  = (map EvRun (pre ++ [cmd])%list,
     Ok (Some stdout, stderr, String.concat " " cmd)).
Proof.
  intros Hc Hpre Hrun Hout. unfold run_xcresulttool. rewrite Hc.
  destruct (try_candidates_prefix pre (cmd :: post) EmptyString EmptyString Hpre)
    as (e & c & ->).
  cbn [try_candidates]. unfold io_bind at 1. cbn [emit].
  rewrite Hrun, Hout. cbn [Z.eqb andb io_ret].
  now rewrite map_app.
Qed.

(** X10.  When a command cannot be started ([FileNotFoundError]), the
    commands before it having given nothing usable, [run_xcresulttool] gives
    up at once: it returns no output and the text
    [Could not execute <xcrun>: <exception>] in place of the stderr, and the
    commands after it are not run.  Any other exception of
    [subprocess.run] leaves [run_xcresulttool] as it is. *)
Theorem missing_tool_stops_the_search
        (xcresult_path : string) (pre post : list (list string))
        (cmd : list string) :
  candidates xcrun_path (abspath xcresult_path) = (pre ++ cmd :: post)%list ->
  (forall c, In c pre -> unusable (subprocess_run c) = true) ->
  (forall text, subprocess_run cmd = FileNotFound text ->
     run_xcresulttool xcresult_path
     = (map EvRun (pre ++ [cmd])%list,
        Ok (None, "Could not execute " ++ xcrun_path ++ ": " ++ text,
            String.concat " " cmd)))
  /\ (forall e, subprocess_run cmd = RunRaised e ->
        run_xcresulttool xcresult_path
        = (map EvRun (pre ++ [cmd])%list, Raise e)).
Proof.
  intros Hc Hpre.
  assert (Hhd : hd EmptyString cmd = xcrun_path).
  { apply (candidates_head xcrun_path (abspath xcresult_path)).
    rewrite Hc. apply in_or_app. right. now left. }
  unfold run_xcresulttool. rewrite Hc.
  destruct (try_candidates_prefix pre (cmd :: post) EmptyString EmptyString Hpre)
    as (e & c & ->).
  cbn [try_candidates]. unfold io_bind at 1. cbn [emit].
  split.
  - intros text ->. rewrite Hhd. cbn [io_ret]. now rewrite map_app.
  - intros x ->. cbn [io_raise]. now rewrite map_app.
Qed.

End RunTheorems.

(** ** What the entry point writes, and when it fails *)

Section ProcessOutcomes.
Context {py : PyBuiltins} {world : World}.

Lemma try_candidates_only_runs (f : event -> bool)
    (cmds : list (list string)) (e c : string) :
  (forall cmd, f (EvRun cmd) = false) ->
  filter f (fst (try_candidates cmds e c)) = [].
Proof.
  intros Hf. revert e c. induction cmds as [|cmd cmds IH]; intros e c; [reflexivity|].
  cbn [try_candidates]. unfold io_bind at 1. cbn [emit].
  destruct (subprocess_run cmd) as [rc out err|text|x].
  - destruct ((rc =? 0) && nonempty (strip out)).
    + cbn. now rewrite Hf.
    + specialize (IH (if nonempty (strip err) then err else e)
                     (String.concat " " cmd)).
      destruct (try_candidates cmds _ _) as [t r]. cbn in IH |- *.
      now rewrite Hf.
  - cbn. now rewrite Hf.
  - cbn. now rewrite Hf.
Qed.

Lemma extract_details_only_logs (f : event -> bool) (data : json) :
  (forall tag, f (EvLog tag) = true -> False) ->
  filter f (fst (_extract_details_from_summary data)) = [].
Proof.
  intros Hf.
  assert (Hl : forall tag, f (EvLog tag) = false).
  { intros tag. destruct (f (EvLog tag)) eqn:E; [now destruct (Hf tag)|reflexivity]. }
  unfold _extract_details_from_summary.
  destruct data; try reflexivity.
  destruct (if has_key "testFailures" entries then get entries "testFailures"
            else JNull); cbn; rewrite ?Hl; try reflexivity.
  unfold lift, io_bind. destruct (collect_details items); cbn; now rewrite ?Hl.
Qed.

Lemma run_xcresulttool_only_runs (f : event -> bool) (xcresult_path : string)
    (ran : list event) (r : result (option string * string * string)) :
  (forall cmd, f (EvRun cmd) = false) ->
  run_xcresulttool xcresult_path = (ran, r) -> filter f ran = [].
Proof.
  intros Hf H. unfold run_xcresulttool in H.
  pose proof (try_candidates_only_runs f
                (candidates xcrun_path (abspath xcresult_path))
                EmptyString EmptyString Hf) as E.
  now rewrite H in E.
Qed.

Lemma detailed_path_writes (data : json) (xcresult_path out_html_path : string)
    (include_details include_screenshots : bool) :
  writes (fst (detailed_path data xcresult_path out_html_path include_details
                 include_screenshots)) = [].
Proof.
  unfold detailed_path, writes.
  destruct include_details; [|reflexivity].
  pose proof (extract_details_only_logs is_write data
                ltac:(intros tag; discriminate)) as E.
  destruct (_extract_details_from_summary data) as [t [[[|item rest]|]|x]];
    cbn [fst] in E; cbv beta iota zeta delta [io_bind io_ret];
    cbn [fst]; rewrite ?filter_app, ?E; try reflexivity.
  destruct include_screenshots; cbv beta iota zeta delta [io_bind io_ret emit lift].
  - destruct (_export_attachments xcresult_path out_html_path) as [[d m]|x];
      cbn [fst]; rewrite ?filter_app, ?E; reflexivity.
  - cbn [fst]. rewrite ?filter_app, ?E. reflexivity.
Qed.

(** The export is made once, and only when details are asked for and found
    and screenshots are asked for. *)
Lemma detailed_path_exports (data : json) (xcresult_path out_html_path : string)
    (include_details include_screenshots : bool) :
  exports (fst (detailed_path data xcresult_path out_html_path include_details
                  include_screenshots))
  = if include_details && include_screenshots
       && match snd (_extract_details_from_summary data) with
          | Ok (Some (_ :: _)) => true
          | _ => false
          end
    then [EvExport xcresult_path out_html_path] else [].
Proof.
  unfold detailed_path, exports.
  destruct include_details; [|reflexivity].
  pose proof (extract_details_only_logs is_export data
                ltac:(intros tag; discriminate)) as E.
  destruct (_extract_details_from_summary data) as [t [[[|item rest]|]|x]];
    cbn [fst snd] in E |- *; cbv beta iota zeta delta [io_bind io_ret];
    cbn [fst andb]; rewrite ?filter_app, ?E, ?andb_false_r; try reflexivity.
  destruct include_screenshots; cbv beta iota zeta delta [io_bind io_ret emit lift].
  - destruct (_export_attachments xcresult_path out_html_path) as [[d m]|x];
      cbn [fst]; rewrite ?filter_app, ?E; reflexivity.
  - cbn [fst]. rewrite ?filter_app, ?E. reflexivity.
Qed.

End ProcessOutcomes.


Section ProcessReturns.
Context {py : PyBuiltins} {world : World}.

Ltac run_io := cbv beta iota zeta delta [io_bind emit when lift io_ret io_raise].

Ltac filter_trace Hw He Hlw Hle :=
  unfold writes, exports;
  repeat first [ rewrite filter_app | rewrite Hw | rewrite He
               | rewrite Hlw | rewrite Hle
               | progress cbn [filter is_write is_export app fst snd] ];
  rewrite ?List.app_nil_r; try reflexivity.

(** The entry point without its log: the files written, the exports made
    and the result, step by step. *)
Lemma process_outcome (xcresult_path out_html_path : string)
    (report_title : option string) (include_details include_screenshots : bool) :
  let P := _process_xcresult_to_html xcresult_path out_html_path report_title
             include_details include_screenshots in
  let outcome ws es r := writes (fst P) = ws /\ exports (fst P) = es /\ snd P = r in
  match run_xcresulttool xcresult_path with
  | (_, Raise e) => outcome [] [] (Raise e)
  | (_, Ok (json_str, err_text, cmd_text)) =>
      match json_path_of out_html_path with
      | Raise e => outcome [] [] (Raise e)
      | Ok debug_json_path =>
          match json_str with
          | None =>
              outcome [] []
                (Raise (RuntimeError (no_summary_message err_text cmd_text)))
          | Some text =>
              if nonempty text
              then
                match json_loads text with
                | inr exc =>
                    outcome [EvWrite debug_json_path text] []
                      (Raise (RuntimeError ("Failed to parse JSON summary: " ++ exc)))
                | inl data =>
                    match detailed_path data xcresult_path out_html_path
                            include_details include_screenshots with
                    | (logged, Raise e) =>
                        outcome [EvWrite debug_json_path text] (exports logged)
                          (Raise e)
                    | (logged, Ok (details, dir, m)) =>
                        match (let '(p, f, s) := extract_counts data in
                               build_html p f s (path_name xcresult_path)
                                 (title_or_default report_title) details dir m) with
                        | Raise e =>
                            outcome [EvWrite debug_json_path text]
                              (exports logged) (Raise e)
                        | Ok html =>
                            outcome [EvWrite debug_json_path text;
                                     EvWrite out_html_path html]
                              (exports logged)
                              match write_file out_html_path html with
                              | Some exc =>
                                  Raise (RuntimeError
                                           ("Failed to write HTML file: " ++ exc))
                              | None => Ok (extract_counts data)
                              end
                        end
                    end
                end
              else
                outcome [] []
                  (Raise (RuntimeError (no_summary_message err_text cmd_text)))
          end
      end
  end.
Proof.
  cbv zeta. unfold _process_xcresult_to_html.
  destruct (run_xcresulttool xcresult_path) as [ran [[[js err] cmd]|e0]] eqn:Hrun;
    run_io;
    pose proof (run_xcresulttool_only_runs is_write _ _ _ (fun _ => eq_refl) Hrun)
      as Hran;
    pose proof (run_xcresulttool_only_runs is_export _ _ _ (fun _ => eq_refl) Hrun)
      as Hrane;
    [|repeat split; filter_trace Hran Hrane Hran Hrane].
  destruct (json_path_of out_html_path) as [dbg|e1] eqn:Hdbg;
    [|destruct (nonempty (strip err)); run_io; repeat split;
      filter_trace Hran Hrane Hran Hrane].
  destruct js as [text|];
    [|destruct (nonempty (strip err)); run_io; repeat split;
      filter_trace Hran Hrane Hran Hrane].
  destruct (nonempty text) eqn:Htext;
    [|destruct (nonempty (strip err)); run_io; repeat split;
      filter_trace Hran Hrane Hran Hrane].
  destruct (json_loads text) as [data|exc] eqn:Hdata;
    [|destruct (nonempty (strip err)); run_io; repeat split;
      filter_trace Hran Hrane Hran Hrane].
  destruct (extract_counts data) as [[p f] s] eqn:Hcounts. run_io.
  pose proof (detailed_path_writes data xcresult_path out_html_path
                include_details include_screenshots) as Hlog.
  destruct (detailed_path data xcresult_path out_html_path include_details
              include_screenshots) as [logged [[[details dir] m]|e2]] eqn:Hdp;
    cbn [fst] in Hlog; unfold writes in Hlog;
    [|destruct (nonempty (strip err)), ((p =? 0) && (f =? 0) && (s =? 0));
      run_io; repeat split; filter_trace Hran Hrane Hlog Hrane].
  run_io.
  destruct (build_html p f s (path_name xcresult_path)
              (title_or_default report_title) details dir m)
    as [html|e3] eqn:Hhtml;
    [|destruct (nonempty (strip err)), ((p =? 0) && (f =? 0) && (s =? 0));
      run_io; repeat split; filter_trace Hran Hrane Hlog Hrane].
  run_io.
  destruct (write_file out_html_path html) as [exc|] eqn:Hw;
    destruct (nonempty (strip err)), ((p =? 0) && (f =? 0) && (s =? 0)),
       details as [[|item rest]|]; run_io; repeat split;
    filter_trace Hran Hrane Hlog Hrane.
Qed.

(** X11.  Whenever the entry point returns, the counts it returns are those
    [extract_counts] finds in the parsed output of the command, and it has
    written two files and no other: first the output of the command, as
    printed, beside the artifact, then the artifact, a document whose chart
    data are the counts returned. *)
Theorem returned_counts_are_the_written_ones
    (xcresult_path out_html_path : string)
    (report_title : option string) (include_details include_screenshots : bool)
    (trace : list event) (r : Z * Z * Z) :
  _process_xcresult_to_html xcresult_path out_html_path report_title
    include_details include_screenshots = (trace, Ok r) ->
  exists ran text err_text cmd_text debug_json_path data html,
    run_xcresulttool xcresult_path = (ran, Ok (Some text, err_text, cmd_text))
    /\ json_path_of out_html_path = Ok debug_json_path
    /\ json_loads text = inl data
    /\ r = extract_counts data
    /\ writes trace = [EvWrite debug_json_path text; EvWrite out_html_path html]
    /\ write_file out_html_path html = None
    /\ chart_data html = Some r.
Proof.
  intros H.
  pose proof (process_outcome xcresult_path out_html_path report_title
                include_details include_screenshots) as O.
  cbv zeta in O. rewrite H in O. cbn [fst snd] in O.
  destruct (run_xcresulttool xcresult_path) as [ran [[[js err] cmd]|e0]];
    [|now destruct O as (_ & _ & [=])].
  destruct (json_path_of out_html_path) as [dbg|e1];
    [|now destruct O as (_ & _ & [=])].
  destruct js as [text|]; [|now destruct O as (_ & _ & [=])].
  destruct (nonempty text); [|now destruct O as (_ & _ & [=])].
  destruct (json_loads text) as [data|exc] eqn:Hdata;
    [|now destruct O as (_ & _ & [=])].
  destruct (detailed_path data xcresult_path out_html_path include_details
              include_screenshots) as [logged [[[details dir] m]|e2]];
    [|now destruct O as (_ & _ & [=])].
  destruct (extract_counts data) as [[p f] s] eqn:Hcounts.
  destruct (build_html p f s (path_name xcresult_path)
              (title_or_default report_title) details dir m)
    as [html|e3] eqn:Hhtml; [|now destruct O as (_ & _ & [=])].
  destruct (write_file out_html_path html) as [exc|] eqn:Hw;
    [now destruct O as (_ & _ & [=])|].
  destruct O as (Ow & _ & [= ->]).
  exists ran, text, err, cmd, dbg, data, html.
  repeat split; [exact Hdata | now rewrite Hcounts | exact Ow | exact Hw |].
  destruct (build_html_shape _ _ _ _ _ _ _ _ _ Hhtml) as [section ->].
  rewrite <- append_assoc. apply chart_data_read.
Qed.

End ProcessReturns.

Section ProcessFailures.
Context {py : PyBuiltins} {world : World}.

(** X12.  When the entry point raises, it has written nothing, or only the
    output of the command to the path beside the artifact; except when
    writing the artifact is what failed, and then the error is
    [Failed to write HTML file: <exception>] and the output of the command
    was written before. *)
Theorem failed_run_leaves_no_artifact
    (xcresult_path out_html_path : string)
    (report_title : option string) (include_details include_screenshots : bool)
    (trace : list event) (e : exn) :
  _process_xcresult_to_html xcresult_path out_html_path report_title
    include_details include_screenshots = (trace, Raise e) ->
  writes trace = []
  \/ (exists debug_json_path text,
        json_path_of out_html_path = Ok debug_json_path
        /\ writes trace = [EvWrite debug_json_path text])
  \/ (exists debug_json_path text html exc,
        json_path_of out_html_path = Ok debug_json_path
        /\ writes trace = [EvWrite debug_json_path text;
                           EvWrite out_html_path html]
        /\ write_file out_html_path html = Some exc
        /\ e = RuntimeError ("Failed to write HTML file: " ++ exc)).
Proof.
  intros H.
  pose proof (process_outcome xcresult_path out_html_path report_title
                include_details include_screenshots) as O.
  cbv zeta in O. rewrite H in O. cbn [fst snd] in O.
  destruct (run_xcresulttool xcresult_path) as [ran [[[js err] cmd]|e0]];
    [|left; exact (proj1 O)].
  destruct (json_path_of out_html_path) as [dbg|e1]; [|left; exact (proj1 O)].
  destruct js as [text|]; [|left; exact (proj1 O)].
  destruct (nonempty text); [|left; exact (proj1 O)].
  destruct (json_loads text) as [data|exc];
    [|right; left; exists dbg, text; split; [reflexivity | exact (proj1 O)]].
  destruct (detailed_path data xcresult_path out_html_path include_details
              include_screenshots) as [logged [[[details dir] m]|e2]];
    [|right; left; exists dbg, text; split; [reflexivity | exact (proj1 O)]].
  destruct (let '(p, f, s) := extract_counts data in
            build_html p f s (path_name xcresult_path)
              (title_or_default report_title) details dir m) as [html|e3];
    [|right; left; exists dbg, text; split; [reflexivity | exact (proj1 O)]].
  destruct (write_file out_html_path html) as [exc|] eqn:Hw;
    [|now destruct O as (_ & _ & [=])].
  destruct O as (Ow & _ & Or). apply Raise_inj in Or.
  right. right. exists dbg, text, html, exc.
  split; [reflexivity | split; [exact Ow | split; [exact Hw | exact Or]]].
Qed.

(** X13.  The attachments are exported at most once in a run, and only when
    details and screenshots are both asked for and the summary parsed has
    failures to list. *)
Theorem export_only_for_listed_failures
    (xcresult_path out_html_path : string)
    (report_title : option string) (include_details include_screenshots : bool)
    (trace : list event) (r : result (Z * Z * Z)) :
  _process_xcresult_to_html xcresult_path out_html_path report_title
    include_details include_screenshots = (trace, r) ->
  exports trace = []
  \/ (exports trace = [EvExport xcresult_path out_html_path]
      /\ include_details = true /\ include_screenshots = true
      /\ exists ran text err_text cmd_text data item rest,
           run_xcresulttool xcresult_path
           = (ran, Ok (Some text, err_text, cmd_text))
           /\ json_loads text = inl data
           /\ snd (_extract_details_from_summary data) = Ok (Some (item :: rest))).
Proof.
  intros H.
  pose proof (process_outcome xcresult_path out_html_path report_title
                include_details include_screenshots) as O.
  cbv zeta in O. rewrite H in O. cbn [fst snd] in O.
  destruct (run_xcresulttool xcresult_path) as [ran [[[js err] cmd]|e0]];
    [|left; exact (proj1 (proj2 O))].
  destruct (json_path_of out_html_path) as [dbg|e1];
    [|left; exact (proj1 (proj2 O))].
  destruct js as [text|]; [|left; exact (proj1 (proj2 O))].
  destruct (nonempty text); [|left; exact (proj1 (proj2 O))].
  destruct (json_loads text) as [data|exc] eqn:Hdata;
    [|left; exact (proj1 (proj2 O))].
  pose proof (detailed_path_exports data xcresult_path out_html_path
                include_details include_screenshots) as E.
  assert (Ex : exports trace
               = exports (fst (detailed_path data xcresult_path out_html_path
                                 include_details include_screenshots))).
  { destruct (detailed_path data xcresult_path out_html_path include_details
                include_screenshots) as [logged [[[details dir] m]|e2]];
      [|exact (proj1 (proj2 O))].
    destruct (let '(p, f, s) := extract_counts data in
              build_html p f s (path_name xcresult_path)
                (title_or_default report_title) details dir m) as [html|e3];
      exact (proj1 (proj2 O)). }
  rewrite E in Ex. clear E O.
  destruct include_details; [|now left].
  destruct include_screenshots; [|now left].
  destruct (snd (_extract_details_from_summary data))
    as [[[|item rest]|]|x] eqn:D; try (now left).
  right. repeat split; [exact Ex|].
  exists ran, text, err, cmd, data, item, rest. repeat split; assumption.
Qed.

(** X14.  An exception of the detail extraction, or of the export of the
    attachments, is not caught: with details asked for it ends the run as it
    is, after the output of the command was written beside the artifact and
    before the artifact is. *)
Theorem detail_errors_end_the_run
    (xcresult_path out_html_path : string)
    (report_title : option string) (include_screenshots : bool)
    (ran : list event) (text err_text cmd_text debug_json_path : string)
    (data : json) (x : exn) :
  run_xcresulttool xcresult_path = (ran, Ok (Some text, err_text, cmd_text)) ->
  json_path_of out_html_path = Ok debug_json_path ->
  json_loads text = inl data ->
  (snd (_extract_details_from_summary data) = Raise x
   \/ (include_screenshots = true
       /\ (exists item rest,
             snd (_extract_details_from_summary data) = Ok (Some (item :: rest)))
       /\ _export_attachments xcresult_path out_html_path = Raise x)) ->
  let P := _process_xcresult_to_html xcresult_path out_html_path report_title
             true include_screenshots in
  snd P = Raise x /\ writes (fst P) = [EvWrite debug_json_path text].
Proof.
  intros Hrun Hdbg Hdata Hx P.
  pose proof (process_outcome xcresult_path out_html_path report_title
                true include_screenshots) as O.
  cbv zeta in O. fold P in O.
  rewrite Hrun, Hdbg, (try_candidates_text _ _ _ _ _ _ _ Hrun), Hdata in O.
  assert (Hd : exists logged,
             detailed_path data xcresult_path out_html_path true
               include_screenshots = (logged, Raise x)).
  { unfold detailed_path.
    destruct (_extract_details_from_summary data) as [t d].
    cbn [snd] in Hx.
    destruct Hx as [-> | (-> & (item & rest & ->) & Hexp)].
    - exists t. reflexivity.
    - cbv beta iota zeta delta [io_bind emit lift io_ret]. rewrite Hexp.
      eexists. reflexivity. }
  destruct Hd as [logged Hd]. rewrite Hd in O.
  destruct O as (Ow & _ & Or). split; assumption.
Qed.

End ProcessFailures.

(** ** The next free report path *)

Section NextAvailableTheorems.
Context {paths : Paths}.

Lemma first_free_finds (path : string) (k : nat) :
  path_exists (numbered_path path k) = false ->
  forall (n fuel : nat),
    (n <= k)%nat -> (k - n < fuel)%nat ->
    (forall j, (n <= j < k)%nat -> path_exists (numbered_path path j) = true) ->
    first_free fuel path n = Some (numbered_path path k).
Proof.
  intros Hk n fuel. revert n.
  induction fuel as [|fuel IH]; intros n Hn Hf Hj; [lia|].
  cbn [first_free].
  destruct (Nat.eq_dec n k) as [->|Hne].
  - now rewrite Hk.
  - rewrite (Hj n) by lia. apply IH; [lia | lia |].
    intros j Hjk. apply Hj. lia.
Qed.

Lemma first_free_is_free (path : string) (fuel n : nat) (r : string) :
  first_free fuel path n = Some r ->
  exists k, (n <= k)%nat /\ r = numbered_path path k
            /\ path_exists (numbered_path path k) = false
            /\ forall j, (n <= j < k)%nat ->
                 path_exists (numbered_path path j) = true.
Proof.
  revert n. induction fuel as [|fuel IH]; intros n; [discriminate|].
  cbn [first_free].
  destruct (path_exists (numbered_path path n)) eqn:E.
  - intros H. destruct (IH _ H) as (k & Hk & -> & Hfree & Hj).
    exists k. repeat split; [lia | exact Hfree |].
    intros j Hjk. destruct (Nat.eq_dec j n) as [->|Hne]; [exact E|].
    apply Hj. lia.
  - intros [= <-]. exists n. repeat split; [lia | exact E |]. intros j Hj. lia.
Qed.

(** X15.  [_next_available_report_path] returns the path it is given when
    nothing exists there.  Otherwise it returns the first of
    [<stem>_1<suffix>], [<stem>_2<suffix>], ... in the same directory that
    does not exist, [.html] standing in for an empty suffix; the loop ends
    as soon as there is such a path.  What it returns never exists. *)
Theorem next_available_is_first_free (path : string) :
  (path_exists path = false ->
   forall fuel, _next_available_report_path fuel path = Some path)
  /\ (forall k fuel,
        path_exists path = true ->
        (1 <= k <= fuel)%nat ->
        path_exists (numbered_path path k) = false ->
        (forall j, (1 <= j < k)%nat ->
           path_exists (numbered_path path j) = true) ->
        _next_available_report_path fuel path = Some (numbered_path path k))
  /\ (forall fuel r,
        _next_available_report_path fuel path = Some r ->
        path_exists r = false).
Proof.
  unfold _next_available_report_path. split; [|split].
  - now intros ->.
  - intros k fuel -> Hk Hfree Hj. cbn [negb].
    apply first_free_finds; [exact Hfree | lia | lia | exact Hj].
  - intros fuel r. destruct (path_exists path) eqn:E; cbn [negb].
    + intros H. now destruct (first_free_is_free _ _ _ _ H) as (k & _ & -> & Hf & _).
    + now intros [= <-].
Qed.

End NextAvailableTheorems.

(** ** The command line *)

Lemma steps_app (a b : list cli_event) : steps (a ++ b) = (steps a ++ steps b)%list.
Proof. unfold steps. apply flat_map_app. Qed.

Lemma steps_map (t : list event) : steps (map Step t) = t.
Proof. induction t as [|e t IH]; [reflexivity|]. cbn. now rewrite <- IH at 2. Qed.

Lemma printed_app (a b : list cli_event) :
  printed (a ++ b) = (printed a ++ printed b)%list.
Proof. unfold printed. apply flat_map_app. Qed.

Lemma printed_map (t : list event) : printed (map Step t) = [].
Proof. induction t as [|e t IH]; [reflexivity|]. exact IH. Qed.

Lemma conversions_app (a b : list cli_event) :
  conversions (a ++ b) = (conversions a ++ conversions b)%list.
Proof. unfold conversions. apply filter_app. Qed.

Lemma conversions_map (t : list event) : conversions (map Step t) = [].
Proof. induction t as [|e t IH]; [reflexivity|]. exact IH. Qed.

Section ProcessExports.
Context {py : PyBuiltins} {world : World}.

(** Without details, or without screenshots, nothing is exported. *)
Lemma process_exports_nothing (xcresult_path out_html_path : string)
    (report_title : option string) (include_details include_screenshots : bool) :
  include_details && include_screenshots = false ->
  exports (fst (_process_xcresult_to_html xcresult_path out_html_path
                  report_title include_details include_screenshots)) = [].
Proof.
  intros Hoff.
  pose proof (process_outcome xcresult_path out_html_path report_title
                include_details include_screenshots) as O.
  cbv zeta in O.
  destruct (run_xcresulttool xcresult_path) as [ran [[[js err] cmd]|e0]];
    [|exact (proj1 (proj2 O))].
  destruct (json_path_of out_html_path) as [dbg|e1]; [|exact (proj1 (proj2 O))].
  destruct js as [text|]; [|exact (proj1 (proj2 O))].
  destruct (nonempty text); [|exact (proj1 (proj2 O))].
  destruct (json_loads text) as [data|exc]; [|exact (proj1 (proj2 O))].
  pose proof (detailed_path_exports data xcresult_path out_html_path
                include_details include_screenshots) as E.
  rewrite Hoff in E. cbn [andb] in E.
  destruct (detailed_path data xcresult_path out_html_path include_details
              include_screenshots) as [logged [[[details dir] m]|e2]];
    cbn [fst] in E; [|rewrite <- E; exact (proj1 (proj2 O))].
  destruct (let '(p, f, s) := extract_counts data in
            build_html p f s (path_name xcresult_path)
              (title_or_default report_title) details dir m) as [html|e3];
    rewrite <- E; exact (proj1 (proj2 O)).
Qed.

End ProcessExports.

Lemma last_two {A : Type} (l : list A) (x y d : A) :
  last (l ++ [x; y]) d = y.
Proof.
  change (l ++ [x; y])%list with (l ++ [x] ++ [y])%list.
  rewrite app_assoc. apply last_last.
Qed.

Section CommandLineTheorems.
Context {py : PyBuiltins} {world : World} {cli : Cli}.

Ltac cli_trace :=
  unfold conversions, printed, summary_lines;
  repeat first [ rewrite filter_app | rewrite flat_map_app
               | rewrite (conversions_map : forall t, filter _ (map Step t) = [])
               | rewrite (printed_map : forall t, flat_map _ (map Step t) = [])
               | progress cbn [filter flat_map app] ].

(** X16.  The exit code of [run_cli] is 0 or 1.  It is 1 exactly when the
    pipeline raised, or when the conversion to PDF was started and raised: a
    WeasyPrint that cannot be imported is only a warning, and without a PDF
    path no conversion is started. *)
Theorem cli_exit_code
    (xcresult_path out_html_path : string)
    (pdf_output_path report_title : option string)
    (include_details include_screenshots : bool)
    (trace : list cli_event) (code : Z) :
  run_cli xcresult_path out_html_path pdf_output_path report_title
    include_details include_screenshots = (trace, code) ->
  (code = 0 \/ code = 1)
  /\ (code = 1 <->
      (exists e,
         snd (_process_xcresult_to_html xcresult_path out_html_path
                report_title include_details include_screenshots) = Raise e)
      \/ (exists pdf exc,
            conversions trace = [PdfWrite out_html_path pdf]
            /\ write_pdf out_html_path pdf = Some exc)).
Proof.
  unfold run_cli. cbv zeta.
  destruct (_process_xcresult_to_html xcresult_path out_html_path report_title
              include_details include_screenshots) as [t [[[p f] s]|e]];
    cbn [snd].
  - assert (Hno : forall tr : list cli_event,
              conversions tr = [] ->
              (0 = 1 <->
               (exists e : exn, @Ok (Z * Z * Z) (p, f, s) = Raise e)
               \/ (exists pdf exc,
                     conversions tr = [PdfWrite out_html_path pdf]
                     /\ write_pdf out_html_path pdf = Some exc))).
    { intros tr Htr. split; [discriminate|].
      intros [[e [=]] | (pdf & exc & H & _)]. rewrite Htr in H. discriminate. }
    destruct pdf_output_path as [pdf|].
    + destruct (nonempty pdf).
      * destruct weasyprint_import as [exc|].
        -- intros [= <- <-]. split; [now left|]. apply Hno. now cli_trace.
        -- destruct (write_pdf out_html_path pdf) as [exc|] eqn:W.
           ++ intros [= <- <-]. split; [now right|].
              split; [intros _|reflexivity].
              right. exists pdf, exc. split; [now cli_trace | exact W].
           ++ intros [= <- <-]. split; [now left|].
              split; [discriminate|].
              intros [[e [=]] | (pdf' & exc & H & W')].
              revert H. cli_trace. intros [= <-]. congruence.
      * intros [= <- <-]. split; [now left|]. apply Hno. now cli_trace.
    + intros [= <- <-]. split; [now left|]. apply Hno. now cli_trace.
  - intros [= <- <-]. split; [now right|].
    split; [intros _; left; eauto | reflexivity].
Qed.

(** X17.  When the pipeline raises, [run_cli] prints nothing on the standard
    output, starts no conversion, and ends with the line [Error: <text>] on
    the standard error.  When the pipeline returns, the first lines printed
    show the counts it returned and the path of the report, and a conversion
    is started at most once, after these lines, for the path given. *)
Theorem cli_output
    (xcresult_path out_html_path : string)
    (pdf_output_path report_title : option string)
    (include_details include_screenshots : bool)
    (trace : list cli_event) (code : Z) :
  run_cli xcresult_path out_html_path pdf_output_path report_title
    include_details include_screenshots = (trace, code) ->
  match snd (_process_xcresult_to_html xcresult_path out_html_path
               report_title include_details include_screenshots) with
  | Raise e =>
      printed trace = [] /\ conversions trace = []
      /\ last trace (Print EmptyString) = PrintErr ("Error: " ++ str_of_exn e)
  | Ok (passed, failed, skipped) =>
      firstn 5 (printed trace)
      = [ "XCTest summary for " ++ xcresult_path ++ ":";
          "  Passed : " ++ str_of_int passed;
          "  Failed : " ++ str_of_int failed;
          "  Skipped: " ++ str_of_int skipped;
          "HTML report written to: " ++ out_html_path ]
      /\ (conversions trace = []
          \/ exists pdf, pdf_output_path = Some pdf
                         /\ conversions trace = [PdfWrite out_html_path pdf])
  end.
Proof.
  unfold run_cli. cbv zeta.
  destruct (_process_xcresult_to_html xcresult_path out_html_path report_title
              include_details include_screenshots) as [t [[[p f] s]|e]];
    cbn [snd].
  - destruct pdf_output_path as [pdf|];
      [destruct (nonempty pdf);
       [destruct weasyprint_import as [exc|];
        [|destruct (write_pdf out_html_path pdf) as [exc|]]|]|];
      intros [= <- <-]; (split; [now cli_trace|]);
      first [ left; now cli_trace
            | right; exists pdf; split; [reflexivity | now cli_trace] ].
  - intros [= <- <-]. split; [now cli_trace|]. split; [now cli_trace|].
    exact (last_two (Step (EvLog "[cli] starting")
                     :: Step (EvLog "[cli] xcresult") :: map Step t) _ _ _).
Qed.

(** The exports of a run of the command line are those of the pipeline. *)
Lemma run_cli_exports
    (xcresult_path out_html_path : string)
    (pdf_output_path report_title : option string)
    (include_details include_screenshots : bool) :
  exports (steps (fst (run_cli xcresult_path out_html_path pdf_output_path
                         report_title include_details include_screenshots)))
  = exports (fst (_process_xcresult_to_html xcresult_path out_html_path
                    report_title include_details include_screenshots)).
Proof.
  unfold run_cli. cbv zeta.
  destruct (_process_xcresult_to_html xcresult_path out_html_path report_title
              include_details include_screenshots) as [t [[[p f] s]|e]];
    [destruct pdf_output_path as [pdf|];
     [destruct (nonempty pdf);
      [destruct weasyprint_import as [exc|];
       [|destruct (write_pdf out_html_path pdf) as [exc|]]|]|]|];
    cbn [fst]; unfold steps, exports, summary_lines;
    repeat first [ rewrite flat_map_app | rewrite filter_app
                 | rewrite (steps_map : forall t, flat_map _ (map Step t) = t)
                 | progress cbn [flat_map filter is_export app] ];
    rewrite ?List.app_nil_r; reflexivity.
Qed.

(** X18.  [main] without [--cli] opens the window and runs nothing.  With
    [--cli] and no bundle path or no [--output-html] it ends in the error of
    the parser and runs nothing.  Otherwise it exits with the code of
    [run_cli], and [--include-screenshots] without [--include-details] is
    dropped: no attachment is exported. *)
Theorem main_dispatch (args : Namespace) :
  (cli_flag args = false -> main args = ([], Window))
  /\ (cli_flag args = true ->
      has_text (xcresult args) && has_text (output_html args) = false ->
      main args
      = ([], ParserError "--cli requires an .xcresult path and --output-html."))
  /\ (cli_flag args = true ->
      forall xcresult_path out_html_path,
        xcresult args = Some xcresult_path -> nonempty xcresult_path = true ->
        output_html args = Some out_html_path -> nonempty out_html_path = true ->
        snd (main args)
        = SystemExit
            (snd (run_cli xcresult_path out_html_path (pdf_output args)
                    (title args) (include_details args)
                    (include_details args && include_screenshots args)))
        /\ (include_details args = false ->
            exports (steps (fst (main args))) = [])).
Proof.
  unfold main. split; [|split].
  - now intros ->.
  - intros -> H.
    destruct (xcresult args) as [x|], (output_html args) as [o|]; try reflexivity.
    cbn [has_text] in H. now rewrite H.
  - intros -> x o -> Hx -> Ho. rewrite Hx, Ho. cbn [andb].
    assert (E : (if include_details args then include_screenshots args else false)
                = include_details args && include_screenshots args)
      by now destruct (include_details args).
    rewrite E.
    destruct (run_cli x o (pdf_output args) (title args) (include_details args)
                (include_details args && include_screenshots args))
      as [t code] eqn:R.
    split; [reflexivity|]. intros Hd. cbn [fst].
    pose proof (run_cli_exports x o (pdf_output args) (title args)
                  (include_details args)
                  (include_details args && include_screenshots args)) as Ex.
    rewrite R in Ex. cbn [fst] in Ex. rewrite Ex.
    apply process_exports_nothing. now rewrite Hd.
Qed.

End CommandLineTheorems.

(** ** The index of the screenshots *)

Module AttachmentsFacts.
Import Attachments.

Lemma number_eq_true (x y : number) :
  number_eq x y = true <-> x = y /\ x <> NotANumber.
Proof.
  destruct x as [|s m e|s|], y as [|s' m' e'|s'|]; cbn;
    try (split; [discriminate | intros [H _]; discriminate H]);
    try (split; [intros _; split; [reflexivity | discriminate] | reflexivity]).
  - rewrite !andb_true_iff, Pos.eqb_eq, Z.eqb_eq, Bool.eqb_true_iff.
    split.
    + intros [[-> ->] ->]. split; [reflexivity | discriminate].
    + intros [[= -> -> ->] _]. repeat split.
  - rewrite Bool.eqb_true_iff. split.
    + intros ->. split; [reflexivity | discriminate].
    + now intros [[= ->] _].
  - split; [discriminate | intros [_ H]; now destruct H].
Qed.

Lemma number_of_nan (v : json) :
  number_of v = Some NotANumber -> v = JFloat S754_nan.
Proof.
  destruct v as [|b|n|x| | |]; try discriminate; cbn.
  - destruct b; cbn; discriminate.
  - destruct n; cbn; try discriminate; destruct (odd_part p 0); discriminate.
  - destruct x as [s|s| |s m e]; try discriminate; [reflexivity|].
    destruct (odd_part m e). discriminate.
Qed.

Lemma number_of_total (v : json) :
  match v with
  | JBool _ | JInt _ | JFloat _ => exists x, number_of v = Some x
  | _ => number_of v = None
  end.
Proof.
  destruct v as [|b|n|[s|s| |s m e]| | |]; cbn; eauto.
  destruct (odd_part m e). eauto.
Qed.

Lemma same_key_numbers (a b : json) (x y : number) :
  number_of a = Some x -> number_of b = Some y ->
  (same_key a b = true <-> x = y).
Proof.
  intros Ha Hb.
  assert (E : same_key a b
              = number_eq x y
                || match a, b with
                   | JFloat S754_nan, JFloat S754_nan => true
                   | _, _ => false
                   end).
  { unfold same_key, scalar_eq. rewrite Ha, Hb.
    destruct a; try discriminate; destruct b; try discriminate; reflexivity. }
  rewrite E, orb_true_iff, number_eq_true. split.
  - intros [[H _] | H]; [exact H|].
    destruct a as [| | |[ | | | ]| | |]; try discriminate;
      destruct b as [| | |[ | | | ]| | |]; try discriminate.
    cbn in Ha, Hb. congruence.
  - intros ->. destruct y; try (left; split; [reflexivity | discriminate]).
    right. now rewrite (number_of_nan _ Ha), (number_of_nan _ Hb).
Qed.

Ltac num_absurd :=
  match goal with
  | T : exists _, None = Some _ |- _ => destruct T as [? T]; discriminate T
  | T : exists _, number_of ?v = Some _, H : number_of ?v = None |- _ =>
      destruct T as [? T]; rewrite H in T; discriminate T
  end.

Lemma key_class_number (v : json) (x : number) :
  number_of v = Some x -> key_class v = Some (Some (inr x)).
Proof.
  intros H. pose proof (number_of_total v) as T.
  destruct v; try congruence; unfold key_class; now rewrite H.
Qed.

Lemma same_key_class (a b : json) :
  same_key a b = true
  <-> exists c, key_class a = Some c /\ key_class b = Some c.
Proof.
  pose proof (number_of_total a) as Ta. pose proof (number_of_total b) as Tb.
  destruct (number_of a) as [x|] eqn:Ha; destruct (number_of b) as [y|] eqn:Hb.
  - rewrite (same_key_numbers a b x y Ha Hb),
      (key_class_number _ _ Ha), (key_class_number _ _ Hb).
    split; [intros ->; eauto | intros (c & [= <-] & [= ->]); reflexivity].
  - rewrite (key_class_number _ _ Ha).
    assert (F : same_key a b = false).
    { destruct a; try (cbn in Ha; discriminate Ha);
        destruct b; try num_absurd;
        unfold same_key, scalar_eq; rewrite ?Ha, ?Hb; try reflexivity;
        match goal with x : spec_float |- _ => destruct x; reflexivity end. }
    rewrite F. split; [discriminate|].
    intros (c & [= <-] & Kb).
    destruct b; try discriminate Kb; num_absurd.
  - rewrite (key_class_number _ _ Hb).
    assert (F : same_key a b = false).
    { destruct b; try (cbn in Hb; discriminate Hb);
        destruct a; try num_absurd;
        unfold same_key, scalar_eq; rewrite ?Ha, ?Hb; try reflexivity;
        match goal with x : spec_float |- _ => destruct x; reflexivity end. }
    rewrite F. split; [discriminate|].
    intros (c & Ka & [= <-]).
    destruct a; try discriminate Ka; num_absurd.
  - destruct a; try num_absurd; destruct b; try num_absurd; cbn;
      try (split; [discriminate | intros (c & H1 & H2); congruence]).
    + split; eauto.
    + unfold same_key, scalar_eq. rewrite ?orb_false_r, String.eqb_eq. split.
      * intros ->. eauto.
      * now intros (c & [= <-] & [= ->]).
Qed.

Lemma same_key_sym (a b : json) : same_key a b = same_key b a.
Proof.
  destruct (same_key a b) eqn:E.
  - symmetry. apply same_key_class. apply same_key_class in E.
    destruct E as (c & H1 & H2). eauto.
  - destruct (same_key b a) eqn:E'; [|reflexivity].
    apply same_key_class in E'. destruct E' as (c & H1 & H2).
    assert (same_key a b = true) by (apply same_key_class; eauto). congruence.
Qed.

Lemma same_key_trans (a b c : json) :
  same_key a b = true -> same_key b c = true -> same_key a c = true.
Proof.
  rewrite !same_key_class. intros (x & H1 & H2) (y & H3 & H4).
  exists x. split; [exact H1 | congruence].
Qed.

Lemma same_key_refl (a : json) : hashable a = true -> same_key a a = true.
Proof.
  intros H. apply same_key_class. pose proof (number_of_total a) as T.
  destruct a; try discriminate H; try (cbn; eauto; fail);
    destruct T as [y T]; unfold key_class; rewrite T; cbn; eauto.
Qed.

Lemma same_key_hashable (a b : json) :
  same_key a b = true -> hashable a = true /\ hashable b = true.
Proof.
  rewrite same_key_class. intros (c & H1 & H2).
  split; [destruct a | destruct b]; try reflexivity; discriminate.
Qed.

Lemma index_get_put (k k' : json) (v : list json) (d : index) :
  index_get k (index_put k' v d)
  = if same_key k k' then Some v else index_get k d.
Proof.
  induction d as [|[k2 v2] d IH]; cbn [index_put index_get].
  - now destruct (same_key k k').
  - destruct (same_key k' k2) eqn:E2; cbn [index_get].
    + destruct (same_key k k') eqn:E1.
      * now rewrite (same_key_trans _ _ _ E1 E2).
      * destruct (same_key k k2) eqn:E3; [|reflexivity].
        rewrite same_key_sym in E2.
        now rewrite (same_key_trans _ _ _ E3 E2) in E1.
    + destruct (same_key k k2) eqn:E3.
      * destruct (same_key k k') eqn:E1; [|reflexivity].
        rewrite same_key_sym in E1.
        now rewrite (same_key_trans _ _ _ E1 E3) in E2.
      * exact IH.
Qed.

Lemma index_put_in (k a : json) (v names : list json) (d : index) :
  In (a, names) (index_put k v d) ->
  In (a, names) d
  \/ (names = v /\ (a = k \/ (same_key k a = true /\ exists v', In (a, v') d))).
Proof.
  induction d as [|[k2 v2] d IH]; cbn [index_put].
  - intros [[= <- <-] | []]. right. split; [reflexivity | now left].
  - destruct (same_key k k2) eqn:E.
    + intros [[= <- <-] | H]; [|left; now right].
      right. split; [reflexivity|]. right. split; [exact E|].
      exists v2. now left.
    + intros [H | H]; [left; now left|].
      destruct (IH H) as [H' | (-> & [-> | (S & v' & H')])].
      * left. now right.
      * right. split; [reflexivity | now left].
      * right. split; [reflexivity|]. right. split; [exact S|].
        exists v'. now right.
Qed.

Lemma index_put_distinct (k : json) (v : list json) (d : index) :
  distinct_keys d -> distinct_keys (index_put k v d).
Proof.
  induction d as [|[k2 v2] d IH]; cbn [index_put distinct_keys].
  - intros _. split; [intros k' v' [] | exact I].
  - intros [H1 H2]. destruct (same_key k k2) eqn:E; cbn [distinct_keys].
    + split; assumption.
    + split; [|now apply IH].
      intros k' v' Hin.
      destruct (index_put_in _ _ _ _ _ Hin) as [H | (_ & [-> | (S & v'' & H)])].
      * exact (H1 _ _ H).
      * now rewrite same_key_sym.
      * exact (H1 _ _ H).
Qed.

Section IndexFacts.

Lemma exported_names_true (items : list json) (fn : json) :
  In fn (exported_names items) -> truthy fn = true.
Proof.
  unfold exported_names. rewrite in_flat_map. intros (att & _ & H).
  destruct att; try contradiction.
  destruct (truthy (get entries "exportedFileName")) eqn:T; [|contradiction].
  destruct H as [<- | []]. exact T.
Qed.

Lemma entry_names_iter (e : pydict) (items : list json) :
  py_iter (py_or (get e "attachments") (JList [])) = Ok items ->
  entry_names e = exported_names items.
Proof. unfold entry_names. now intros ->. Qed.

Lemma py_iter_iterable (v : json) :
  (exists items, py_iter v = Ok items /\ iterable v = true)
  \/ (py_iter v = Raise TypeError /\ iterable v = false).
Proof. destruct v; cbn; eauto. Qed.

(** One turn of the loop: it raises at a bad entry, and otherwise sets the
    keys of the entry. *)
Lemma add_entry_cases (d : index) (entry : json) :
  (bad_entry entry = true /\ add_entry d entry = Raise TypeError)
  \/ (bad_entry entry = false
      /\ add_entry d entry = Ok (put_keys (entry_keys entry) (names_of entry) d)).
Proof.
  destruct entry as [| | | | | |e]; try (right; split; reflexivity).
  unfold add_entry, bad_entry, entry_keys, names_of. fold (entry_id e).
  destruct (truthy (entry_id e)) eqn:T; [|right; split; reflexivity].
  cbn [andb].
  destruct (py_iter_iterable (py_or (get e "attachments") (JList [])))
    as [(items & Hi & It) | (Hi & It)]; rewrite It; cbn [negb orb].
  2:{ left. split; [reflexivity|]. now rewrite Hi. }
  rewrite Hi, (entry_names_iter _ _ Hi). cbn [bind].
  destruct (exported_names items) as [|fn fns] eqn:N; [right; split; reflexivity|].
  unfold index_set.
  destruct (hashable (entry_id e)) eqn:H1; cbn [negb orb bind].
  2:{ left. split; reflexivity. }
  destruct (truthy (get e "testIdentifierURL")) eqn:TU; cbn [andb].
  2:{ right. split; reflexivity. }
  destruct (hashable (get e "testIdentifierURL")) eqn:H2; cbn [negb].
  - right. split; [reflexivity|].
    destruct (scalar_eq (entry_id e) (get e "testIdentifierURL")); reflexivity.
  - left. split; [reflexivity|].
    assert (S : scalar_eq (entry_id e) (get e "testIdentifierURL") = false).
    { destruct (scalar_eq _ _) eqn:S; [|reflexivity].
      assert (K : same_key (entry_id e) (get e "testIdentifierURL") = true)
        by (unfold same_key; now rewrite S).
      apply same_key_hashable in K. destruct K as [_ K]. congruence. }
    rewrite S. reflexivity.
Qed.

Lemma add_entries_app (d : index) (a b : list json) :
  add_entries d (a ++ b) = (d' <- add_entries d a ;; add_entries d' b).
Proof.
  revert d. induction a as [|x a IH]; intros d; [reflexivity|].
  cbn [app add_entries]. destruct (add_entry d x) as [d1|]; cbn [bind]; [apply IH | reflexivity].
Qed.

Lemma add_entries_raises (d : index) (entries : list json) :
  (exists x, add_entries d entries = Raise x)
  <-> exists entry, In entry entries /\ bad_entry entry = true.
Proof.
  revert d. induction entries as [|entry entries IH]; intros d.
  - split; [now intros [x [=]] | now intros (e & [] & _)].
  - cbn [add_entries].
    destruct (add_entry_cases d entry) as [[B ->] | [B ->]]; cbn [bind].
    + split; [|eauto]. intros _. exists entry. split; [now left | exact B].
    + rewrite IH. split.
      * intros (e & He & Hb). exists e. split; [now right | exact Hb].
      * intros (e & [<- | He] & Hb); [congruence|]. eauto.
Qed.

Lemma put_keys_get (k : json) (keys : list json) (names : list json) (d : index) :
  index_get k (put_keys keys names d)
  = if existsb (same_key k) keys then Some names else index_get k d.
Proof.
  revert d. induction keys as [|k' keys IH]; intros d; [reflexivity|].
  cbn [put_keys fold_left existsb]. fold (put_keys keys names (index_put k' names d)).
  rewrite IH, index_get_put.
  destruct (same_key k k'), (existsb (same_key k) keys); reflexivity.
Qed.

Lemma add_entries_keep (k : json) (d idx : index) (entries : list json) :
  add_entries d entries = Ok idx ->
  (forall entry, In entry entries -> sets_key k entry = false) ->
  index_get k idx = index_get k d.
Proof.
  revert d. induction entries as [|entry entries IH]; intros d.
  - now intros [= <-].
  - cbn [add_entries]. intros H Hk.
    destruct (add_entry_cases d entry) as [[B E] | [B E]]; rewrite E in H;
      [discriminate|]. cbn [bind] in H.
    rewrite (IH _ H) by (intros e He; apply Hk; now right).
    rewrite put_keys_get.
    pose proof (Hk entry (or_introl eq_refl)) as S. unfold sets_key in S.
    now rewrite S.
Qed.

Lemma put_keys_distinct (keys : list json) (names : list json) (d : index) :
  distinct_keys d -> distinct_keys (put_keys keys names d).
Proof.
  revert d. induction keys as [|k keys IH]; intros d H; [exact H|].
  cbn [put_keys fold_left]. apply IH. now apply index_put_distinct.
Qed.

Lemma put_keys_in (keys : list json) (names v : list json) (a : json) (d : index) :
  In (a, v) (put_keys keys names d) ->
  In (a, v) d
  \/ (v = names
      /\ exists k, In k keys
                   /\ (a = k \/ (same_key k a = true /\ exists v', In (a, v') d))).
Proof.
  revert d. induction keys as [|k keys IH]; intros d; [now left|].
  cbn [put_keys fold_left]. fold (put_keys keys names (index_put k names d)).
  intros H. destruct (IH _ H) as [H1 | (-> & k' & Hk' & [-> | (S & v' & H1)])].
  - destruct (index_put_in _ _ _ _ _ H1) as [H2 | (-> & [-> | (S & v' & H2)])].
    + now left.
    + right. split; [reflexivity|]. exists k. split; [now left | now left].
    + right. split; [reflexivity|]. exists k. split; [now left|]. right. eauto.
  - right. split; [reflexivity|]. exists k'. split; [now right | now left].
  - destruct (index_put_in _ _ _ _ _ H1) as [H2 | (-> & [-> | (S2 & v2 & H2)])].
    + right. split; [reflexivity|]. exists k'. split; [now right|]. right. eauto.
    + right. split; [reflexivity|]. exists k. split; [now left | now left].
    + right. split; [reflexivity|]. exists k. split; [now left|]. right. eauto.
Qed.

(** What the keys of an entry that is not bad are. *)
Lemma entry_keys_good (entry k : json) :
  bad_entry entry = false -> In k (entry_keys entry) ->
  truthy k = true /\ hashable k = true /\ names_of entry <> []
  /\ (forall fn, In fn (names_of entry) -> truthy fn = true).
Proof.
  destruct entry as [| | | | | |e]; try (intros _ []).
  unfold bad_entry, entry_keys, names_of.
  destruct (truthy (entry_id e)) eqn:T; [|intros _ []].
  cbn [andb].
  assert (Hfn : forall fn, In fn (entry_names e) -> truthy fn = true).
  { unfold entry_names.
    destruct (py_iter _) as [items|]; [apply exported_names_true | intros fn []]. }
  destruct (entry_names e) as [|fn fns] eqn:N; [intros _ []|].
  intros B Hk. apply orb_false_iff in B. destruct B as [_ B].
  apply orb_false_iff in B. destruct B as [B1 B2].
  apply negb_false_iff in B1.
  destruct Hk as [<- | Hk].
  - repeat split; [exact T | exact B1 | discriminate | exact Hfn].
  - destruct (truthy (get e "testIdentifierURL")) eqn:TU; [|destruct Hk].
    cbn [andb] in B2, Hk. apply negb_false_iff in B2.
    destruct (negb (scalar_eq _ _)); [|destruct Hk].
    destruct Hk as [<- | []].
    repeat split; [exact TU | exact B2 | discriminate | exact Hfn].
Qed.

Lemma add_entries_invariant (seen entries : list json) (d idx : index) :
  loop_invariant seen d ->
  add_entries d entries = Ok idx ->
  loop_invariant (seen ++ entries) idx.
Proof.
  revert seen d. induction entries as [|entry entries IH]; intros seen d Inv.
  - intros [= <-]. now rewrite List.app_nil_r.
  - cbn [add_entries].
    destruct (add_entry_cases d entry) as [[B ->] | [B ->]]; [discriminate|].
    cbn [bind]. intros H.
    replace (seen ++ entry :: entries)%list with ((seen ++ [entry]) ++ entries)%list
      by (now rewrite <- app_assoc).
    apply (IH (seen ++ [entry])%list
              (put_keys (entry_keys entry) (names_of entry) d));
      [clear H IH | exact H].
    destruct Inv as (F & D & P). split; [|split].
    + intros k names Hin.
      destruct (put_keys_in _ _ _ _ _ Hin)
        as [H | (-> & k' & Hk' & [-> | (S & v' & H)])].
      * exact (F _ _ H).
      * exact (entry_keys_good _ _ B Hk').
      * destruct (F _ _ H) as (T & Hh & _).
        destruct (entry_keys_good _ _ B Hk') as (_ & _ & N & Hfn).
        repeat split; assumption.
    + now apply put_keys_distinct.
    + intros k names Hin.
      destruct (put_keys_in _ _ _ _ _ Hin)
        as [H | (-> & k' & Hk' & [-> | (S & v' & H)])].
      * destruct (P _ _ H) as (e & He & Hn & Hs).
        exists e. split; [apply in_or_app; now left | now split].
      * exists entry. split; [apply in_or_app; right; now left|].
        split; [reflexivity|]. unfold sets_key. apply existsb_exists.
        exists k'. split; [exact Hk'|]. apply same_key_refl.
        exact (proj1 (proj2 (entry_keys_good _ _ B Hk'))).
      * exists entry. split; [apply in_or_app; right; now left|].
        split; [reflexivity|]. unfold sets_key. apply existsb_exists.
        exists k'. split; [exact Hk'|]. now rewrite same_key_sym.
Qed.

End IndexFacts.

End AttachmentsFacts.

Section IndexTheorems.
Import Attachments AttachmentsFacts.

(** X19.  The index [_export_attachments] builds out of a manifest has only
    keys that are true and can be hashed, no key twice, and under every key
    at least one file name, all of them values that are true: the names of
    the attachments of an entry of the manifest whose identifier, or
    [testIdentifierURL], is this key. *)
Theorem manifest_index_well_formed (manifest : json) (idx : index) :
  index_of_manifest manifest = Ok idx ->
  filled idx /\ distinct_keys idx
  /\ forall k names, In (k, names) idx ->
       exists entries entry,
         py_iter (details_list manifest) = Ok entries
         /\ In entry entries /\ names = names_of entry
         /\ sets_key k entry = true.
Proof.
  unfold index_of_manifest.
  destruct (py_iter (details_list manifest)) as [entries|] eqn:E; [|discriminate].
  cbn [bind]. intros H.
  assert (I0 : loop_invariant [] []).
  { split; [intros k names []|]. split; [exact I | intros k names []]. }
  destruct (add_entries_invariant [] entries [] idx I0 H) as (F & D & P).
  split; [exact F|]. split; [exact D|].
  intros k names Hin. destruct (P _ _ Hin) as (entry & He & Hn & Hs).
  exists entries, entry. repeat split; assumption.
Qed.

(** X20.  Under a key the index holds the file names of the last entry of
    the manifest that sets this key, as identifier or as
    [testIdentifierURL]: the names of an earlier entry for the same test are
    replaced, not added to.  A key that no entry sets is not in the index.
    An entry sets its [testIdentifier] when that is a string that is not
    empty and the entry has a file name. *)
Theorem last_entry_decides (manifest : json) (idx : index) (entries : list json) :
  index_of_manifest manifest = Ok idx ->
  py_iter (details_list manifest) = Ok entries ->
  (forall pre entry post k,
      entries = (pre ++ entry :: post)%list ->
      sets_key k entry = true ->
      (forall later, In later post -> sets_key k later = false) ->
      index_get k idx = Some (names_of entry))
  /\ (forall k,
        (forall entry, In entry entries -> sets_key k entry = false) ->
        index_get k idx = None)
  /\ (forall e tid,
        get e "testIdentifier" = JStr tid -> tid <> EmptyString ->
        entry_names e <> [] ->
        sets_key (JStr tid) (JDict e) = true).
Proof.
  unfold index_of_manifest. intros H E. rewrite E in H. cbn [bind] in H.
  split; [|split].
  - intros pre entry post k -> Hs Hpost.
    rewrite add_entries_app in H.
    destruct (add_entries [] pre) as [d1|] eqn:E1; [|discriminate].
    cbn [bind add_entries] in H.
    destruct (add_entry_cases d1 entry) as [[B Ea] | [B Ea]]; rewrite Ea in H;
      [discriminate|].
    cbn [bind] in H.
    rewrite (add_entries_keep k _ _ _ H Hpost), put_keys_get.
    unfold sets_key in Hs. now rewrite Hs.
  - intros k Hk. now rewrite (add_entries_keep k _ _ _ H Hk).
  - intros e tid Hid Hne Hn. unfold sets_key, entry_keys, entry_id.
    rewrite Hid.
    assert (T : truthy (JStr tid) = true).
    { cbn. now destruct (String.eqb_spec tid EmptyString). }
    unfold py_or at 2. rewrite T. unfold py_or. rewrite T.
    destruct (entry_names e) as [|fn fns]; [now destruct Hn|].
    rewrite !T. cbn [existsb].
    unfold same_key at 1, scalar_eq at 1. now rewrite String.eqb_refl.
Qed.

(** X21.  Building the index raises exactly when the list of the manifest
    cannot be gone through (it is a number or [true]), or when some entry
    has an identifier and either attachments that cannot be gone through, or
    file names together with an identifier or a [testIdentifierURL] that is
    a list or a dictionary.  Entries without identifier, and entries that
    are no dictionaries, never make it raise. *)
Theorem manifest_raises_iff (manifest : json) :
  (exists x, index_of_manifest manifest = Raise x)
  <-> iterable (details_list manifest) = false
      \/ exists entries entry,
           py_iter (details_list manifest) = Ok entries
           /\ In entry entries /\ bad_entry entry = true.
Proof.
  unfold index_of_manifest.
  destruct (py_iter_iterable (details_list manifest))
    as [(entries & E & It) | (E & It)]; rewrite E, It; cbn [bind].
  - rewrite add_entries_raises. split.
    + intros (entry & He & Hb). right. exists entries, entry. now repeat split.
    + intros [[=] | (entries' & entry & [= <-] & He & Hb)]. eauto.
  - split; [now left | eauto].
Qed.

End IndexTheorems.

Section ExportTheorems.
Context {world : World} {paths : Paths} {export : Attachments.ExportWorld}.
Import Attachments AttachmentsFacts.

(** X22.  What [_export_attachments] returns tells how the export went.  It
    raises only when the directory cannot be made or when building the
    index raises: a failure of the command is never an error.  Without a
    directory name there is no index, and the command timed out, raised or
    ended with a code other than 0.  With a directory name, which is
    [<stem>_screenshots], the command ended with code 0, and the index is
    empty when the manifest is missing or cannot be read, [None] when the
    manifest gives no entry, and otherwise has only keys that are true,
    distinct and with file names. *)
Theorem export_result_cases (xcresult_path out_html_path : string) :
  let dir_name := path_stem out_html_path ++ "_screenshots" in
  let dir := parent_join out_html_path dir_name in
  let cmd := export_command (abspath xcresult_path) dir in
  match snd (_export_attachments xcresult_path out_html_path) with
  | Raise e =>
      make_dir dir = Some e
      \/ (exists manifest,
            read_manifest dir = Some manifest
            /\ index_of_manifest manifest = Raise e)
  | Ok (None, by_id) =>
      by_id = None
      /\ forall stdout stderr, run_export cmd <> Exported 0 stdout stderr
  | Ok (Some name, by_id) =>
      name = dir_name
      /\ (exists stdout stderr, run_export cmd = Exported 0 stdout stderr)
      /\ match by_id with
         | Some [] => manifest_exists dir = false \/ read_manifest dir = None
         | Some (entry :: rest) =>
             filled (entry :: rest) /\ distinct_keys (entry :: rest)
             /\ exists manifest,
                  read_manifest dir = Some manifest
                  /\ index_of_manifest manifest = Ok (entry :: rest)
         | None =>
             exists manifest,
               read_manifest dir = Some manifest
               /\ index_of_manifest manifest = Ok []
         end
  end.
Proof.
  cbv zeta. unfold _export_attachments. cbv zeta.
  destruct (make_dir _) as [e|] eqn:Hdir; cbn [snd]; [now left|].
  destruct (run_export _) as [rc out err| |] eqn:Hrun; cbn [snd];
    try (split; [reflexivity | intros o s; discriminate]).
  destruct (Z.eqb_spec rc 0) as [->|Hrc]; cbn [negb snd].
  2:{ split; [reflexivity|]. intros o s [= H _ _]. now destruct Hrc. }
  destruct (manifest_exists _) eqn:Hm; cbn [negb snd].
  2:{ split; [reflexivity|]. split; [eauto | now left]. }
  destruct (read_manifest _) as [manifest|] eqn:Hr; cbn [snd].
  2:{ split; [reflexivity|]. split; [eauto | now right]. }
  destruct (index_of_manifest manifest) as [[|entry rest]|e] eqn:Hi; cbn [snd].
  - split; [reflexivity|]. split; [eauto|]. eauto.
  - split; [reflexivity|]. split; [eauto|].
    pose proof Hi as Hi'. unfold index_of_manifest in Hi'.
    destruct (py_iter (details_list manifest)) as [entries|]; [|discriminate].
    cbn [bind] in Hi'.
    assert (I0 : loop_invariant [] []).
    { split; [intros k names []|]. split; [exact I | intros k names []]. }
    destruct (add_entries_invariant [] entries [] _ I0 Hi') as (F & D & _).
    split; [exact F|]. split; [exact D|].
    exists manifest. split; [reflexivity | exact Hi].
  - right. eauto.
Qed.

End ExportTheorems.

(** ** The web server *)

Module ServerFacts.
Import Server.

Lemma path_eqb_eq (p q : path) : path_eqb p q = true <-> p = q.
Proof.
  revert q. induction p as [|a p IH]; intros [|b q]; cbn; try (split; congruence).
  rewrite andb_true_iff, String.eqb_eq, IH. split.
  - now intros [-> ->].
  - now intros [= -> ->].
Qed.

Lemma path_eqb_length (p q : path) :
  List.length p <> List.length q -> path_eqb p q = false.
Proof.
  intros H. destruct (path_eqb p q) eqn:E; [|reflexivity].
  apply path_eqb_eq in E. now subst.
Qed.

Lemma removed_app (a b : list srv_event) :
  removed (a ++ b) = (removed a ++ removed b)%list.
Proof. apply flat_map_app. Qed.

Lemma removed_ran (t : list event) : removed (map Ran t) = [].
Proof. induction t as [|e t IH]; [reflexivity | exact IH]. Qed.

Lemma ran_app (a b : list srv_event) : ran (a ++ b) = (ran a ++ ran b)%list.
Proof. apply flat_map_app. Qed.

Lemma ran_map (t : list event) : ran (map Ran t) = t.
Proof. induction t as [|e t IH]; [reflexivity|]. cbn. now rewrite <- IH at 2. Qed.

Lemma flashed_app (a b : list srv_event) :
  flashed (a ++ b) = (flashed a ++ flashed b)%list.
Proof. apply flat_map_app. Qed.

Lemma flashed_ran (t : list event) : flashed (map Ran t) = [].
Proof. induction t as [|e t IH]; [reflexivity | exact IH]. Qed.

Section ClimbFacts.
Context {server : ServerWorld}.

(** From a bundle below the directory of a job the loop stops at that
    directory. *)
Lemma climb_to_job (job : string) (rest : list string) (fuel : nat) :
  (List.length rest <= fuel)%nat ->
  climb fuel (UPLOAD_DIR ++ job :: rest)%list = (UPLOAD_DIR ++ [job])%list.
Proof.
  revert fuel. induction rest as [|x rest IH] using rev_ind; intros fuel Hf.
  - destruct fuel; [reflexivity|]. cbn [climb]. unfold parent.
    rewrite removelast_last.
    now rewrite (proj2 (path_eqb_eq UPLOAD_DIR UPLOAD_DIR) eq_refl).
  - rewrite length_app in Hf. cbn [List.length] in Hf.
    destruct fuel as [|fuel]; [lia|]. cbn [climb]. unfold parent.
    replace (UPLOAD_DIR ++ job :: rest ++ [x])%list
      with ((UPLOAD_DIR ++ job :: rest) ++ [x])%list
      by (now rewrite <- app_assoc).
    rewrite removelast_last.
    rewrite !path_eqb_length
      by (rewrite ?length_app; cbn [List.length]; rewrite ?length_app;
          cbn [List.length]; lia).
    cbn [negb andb]. apply IH. lia.
Qed.

(** The loop is over after as many turns as the path has components. *)
Lemma climb_stops (p : path) (fuel : nat) :
  (List.length p <= fuel)%nat ->
  path_eqb (parent (climb fuel p)) UPLOAD_DIR
  || path_eqb (parent (climb fuel p)) (climb fuel p) = true.
Proof.
  revert p. induction fuel as [|fuel IH]; intros p Hp.
  - destruct p; [|cbn in Hp; lia]. cbn. apply orb_true_r.
  - cbn [climb].
    destruct (path_eqb (parent p) UPLOAD_DIR) eqn:E1;
      [cbn [negb andb]; now rewrite E1|].
    destruct (path_eqb (parent p) p) eqn:E2; cbn [negb andb];
      [rewrite E1, E2; reflexivity|].
    apply IH. unfold parent.
    destruct p as [|a p _] using rev_ind; [discriminate E2|].
    rewrite removelast_last. rewrite length_app in Hp. cbn in Hp. lia.
Qed.

End ClimbFacts.

End ServerFacts.

Section ProcessWritten.
Context {py : PyBuiltins} {world : World}.

(** When the pipeline returns, the two files it wrote. *)
Lemma process_ok_written (xcresult_path out_html_path : string)
    (report_title : option string) (include_details include_screenshots : bool)
    (r : Z * Z * Z) :
  let P := _process_xcresult_to_html xcresult_path out_html_path report_title
             include_details include_screenshots in
  snd P = Ok r ->
  exists debug_json_path text html,
    writes (fst P) = [EvWrite debug_json_path text; EvWrite out_html_path html]
    /\ write_file out_html_path html = None
    /\ chart_data html = Some r.
Proof.
  cbv zeta. intros H.
  pose proof (process_outcome xcresult_path out_html_path report_title
                include_details include_screenshots) as O.
  cbv zeta in O. rewrite H in O.
  destruct (run_xcresulttool xcresult_path) as [ran [[[js err] cmd]|e0]];
    [|now destruct O as (_ & _ & [=])].
  destruct (json_path_of out_html_path) as [dbg|e1];
    [|now destruct O as (_ & _ & [=])].
  destruct js as [text|]; [|now destruct O as (_ & _ & [=])].
  destruct (nonempty text); [|now destruct O as (_ & _ & [=])].
  destruct (json_loads text) as [data|exc]; [|now destruct O as (_ & _ & [=])].
  destruct (detailed_path data xcresult_path out_html_path include_details
              include_screenshots) as [logged [[[details dir] m]|e2]];
    [|now destruct O as (_ & _ & [=])].
  destruct (extract_counts data) as [[p f] s] eqn:Hcounts.
  destruct (build_html p f s (path_name xcresult_path)
              (title_or_default report_title) details dir m)
    as [html|e3] eqn:Hhtml; [|now destruct O as (_ & _ & [=])].
  destruct (write_file out_html_path html) as [exc|] eqn:Hw;
    [now destruct O as (_ & _ & [=])|].
  destruct O as (Ow & _ & [= ->]).
  exists dbg, text, html. repeat split; [exact Ow | exact Hw |].
  destruct (build_html_shape _ _ _ _ _ _ _ _ _ Hhtml) as [section ->].
  rewrite <- append_assoc. apply chart_data_read.
Qed.

End ProcessWritten.

Section ServerTheorems.
Context {py : PyBuiltins} {world : World} {cli : Cli} {server : Server.ServerWorld}.
Import Server ServerFacts.

Ltac srv_trace :=
  unfold removed, ran, flashed;
  repeat first [ rewrite flat_map_app
               | rewrite (removed_ran : forall t, flat_map _ (map Ran t) = [])
               | rewrite (flashed_ran : forall t, flat_map _ (map Ran t) = [])
               | rewrite (ran_map : forall t, flat_map _ (map Ran t) = t)
               | progress cbn [flat_map app] ];
  rewrite ?List.app_nil_r.

Lemma generate_report_removed (xcresult_path : path) (title : string)
    (include_details : bool) (cleanup_path : option path) :
  removed (fst (_generate_report xcresult_path title include_details
                  cleanup_path))
  = match cleanup_path with Some p => [p] | None => [] end.
Proof.
  unfold _generate_report. cbv zeta.
  destruct (_process_xcresult_to_html _ _ _ _ _) as [t [counts|e]];
    cbn [fst]; destruct cleanup_path; now srv_trace.
Qed.

Lemma generate_report_no_unpack (xcresult_path : path) (title : string)
    (include_details : bool) (cleanup_path : option path) :
  ~ In Unpack (fst (_generate_report xcresult_path title include_details
                      cleanup_path)).
Proof.
  unfold _generate_report. cbv zeta.
  destruct (_process_xcresult_to_html _ _ _ _ _) as [t [counts|e]];
    cbn [fst]; intros H;
    repeat (apply in_app_or in H; destruct H as [H | H]);
    try (apply in_map_iff in H; destruct H as (ev & [=] & _));
    destruct cleanup_path; cbn in H; intuition discriminate.
Qed.

Lemma generate_report_ran (xcresult_path : path) (title : string)
    (include_details : bool) (cleanup_path : option path) :
  ran (fst (_generate_report xcresult_path title include_details cleanup_path))
  <> [].
Proof.
  unfold _generate_report. cbv zeta.
  destruct (_process_xcresult_to_html _ _ _ _ _) as [t r] eqn:E.
  assert (Ht : t <> []).
  { unfold _process_xcresult_to_html in E.
    unfold io_bind at 1 in E. cbn [emit] in E.
    destruct (io_bind (run_xcresulttool _) _) as [t' r'].
    injection E as <- _. discriminate. }
  destruct r as [counts|e]; cbn [fst]; destruct cleanup_path; srv_trace;
    exact Ht.
Qed.

(** X23.  [_generate_report] never exports attachments, and removes the
    tree it is given to clean up, and nothing else, whether the pipeline
    fails or not.  It redirects to the report exactly when the pipeline
    returned: the artifact was then written as [REPORT_DIR/<id>.html], the
    file the view [report] sends for this identifier, and its chart carries
    the counts.  When the pipeline raised it redirects to the index with the
    one message [Error generating report: <text>]. *)
Theorem generate_report_outcome
    (xcresult_path : path) (title : string) (include_details : bool)
    (cleanup_path : option path) (trace : list srv_event) (resp : response) :
  _generate_report xcresult_path title include_details cleanup_path
  = (trace, resp) ->
  let out := path_str (report_file new_id) in
  let P := _process_xcresult_to_html (path_str xcresult_path) out (Some title)
             include_details false in
  removed trace = match cleanup_path with Some p => [p] | None => [] end
  /\ ran trace = fst P
  /\ exports (ran trace) = []
  /\ ((exists e,
         snd P = Raise e /\ resp = Redirect Index
         /\ flashed trace = ["Error generating report: " ++ str_of_exn e])
      \/ (exists counts debug_json_path text html,
            snd P = Ok counts /\ resp = Redirect (Report new_id)
            /\ flashed trace = []
            /\ writes (ran trace)
               = [EvWrite debug_json_path text; EvWrite out html]
            /\ write_file out html = None
            /\ chart_data html = Some counts)).
Proof.
  unfold _generate_report. cbv zeta.
  pose proof (process_exports_nothing (path_str xcresult_path)
                (path_str (report_file new_id)) (Some title) include_details
                false (andb_false_r _)) as Ex.
  pose proof (process_ok_written (path_str xcresult_path)
                (path_str (report_file new_id)) (Some title) include_details
                false) as Wr.
  cbv zeta in Wr.
  destruct (_process_xcresult_to_html (path_str xcresult_path)
              (path_str (report_file new_id)) (Some title) include_details false)
    as [t [counts|e]]; cbn [fst snd] in Ex, Wr |- *;
    intros H; apply pair_equal_spec in H; destruct H as [<- <-].
  - destruct (Wr counts eq_refl) as (dbg & text & html & Hw & Hf & Hc).
    assert (Hran : ran (map Ran t ++ match cleanup_path with
                                     | Some p => [RmTree p]
                                     | None => []
                                     end) = t)
      by (destruct cleanup_path; now srv_trace).
    rewrite Hran.
    split; [destruct cleanup_path; now srv_trace|].
    split; [reflexivity|]. split; [exact Ex|].
    right. exists counts, dbg, text, html.
    repeat split; try assumption. destruct cleanup_path; now srv_trace.
  - assert (Hran : ran (map Ran t
                        ++ [Flash ("Error generating report: " ++ str_of_exn e)]
                        ++ match cleanup_path with
                           | Some p => [RmTree p]
                           | None => []
                           end) = t)
      by (destruct cleanup_path; now srv_trace).
    rewrite Hran.
    split; [destruct cleanup_path; now srv_trace|].
    split; [reflexivity|]. split; [exact Ex|].
    left. exists e. repeat split. destruct cleanup_path; now srv_trace.
Qed.

(** What [upload] does with a local path, by the way
    [_resolve_local_path] ends. *)
Lemma upload_with_local_path (req : request) :
  nonempty (form_text req "local_path") = true ->
  upload req
  = match _resolve_local_path (form_text req "local_path") with
    | inr (Invalid text) => ([Flash text], Ok (Redirect Index))
    | inr (Escaped ValueError) =>
        ([Flash (str_of_exn ValueError)], Ok (Redirect Index))
    | inr (Escaped exc) => ([], Raise exc)
    | inl xcresult_path =>
        let (trace, resp) :=
          _generate_report xcresult_path
            (if nonempty (form_text req "title") then form_text req "title"
             else "XCTest Summary")
            match form req "include_details" with
            | Some s => String.eqb s "on"
            | None => false
            end None in
        (trace, Ok resp)
    end.
Proof.
  intros H. unfold upload. cbv zeta. rewrite H. reflexivity.
Qed.

(** X24.  [upload] without a local path and without a file only flashes a
    message.  With a local path, the file of the request is not looked at
    and no tree is ever removed: a bundle given by its path is left where it
    is.  The pipeline runs exactly when the path resolves, exists and has
    the suffix [.xcresult].  When it does not run, either the path is
    refused, with one message and a redirect to the index (the message of
    the path that does not exist, of the path that is not a bundle, or the
    text of a [ValueError] out of the resolution), or [upload] itself
    raises, nothing flashed: it raises exactly the exceptions other than
    [ValueError] that [expanduser], [resolve] or [exists] raise. *)
Theorem upload_local_path (req : request) :
  let local_path := form_text req "local_path" in
  let escapes (e : exn) :=
    resolve (strip local_path) = Raise e
    \/ exists p, resolve (strip local_path) = Ok p /\ exists_ p = Raise e in
  (nonempty local_path = false ->
   match file req with
   | Some (Some filename) => nonempty filename
   | _ => false
   end = false ->
   upload req
   = ([Flash "Provide a path to a .xcresult bundle or upload a zipped one."],
      Ok (Redirect Index)))
  /\ (nonempty local_path = true ->
      removed (fst (upload req)) = []
      /\ ~ In Unpack (fst (upload req))
      /\ (ran (fst (upload req)) <> [] <->
          exists p, resolve (strip local_path) = Ok p
                    /\ exists_ p = Ok true /\ suffix p = ".xcresult")
      /\ (ran (fst (upload req)) = [] ->
          (snd (upload req) = Ok (Redirect Index)
           /\ exists text, fst (upload req) = [Flash text])
          \/ (exists e, e <> ValueError /\ escapes e
                        /\ upload req = ([], Raise e)))
      /\ (forall e, snd (upload req) = Raise e <->
                    e <> ValueError /\ escapes e)
      /\ (escapes ValueError ->
          upload req = ([Flash (str_of_exn ValueError)], Ok (Redirect Index)))
      /\ (forall p,
             resolve (strip local_path) = Ok p ->
             (exists_ p = Ok false ->
              upload req
              = ([Flash ("Path does not exist: " ++ path_str p)],
                 Ok (Redirect Index)))
             /\ (exists_ p = Ok true ->
                 suffix p <> ".xcresult" ->
                 upload req
                 = ([Flash ("Not a .xcresult bundle: " ++ name p
                            ++ ". Select a path ending in .xcresult.")],
                    Ok (Redirect Index))))).
Proof.
  cbv zeta. split.
  - unfold upload. cbv zeta. intros -> ->. reflexivity.
  - intros L. rewrite (upload_with_local_path req L).
    unfold _resolve_local_path.
    destruct (resolve (strip (form_text req "local_path"))) as [p|e] eqn:R.
    + destruct (exists_ p) as [found|e] eqn:E.
      * destruct found; cbn [negb].
        -- destruct (String.eqb_spec (suffix p) ".xcresult") as [S | S];
             cbn [negb].
           ++ pose proof (generate_report_removed p
                (if nonempty (form_text req "title")
                 then form_text req "title" else "XCTest Summary")
                match form req "include_details" with
                | Some s => String.eqb s "on"
                | None => false
                end None) as G1.
              pose proof (generate_report_no_unpack p
                (if nonempty (form_text req "title")
                 then form_text req "title" else "XCTest Summary")
                match form req "include_details" with
                | Some s => String.eqb s "on"
                | None => false
                end None) as G2.
              pose proof (generate_report_ran p
                (if nonempty (form_text req "title")
                 then form_text req "title" else "XCTest Summary")
                match form req "include_details" with
                | Some s => String.eqb s "on"
                | None => false
                end None) as G3.
              destruct (_generate_report _ _ _ _) as [t resp].
              cbn [fst snd] in *.
              split; [exact G1|]. split; [exact G2|].
              split; [split; [intros _; now exists p | now intros _]|].
              split; [intros H; now destruct (G3 H)|].
              split.
              { intros e. split; [discriminate|].
                intros [_ [H | (q & H & H')]]; [discriminate H|].
                apply Ok_inj in H. subst q. rewrite E in H'.
                discriminate H'. }
              split.
              { intros [H | (q & H & H')]; [discriminate H|].
                apply Ok_inj in H. subst q. rewrite E in H'.
                discriminate H'. }
              intros q H. apply Ok_inj in H. subst q. split.
              { intros H. rewrite E in H. discriminate H. }
              { intros _ H. now destruct H. }
           ++ cbn [fst snd].
              split; [reflexivity|]. split; [intros [[=] | []]|].
              split.
              { split; [now intros [] |].
                intros (q & H & _ & H'). apply Ok_inj in H. subst q.
                now destruct S. }
              split; [intros _; left; split;
                      [reflexivity | eexists; reflexivity]|].
              split.
              { intros e. split; [discriminate|].
                intros [_ [H | (q & H & H')]]; [discriminate H|].
                apply Ok_inj in H. subst q. rewrite E in H'.
                discriminate H'. }
              split.
              { intros [H | (q & H & H')]; [discriminate H|].
                apply Ok_inj in H. subst q. rewrite E in H'.
                discriminate H'. }
              intros q H. apply Ok_inj in H. subst q. split.
              { intros H. rewrite E in H. discriminate H. }
              { reflexivity. }
        -- cbn [fst snd].
           split; [reflexivity|]. split; [intros [[=] | []]|].
           split.
           { split; [now intros [] |].
             intros (q & H & H' & _). apply Ok_inj in H. subst q.
             rewrite E in H'. discriminate H'. }
           split; [intros _; left; split;
                   [reflexivity | eexists; reflexivity]|].
           split.
           { intros e. split; [discriminate|].
             intros [_ [H | (q & H & H')]]; [discriminate H|].
             apply Ok_inj in H. subst q. rewrite E in H'.
             discriminate H'. }
           split.
           { intros [H | (q & H & H')]; [discriminate H|].
             apply Ok_inj in H. subst q. rewrite E in H'.
             discriminate H'. }
           intros q H. apply Ok_inj in H. subst q. split.
           { reflexivity. }
           { intros H. rewrite E in H. discriminate H. }
      * assert (Y : forall e', (Ok p : result path) = Raise e' \/
                       (exists q, Ok p = Ok q /\ exists_ q = Raise e')
                       -> e' = e).
        { intros e' [H | (q & H & H')]; [discriminate H|].
          apply Ok_inj in H. subst q. rewrite E in H'.
          now apply Raise_inj in H'. }
        assert (Z : (Ok p : result path) = Raise e \/
                    (exists q, Ok p = Ok q /\ exists_ q = Raise e)).
        { right. now exists p. }
        destruct e; cbn [fst snd];
          (split; [reflexivity|]);
          (split; [cbn [In]; intuition discriminate|]);
          (split; [split; [now intros [] |];
                   intros (q & H & H' & _); apply Ok_inj in H; subst q;
                   rewrite E in H'; discriminate H'|]).
        all: split;
          [intros _;
           first [ left; split; [reflexivity | eexists; reflexivity]
                 | right;
                   match type of Z with _ = Raise ?x \/ _ => exists x end;
                   split; [discriminate|];
                   split; [exact Z | reflexivity] ]|].
        all: split;
          [intros e'; split;
           [ first [ discriminate
                   | intros H; apply Raise_inj in H; subst e';
                     split; [discriminate | exact Z] ]
           | intros [N H]; apply Y in H; subst e';
             first [ reflexivity | now destruct N ] ]|].
        all: split;
          [ first [ reflexivity
                  | intros H; apply Y in H; discriminate H
                  | intros _; reflexivity ]|].
        all: intros q H; apply Ok_inj in H; subst q;
          split; [intros H; rewrite E in H; discriminate H
                 |intros H; rewrite E in H; discriminate H].
    + assert (Y : forall e', (Raise e : result path) = Raise e' \/
                     (exists q, (Raise e : result path) = Ok q
                                /\ exists_ q = Raise e')
                     -> e' = e).
      { intros e' [H | (q & H & _)]; [|discriminate H].
        now apply Raise_inj in H. }
      assert (Z : (Raise e : result path) = Raise e \/
                  (exists q, (Raise e : result path) = Ok q
                             /\ exists_ q = Raise e)).
      { now left. }
      destruct e; cbn [fst snd];
        (split; [reflexivity|]);
          (split; [cbn [In]; intuition discriminate|]);
        (split; [split; [now intros [] |];
                 intros (q & H & _); discriminate H|]).
      all: split;
        [intros _;
         first [ left; split; [reflexivity | eexists; reflexivity]
               | right;
                   match type of Z with _ = Raise ?x \/ _ => exists x end;
                   split; [discriminate|];
                 split; [exact Z | reflexivity] ]|].
      all: split;
        [intros e'; split;
         [ first [ discriminate
                 | intros H; apply Raise_inj in H; subst e';
                   split; [discriminate | exact Z] ]
         | intros [N H]; apply Y in H; subst e';
           first [ reflexivity | now destruct N ] ]|].
      all: split;
        [ first [ reflexivity
                | intros H; apply Y in H; discriminate H
                | intros _; reflexivity ]|].
      all: intros q H; discriminate H.
Qed.

(** X25.  After an upload, what [upload] removes is one tree, in which the
    loop that climbs from the bundle has ended: for a bundle unpacked
    anywhere below [UPLOAD_DIR/<job>], the directory [UPLOAD_DIR/<job>]
    itself, whether the pipeline fails or not.  When unpacking fails the
    pipeline is not run and nothing is removed. *)
Theorem upload_removes_job_directory (req : request) :
  nonempty (form_text req "local_path") = false ->
  match file req with
  | Some (Some filename) => nonempty filename
  | _ => false
  end = true ->
  (forall bundle,
      _unpack_upload = Unpacked bundle ->
      exists tree,
        removed (fst (upload req)) = [tree]
        /\ (parent tree = UPLOAD_DIR \/ parent tree = tree))
  /\ (forall job rest,
        _unpack_upload = Unpacked (UPLOAD_DIR ++ job :: rest)%list ->
        removed (fst (upload req)) = [(UPLOAD_DIR ++ [job])%list])
  /\ ((forall bundle, _unpack_upload <> Unpacked bundle) ->
      removed (fst (upload req)) = [] /\ ran (fst (upload req)) = []
      /\ snd (upload req) = Ok (Redirect Index)).
Proof.
  intros Hl Hf. unfold upload. cbv zeta. rewrite Hl, Hf. cbn [negb andb].
  assert (R : forall bundle,
             _unpack_upload = Unpacked bundle ->
             removed (fst (upload req))
             = [climb (List.length bundle) bundle]).
  { intros bundle Hu. unfold upload. cbv zeta. rewrite Hl, Hf, Hu.
    cbn [negb andb].
    pose proof (generate_report_removed bundle
                  (if nonempty (form_text req "title")
                   then form_text req "title" else "XCTest Summary")
                  match form req "include_details" with
                  | Some s => String.eqb s "on"
                  | None => false
                  end
                  (Some (climb (List.length bundle) bundle))) as G.
    destruct (_generate_report _ _ _ _) as [t resp]. cbn [fst] in G |- *.
    exact G. }
  unfold upload in R. cbv zeta in R. rewrite Hl, Hf in R. cbn [negb andb] in R.
  split; [|split].
  - intros bundle Hu. exists (climb (List.length bundle) bundle).
    split; [exact (R bundle Hu)|].
    pose proof (climb_stops bundle (List.length bundle) (le_n _)) as S.
    apply orb_true_iff in S. destruct S as [S | S]; apply path_eqb_eq in S; auto.
  - intros job rest Hu. rewrite (R _ Hu). f_equal.
    apply climb_to_job. rewrite length_app. cbn [List.length]. lia.
  - intros Hno. destruct _unpack_upload as [bundle|text|text];
      [now destruct (Hno bundle)| |]; repeat split.
Qed.

End ServerTheorems.

(** ** The window *)

Section ProcessWritesShape.
Context {py : PyBuiltins} {world : World}.

(** The files a run of the pipeline writes: none, the output of the command,
    or the output of the command and then the artifact. *)
Lemma process_writes_shape (xcresult_path out_html_path : string)
    (report_title : option string) (include_details include_screenshots : bool) :
  let P := _process_xcresult_to_html xcresult_path out_html_path report_title
             include_details include_screenshots in
  writes (fst P) = []
  \/ (exists debug_json_path text,
        writes (fst P) = [EvWrite debug_json_path text])
  \/ (exists debug_json_path text html,
        writes (fst P)
        = [EvWrite debug_json_path text; EvWrite out_html_path html]).
Proof.
  cbv zeta.
  pose proof (process_outcome xcresult_path out_html_path report_title
                include_details include_screenshots) as O.
  cbv zeta in O.
  destruct (run_xcresulttool xcresult_path) as [ran [[[js err] cmd]|e0]];
    [|left; exact (proj1 O)].
  destruct (json_path_of out_html_path) as [dbg|e1]; [|left; exact (proj1 O)].
  destruct js as [text|]; [|left; exact (proj1 O)].
  destruct (nonempty text); [|left; exact (proj1 O)].
  destruct (json_loads text) as [data|exc];
    [|right; left; exists dbg, text; exact (proj1 O)].
  destruct (detailed_path data xcresult_path out_html_path include_details
              include_screenshots) as [logged [[[details dir] m]|e2]];
    [|right; left; exists dbg, text; exact (proj1 O)].
  destruct (let '(p, f, s) := extract_counts data in
            build_html p f s (path_name xcresult_path)
              (title_or_default report_title) details dir m) as [html|e3];
    [|right; left; exists dbg, text; exact (proj1 O)].
  right. right. exists dbg, text, html. exact (proj1 O).
Qed.

End ProcessWritesShape.

Lemma next_available_free {paths : Paths} (fuel : nat) (path r : string) :
  _next_available_report_path fuel path = Some r -> path_exists r = false.
Proof.
  unfold _next_available_report_path.
  destruct (path_exists path) eqn:E; cbn [negb].
  - intros H. now destruct (first_free_is_free _ _ _ _ H) as (k & _ & -> & Hf & _).
  - intros H. apply Some_inj in H. now subst.
Qed.

Section GuiTheorems.
Context {py : PyBuiltins} {world : World} {cli : Cli} {paths : Paths}.
Import Gui.

Lemma did_app (a b : list gui_event) : did (a ++ b) = (did a ++ did b)%list.
Proof. apply flat_map_app. Qed.

Lemma did_map (t : list event) : did (map Did t) = t.
Proof. induction t as [|e t IH]; [reflexivity|]. cbn. now rewrite <- IH at 2. Qed.

(** X26.  [_generate_html] does nothing but show an error when the bundle
    or the output path is missing.  Otherwise the artifact is written, if at
    all, to a path at which nothing existed when the path was chosen: the
    output path of the window, or the first free [<stem>_<n><suffix>]
    beside it; the attachments are never exported; and [_finish_success] is
    called, for this path, exactly when the pipeline returned. *)
Theorem window_never_overwrites (fuel : nat) (f : fields)
        (trace : list gui_event) :
  _generate_html fuel f = Some trace ->
  (nonempty (xcresult_path f) && nonempty (output_path f) = false ->
   exists title message, trace = [ShowError title message])
  /\ (nonempty (xcresult_path f) && nonempty (output_path f) = true ->
      exists out_path,
        _next_available_report_path fuel (output_path f) = Some out_path
        /\ path_exists out_path = false
        /\ exports (did trace) = []
        /\ (writes (did trace) = []
            \/ (exists debug_json_path text,
                  writes (did trace) = [EvWrite debug_json_path text])
            \/ (exists debug_json_path text html,
                  writes (did trace)
                  = [EvWrite debug_json_path text; EvWrite out_path html]))
        /\ (In (FinishSuccess out_path) trace <->
            exists counts,
              snd (_process_xcresult_to_html (xcresult_path f) out_path
                     (if nonempty (strip (report_title f))
                      then Some (strip (report_title f)) else None)
                     (include_details f) false) = Ok counts)).
Proof.
  unfold _generate_html. cbv zeta.
  destruct (nonempty (xcresult_path f)) eqn:Hx; cbn [negb andb].
  2:{ intros H. apply Some_inj in H. subst trace.
      split; [eauto | discriminate]. }
  destruct (nonempty (output_path f)) eqn:Ho; cbn [negb].
  2:{ intros H. apply Some_inj in H. subst trace.
      split; [eauto | discriminate]. }
  destruct (_next_available_report_path fuel (output_path f)) as [out|] eqn:Hn;
    [|discriminate].
  pose proof (next_available_free fuel (output_path f) out Hn) as Hfree.
  pose proof (process_exports_nothing (xcresult_path f) out
                (if nonempty (strip (report_title f))
                 then Some (strip (report_title f)) else None)
                (include_details f) false (andb_false_r _)) as Ex.
  pose proof (process_writes_shape (xcresult_path f) out
                (if nonempty (strip (report_title f))
                 then Some (strip (report_title f)) else None)
                (include_details f) false) as Wr.
  cbv zeta in Wr.
  destruct (_process_xcresult_to_html (xcresult_path f) out _ _ _) as [t r]
    eqn:EP.
  cbn [fst snd] in Ex, Wr |- *.
  intros H. apply Some_inj in H. subst trace.
  split; [discriminate|]. intros _. exists out. rewrite EP. cbn [snd].
  assert (Hdid : forall (a b : list gui_event),
             did a = [] -> did b = [] ->
             did (a ++ [SetStatus "Extracting summary"; StartSpinner;
                        Did (EvLog "[generate]")] ++ map Did t ++ b)
             = EvLog "[generate]" :: t).
  { intros a b Ha Hb. rewrite !did_app, Ha, Hb, did_map.
    cbn. now rewrite List.app_nil_r. }
  assert (Hset : did (if negb (String.eqb out (output_path f))
                      then [SetOutputPath out] else []) = [])
    by now destruct (negb _).
  assert (Hend : did match r with
                     | Ok _ => [FinishSuccess out]
                     | Raise exc =>
                         [ShowError "Error" (str_of_exn exc);
                          SetStatus "Error generating HTML"; StopSpinner]
                     end = [])
    by now destruct r.
  rewrite (Hdid _ _ Hset Hend).
  split; [reflexivity|]. split; [exact Hfree|].
  split; [exact Ex|]. split; [exact Wr|].
  split.
  - intros Hin.
    apply in_app_or in Hin. destruct Hin as [Hin | Hin].
    { destruct (negb _); [destruct Hin as [[=] | []] | destruct Hin]. }
    apply in_app_or in Hin. destruct Hin as [Hin | Hin].
    { destruct Hin as [H | [H | [H | []]]]; discriminate H. }
    apply in_app_or in Hin. destruct Hin as [Hin | Hin].
    { apply in_map_iff in Hin. destruct Hin as (ev & [=] & _). }
    destruct r as [counts|e]; [now exists counts|].
    destruct Hin as [H | [H | [H | []]]]; discriminate H.
  - intros [counts ->]. apply in_or_app. right. apply in_or_app. right.
    apply in_or_app. right. now left.
Qed.

End GuiTheorems.

(** ** Wrappers around a summary *)

Section Wrapping.
Context {py : PyBuiltins}.

Lemma has_key_single (a k : string) (v : json) :
  has_key a [(k, v)] = String.eqb a k.
Proof. cbn [has_key]. now destruct (String.eqb a k). Qed.

Lemma single_key_miss (k : string) (v : json) :
  node_counts (JDict [(k, v)]) = None.
Proof.
  apply key_miss. unfold matches_key_pattern. rewrite !has_key_single.
  repeat match goal with
         | |- context [String.eqb ?a k] =>
             destruct (String.eqb_spec a k) as [<- | _];
             [vm_compute; reflexivity | cbn [andb orb]]
         end.
  reflexivity.
Qed.

Lemma first_counts_app_hit (a b : list json) :
  (exists n, In n a /\ node_counts n <> None) ->
  first_counts (a ++ b) = first_counts a.
Proof.
  induction a as [|x a IH]; intros (n & Hn & Hc); [destruct Hn|].
  cbn [app first_counts]. destruct (node_counts x) eqn:E; [reflexivity|].
  apply IH. destruct Hn as [<- | Hn]; [congruence | eauto].
Qed.

(** X27.  Wrapping a summary does not change the counts read from it: in a
    list of one item, under the one key of a dictionary, and as an item of a
    list after items in which no block returns, provided a block returns
    somewhere in the summary itself, whatever the items after it. *)
Theorem wrapping_keeps_counts (doc : json) :
  extract_counts (JList [doc]) = extract_counts doc
  /\ (forall k, extract_counts (JDict [(k, doc)]) = extract_counts doc)
  /\ (forall pre post,
        (forall v n, In v pre -> In n (deep_iter v) -> node_counts n = None) ->
        (exists n, In n (deep_iter doc) /\ node_counts n <> None) ->
        extract_counts (JList (pre ++ doc :: post)) = extract_counts doc).
Proof.
  unfold extract_counts. split; [|split].
  - cbn [deep_iter flat_map]. now rewrite List.app_nil_r.
  - intros k. cbn [deep_iter flat_map snd first_counts].
    rewrite single_key_miss. now rewrite List.app_nil_r.
  - intros pre post Hpre Hdoc. cbn [deep_iter].
    rewrite flat_map_app. cbn [flat_map].
    rewrite first_counts_skip.
    + now apply first_counts_app_hit.
    + intros n Hn. apply in_flat_map in Hn. destruct Hn as (v & Hv & Hn).
      exact (Hpre v n Hv Hn).
Qed.

End Wrapping.

(** ** Details that the renderer takes *)

Section DetailsRender.
Context {py : PyBuiltins}.

Lemma text_or_empty_str (v : json) :
  text_of v <> None -> exists s, py_or v (JStr EmptyString) = JStr s.
Proof.
  destruct (text_of v) as [t|] eqn:E; [|now intros []].
  intros _. exists t. now apply text_or_empty.
Qed.

Lemma detail_of_id_text (e r : pydict) :
  text_of (get e "testIdentifierString") <> None ->
  text_of (get e "testIdentifierURL") <> None ->
  detail_of e = Ok (Some r) ->
  is_str (get_default r "testIdentifierString" (JStr EmptyString)) = true.
Proof.
  intros H1 H2. unfold detail_of.
  destruct (truthy (py_or (py_or (get e "testName") _) _)); [|discriminate].
  destruct (if truthy (py_or (get e "failureText") (JStr EmptyString))
            then slice_to 100 (py_or (get e "failureText") (JStr EmptyString))
            else Ok (JStr EmptyString)) as [x|]; [|discriminate].
  unfold bind. intros H. apply Ok_inj in H. apply Some_inj in H. subst r.
  cbn [get_default lookup String.eqb Ascii.eqb Bool.eqb].
  change (is_str (py_or (py_or (py_or (get e "testIdentifierString")
                                      (get e "testIdentifierURL"))
                               (JStr EmptyString)) (JStr EmptyString)) = true).
  assert (S : exists s, py_or (py_or (get e "testIdentifierString")
                                     (get e "testIdentifierURL"))
                              (JStr EmptyString) = JStr s).
  { unfold py_or at 2.
    destruct (truthy (get e "testIdentifierString")) eqn:T.
    - destruct (get e "testIdentifierString"); try (now destruct H1);
        try discriminate T. unfold py_or. rewrite T. eauto.
    - now apply text_or_empty_str. }
  destruct S as [s ->]. unfold py_or. now destruct (truthy (JStr s)).
Qed.

Lemma collect_details_ids (failures : list json) (ds : list pydict) :
  (forall e, In (JDict e) failures ->
     text_of (get e "testIdentifierString") <> None
     /\ text_of (get e "testIdentifierURL") <> None) ->
  collect_details failures = Ok ds ->
  forall r, In r ds ->
    is_str (get_default r "testIdentifierString" (JStr EmptyString)) = true.
Proof.
  revert ds. induction failures as [|v failures IH]; intros ds Hid.
  - intros H. apply Ok_inj in H. subst ds. intros r [].
  - assert (Hid' : forall e, In (JDict e) failures ->
               text_of (get e "testIdentifierString") <> None
               /\ text_of (get e "testIdentifierURL") <> None)
      by (intros e He; apply Hid; now right).
    destruct v; try exact (IH ds Hid').
    cbn [collect_details].
    destruct (detail_of entries) as [o|] eqn:D; [|discriminate].
    destruct (collect_details failures) as [ds'|]; [|discriminate].
    unfold bind. intros H. apply Ok_inj in H. subst ds.
    destruct (Hid entries (or_introl eq_refl)) as [H1 H2].
    destruct o as [r0|]; [|exact (IH ds' Hid' eq_refl)].
    intros r [<- | Hr]; [exact (detail_of_id_text _ _ H1 H2 D)|].
    exact (IH ds' Hid' eq_refl r Hr).
Qed.

(** X28.  The records of the detail extractor can always be rendered when
    the identifiers of the summary are strings (or missing) and the keys of
    the screenshot index, if there is one, are strings: for a summary whose
    [testIdentifierString] and [testIdentifierURL] are strings or absent in
    every failure, [build_html] returns a document for the records
    extracted, with or without screenshots, whatever the file names of the
    index are. *)
Theorem extracted_details_render
    (d : pydict) (failures : list json) (details : option (list pydict))
    (passed failed skipped : Z) (source_name title : string)
    (dir : option string) (screenshot_map : option Attachments.index) :
  lookup "testFailures" d = Some (JList failures) ->
  (forall e, In (JDict e) failures ->
     text_of (get e "testIdentifierString") <> None
     /\ text_of (get e "testIdentifierURL") <> None) ->
  (forall idx, screenshot_map = Some idx -> Indexed.string_keys idx) ->
  snd (_extract_details_from_summary (JDict d)) = Ok details ->
  exists html,
    Indexed.build_html passed failed skipped source_name title details dir
      screenshot_map = Ok html.
Proof.
  intros L Hid K H.
  destruct (extract_details_cases d) as [(failures' & L' & E) | [N _]];
    [|now destruct (N failures)].
  rewrite L in L'. apply Some_inj in L'. injection L' as <-.
  rewrite E in H.
  destruct (collect_details failures) as [ds|] eqn:C; [|discriminate].
  unfold bind in H. apply Ok_inj in H. subst details.
  pose proof (collect_details_ids failures ds Hid C) as Hstr.
  unfold Indexed.build_html. cbv zeta.
  destruct ds as [|item rest]; [cbn [none_if_empty]; unfold bind; eauto|].
  cbn [none_if_empty]. unfold Indexed.details_section. cbv zeta.
  remember (existsb (fun i => truthy (get i "failure")) (item :: rest)) as hf.
  assert (R : exists rows,
             Indexed.render_items hf (Indexed.active_shots dir screenshot_map)
               (item :: rest) = Ok rows).
  { destruct (Indexed.active_shots dir screenshot_map) as [[dd idx]|] eqn:A;
      [|apply indexed_render_items_plain].
    destruct (Indexed.render_items hf (Some (dd, idx)) (item :: rest))
      as [rows|x] eqn:R; [eauto|].
    destruct (proj1 (indexed_render_items_raises hf (Some (dd, idx))
                       (item :: rest)) (ex_intro _ x R)) as (i & Hi & y & Hy).
    apply indexed_render_item_raises in Hy.
    destruct (indexed_active_shots_nonempty _ _ _ _ A) as [E' N].
    assert (F : Indexed.lookup_fails idx
                  (get_default i "testIdentifierString" (JStr EmptyString)))
      by (apply indexed_find_screens_raises; eauto).
    apply (lookup_fails_string_keys idx _ (K idx E') N) in F.
    rewrite (Hstr i Hi) in F. discriminate. }
  destruct R as [rows ->]. unfold bind. eauto.
Qed.

End DetailsRender.
Section IndexedTyped.
Context {py : PyBuiltins}.
Import Attachments.

Lemma index_get_of_smap (m : smap) (t : string) :
  index_get (JStr t) (Indexed.index_of_smap m)
  = option_map (map JStr) (smap_get t m).
Proof.
  induction m as [|[k v] m IH]; [reflexivity|].
  cbn [Indexed.index_of_smap map fst snd index_get smap_get].
  unfold same_key. cbn [scalar_eq]. rewrite orb_false_r.
  destruct (String.eqb t k); [reflexivity | exact IH].
Qed.

Lemma keys_of_smap (m : smap) :
  map fst (Indexed.index_of_smap m) = map JStr (map fst m).
Proof.
  unfold Indexed.index_of_smap. rewrite !map_map. reflexivity.
Qed.

Lemma scan_keys_of_smap (m : smap) (t : string) (keys : list string)
      (imgs : option (list string)) :
  Indexed.scan_keys (Indexed.index_of_smap m) (JStr t) (map JStr keys)
    (option_map (map JStr) imgs)
  = Ok (option_map (map JStr) (fallback_screens m t keys imgs)).
Proof.
  induction keys as [|k keys IH]; [reflexivity|].
  cbn [map Indexed.scan_keys fallback_screens].
  destruct (key_matches t k); [|exact IH].
  now rewrite index_get_of_smap.
Qed.

(** The lookup over an index of strings is the lookup of strings. *)
Lemma find_screens_of_smap (m : smap) (test_id : json) :
  Indexed.find_screens (Indexed.index_of_smap m) test_id
  = match find_screens m test_id with
    | Ok imgs => Ok (option_map (map JStr) imgs)
    | Raise e => Raise e
    end.
Proof.
  assert (N : is_str test_id = false -> hashable test_id = true ->
              Indexed.find_screens (Indexed.index_of_smap m) test_id
              = match m with [] => Ok None | _ => Raise TypeError end).
  { intros T H. unfold Indexed.find_screens. rewrite H.
    rewrite index_get_string_keys; [| |exact T].
    - destruct m as [|[k v] m]; [reflexivity|].
      cbn [Indexed.index_of_smap map fst snd Indexed.scan_keys].
      now destruct test_id.
    - intros key names I. apply in_map_iff in I.
      now destruct I as ([k v] & [= <- _] & _). }
  destruct test_id as [| | | |t| |];
    try (rewrite N by reflexivity; now destruct m); try reflexivity.
  unfold Indexed.find_screens, find_screens, select_screens.
  cbn [hashable]. rewrite index_get_of_smap, keys_of_smap.
  destruct (smap_get t m) as [[|fn fns]|] eqn:G; cbn [option_map map].
  - exact (scan_keys_of_smap m t (map fst m) (Some [])).
  - reflexivity.
  - exact (scan_keys_of_smap m t (map fst m) None).
Qed.

Lemma py_str_names (names : list string) : map py_str (map JStr names) = names.
Proof.
  rewrite map_map. cbn [py_str]. apply map_id.
Qed.

Lemma render_item_of_smap (has_failures : bool) (shots : option (string * smap))
      (item : pydict) :
  Indexed.render_item has_failures
    (option_map (fun s => (fst s, Indexed.index_of_smap (snd s))) shots) item
  = render_item has_failures shots item.
Proof.
  destruct shots as [[dir m]|]; [|reflexivity].
  cbn [option_map fst snd]. unfold Indexed.render_item, render_item.
  rewrite find_screens_of_smap.
  destruct (find_screens m _) as [imgs|e]; unfold bind; [|reflexivity].
  destruct imgs as [[|fn fns]|]; try reflexivity.
  cbn [option_map map].
  change (JStr fn :: map JStr fns) with (map JStr (fn :: fns)).
  now rewrite py_str_names.
Qed.

Lemma render_items_of_smap (has_failures : bool) (shots : option (string * smap))
      (details : list pydict) :
  Indexed.render_items has_failures
    (option_map (fun s => (fst s, Indexed.index_of_smap (snd s))) shots) details
  = render_items has_failures shots details.
Proof.
  induction details as [|item details IH]; [reflexivity|].
  cbn [Indexed.render_items render_items].
  now rewrite render_item_of_smap, IH.
Qed.

Lemma active_shots_of_smap (dir : option string) (m : option smap) :
  Indexed.active_shots dir (option_map Indexed.index_of_smap m)
  = option_map (fun s => (fst s, Indexed.index_of_smap (snd s)))
      (active_shots dir m).
Proof.
  destruct dir as [dir|], m as [[|e m]|]; try reflexivity.
  cbn [option_map Indexed.index_of_smap map Indexed.active_shots active_shots].
  now destruct (nonempty dir).
Qed.

(** X29.  On an index whose keys and file names are strings, [build_html]
    over the index as the export builds it does what [build_html] over the
    index of strings does: the same document, or the same exception. *)
Theorem build_html_of_smap (passed failed skipped : Z) (source_name title : string)
      (details : option (list pydict)) (dir : option string) (m : option smap) :
  Indexed.build_html passed failed skipped source_name title details dir
    (option_map Indexed.index_of_smap m)
  = build_html passed failed skipped source_name title details dir m.
Proof.
  unfold Indexed.build_html, build_html. cbv zeta.
  destruct details as [[|item rest]|]; try reflexivity.
  unfold Indexed.details_section, details_section. cbv zeta.
  rewrite active_shots_of_smap, render_items_of_smap.
  now destruct (active_shots dir m).
Qed.

End IndexedTyped.

(** * Examples *)

#[local] Existing Instance decimal_builtins.

(** ** Counts *)

(** C2: a summary with a negative count yields a negative count. *)
Lemma negative_count_returned :
  extract_counts negative_summary = (-1, 0, 0)
  /\ ~ nonneg3 (extract_counts negative_summary).
Proof.
  split; [reflexivity|]. intros [H _]. vm_compute in H. now apply H.
Qed.

(** The counts of scenario A are not negative, and neither is the passed
    count of the overfull summary, by the theorem. *)
Lemma counts_nonneg_witness :
  nonneg3 (extract_counts scenario_A)
  /\ pattern_total [("totalTestCount", wrapped 10); ("testsFailedCount", JInt 8);
                    ("testsSkippedCount", JInt 5)] = Some (0, 8, 5)
  /\ 0 <= 0.
Proof.
  split; [|split; [reflexivity|]].
  - apply (proj1 counts_nonneg_without_negative_values).
    intros v z Hin. simpl in Hin.
    repeat (destruct Hin as [<- | Hin]; [simpl; intros [= <-]; lia|]).
    contradiction.
  - exact (proj2 counts_nonneg_without_negative_values
             [("totalTestCount", wrapped 10); ("testsFailedCount", JInt 8);
              ("testsSkippedCount", JInt 5)] 0 8 5 eq_refl).
Defined.

(** The older shape, clamped: 10 - 8 - 5 reads as 0 passed. *)
Lemma total_pattern_witness : extract_counts overfull_summary = (0, 8, 5).
Proof.
  refine (proj1 (proj1 total_pattern_clamps_passed
                   overfull_summary [JDict [("note", JStr "x")]] [wrapped 10]
                   [("totalTestCount", wrapped 10); ("testsFailedCount", JInt 8);
                    ("testsSkippedCount", JInt 5)]
                   (wrapped 10) (JInt 8) 10 8 5 _ _ _ _ _ _ _ _)).
  - reflexivity.
  - intros n [<- | []]. reflexivity.
  - reflexivity.
  - reflexivity.
  - reflexivity.
  - right. split; reflexivity.
  - reflexivity.
  - right. right. exists (JInt 5). repeat split.
Defined.

(** A nested summary with a wrapped count. *)
Lemma summary_pattern_witness : extract_counts nested_summary = (7, 2, 0).
Proof.
  apply (proj1 summary_pattern_reads_counts
           nested_summary [nested_summary] [wrapped 7]
           [("passedTests", wrapped 7); ("failedTests", JInt 2)]
           (wrapped 7) (JInt 2) 7 2 0).
  - reflexivity.
  - intros n [<- | []]. reflexivity.
  - reflexivity.
  - reflexivity.
  - reflexivity.
  - reflexivity.
  - left. split; reflexivity.
Defined.

(** A document without counts. *)
Lemma no_pattern_witness : extract_counts no_counts = (0, 0, 0).
Proof.
  apply (proj1 no_pattern_yields_zero).
  intros d [[= <-] | []]. reflexivity.
Defined.

(** An empty string reads as 0; the string [abc] is true and no number, so
    the block that reads it is passed over. *)
Lemma falsy_count_witness :
  count_of (JStr EmptyString) = Some 0
  /\ count_of (JStr "abc") = None
  /\ direct_pattern "passedTests" "failedTests" "skippedTests"
       [("passedTests", JStr "abc"); ("failedTests", JInt 2)] = None.
Proof.
  destruct (@falsy_count_reads_zero decimal_builtins)
    as (Hzero & _ & Hskip & Hstr & _).
  split; [apply Hzero; reflexivity|].
  split; [apply Hstr; [discriminate | reflexivity]|].
  apply Hskip; [reflexivity | reflexivity|].
  left. apply Hstr; [discriminate | reflexivity].
Defined.

(** ** Details *)

(** C6: the identifier [/t] has a slash and an empty second-to-last
    segment; the suite of the record is the target, not that segment. *)
Lemma empty_segment_takes_target :
  contains "/" "/t" = true
  /\ second_to_last (split "/" "/t") = EmptyString
  /\ snd (_extract_details_from_summary
            (JDict [("testFailures", JList [JDict rooted_failure])]))
     = Ok (Some [[("name", JStr "t"); ("status", JStr "Failed");
                  ("suite", JStr "App"); ("failure", JStr EmptyString);
                  ("testIdentifierString", JStr "/t")]])
  /\ JStr "App" <> JStr (second_to_last (split "/" "/t")).
Proof. repeat split; try reflexivity. discriminate. Qed.

(** The record of a failure whose identifier is only in
    [testIdentifierURL] and whose failure text is a list, by the theorem:
    the suite is the second-to-last segment of that identifier. *)
Lemma failed_test_witness :
  collect_details [JInt 0; JDict url_only_failure]
  = Ok [[("name", JStr "t"); ("status", JStr "Failed"); ("suite", JStr "b");
         ("failure", JList [JStr "x"; JInt 1]);
         ("testIdentifierString", JStr "a/b/c")]].
Proof.
  destruct (proj1 failed_test_yields_record
              [JInt 0; JDict url_only_failure] [JInt 0] [] url_only_failure)
    as (before & after & Hb & Ha & Hc & _).
  - reflexivity.
  - intros e [[=] | [[= <-] | []]]. reflexivity.
  - reflexivity.
  - injection Hb as <-. injection Ha as <-. exact Hc.
Defined.

(** ** Rendering *)

(** C1: the name [<em>&</em>] and the excerpt [x < y] stand in the report
    as they are, and their escaped forms do not. *)
Lemma markup_not_escaped :
  markup_report = Ok (text_of_report markup_report)
  /\ contains "<em>&</em>" (text_of_report markup_report) = true
  /\ contains "x < y" (text_of_report markup_report) = true
  /\ contains (spec_html_escape "<em>&</em>") (text_of_report markup_report)
     = false
  /\ contains (spec_html_escape "x < y") (text_of_report markup_report) = false.
Proof. split; [reflexivity|]. repeat split; vm_compute; reflexivity. Qed.

(** The same name and excerpt, found by the theorem. *)
Lemma details_embedded_witness :
  contains "<em>&</em>" (text_of_report markup_report) = true
  /\ contains "x < y" (text_of_report markup_report) = true.
Proof.
  destruct (details_embedded_verbatim 0 1 0 "r.xcresult" "XCTest Summary"
              [markup_record] None None (text_of_report markup_report)
              markup_record eq_refl (or_introl eq_refl))
    as (_ & Hname & _ & Hfailure).
  split; [exact Hname | exact (proj2 (Hfailure eq_refl))].
Defined.

(** The counts of scenario A, read back from their report. *)
Lemma read_back_witness :
  build_html 10 2 1 "r.xcresult" "XCTest Summary" None None None = Ok plain_report
  /\ chart_data plain_report = Some (10, 2, 1)
  /\ kpi_values plain_report = Some (10, 2, 1).
Proof.
  assert (H : build_html 10 2 1 "r.xcresult" "XCTest Summary" None None None
              = Ok plain_report) by reflexivity.
  split; [exact H|].
  destruct (rendered_counts_read_back 10 2 1 "r.xcresult" "XCTest Summary"
              None None None plain_report H) as [Hc Hk].
  split; [exact Hc | apply Hk; reflexivity].
Defined.

(** ** Screenshots *)

(** C9: for the identifier [S/t] the program attaches the entry of
    [Other/t], which has only the last segment of the identifier, while the
    entry of [Root/S/t] ends with the identifier and comes first in the
    three tiers of the specification. *)
Lemma segment_match_precedes_suffix_match :
  select_screens segment_first_index "S/t" = Some ["a.png"]
  /\ spec_priority_select segment_first_index "S/t" = Some ["b.png"]
  /\ select_screens segment_first_index "S/t"
     <> spec_priority_select segment_first_index "S/t".
Proof. repeat split; try reflexivity. discriminate. Qed.

(** The entry keyed by the identifier itself is taken, though a key before
    it ends with the identifier; in the other index the first key that
    passes the test of the scan is taken. *)
Lemma screenshot_selection_witness :
  select_screens exact_last_index "S/t" = Some ["c.png"]
  /\ select_screens segment_first_index "S/t" = Some ["a.png"].
Proof.
  split.
  - apply (proj1 (proj2 (screenshot_entry_selected exact_last_index "S/t"))).
    reflexivity.
  - apply (proj1 (proj1 (proj2 (proj2 (screenshot_entry_selected
                                         segment_first_index "S/t")))
                    (or_introl eq_refl))
             [] [("Root/S/t", ["b.png"])] "Other/t" ["a.png"]).
    + reflexivity.
    + intros k v [].
    + reflexivity.
Defined.

(** ** The orchestration *)

(** The three outcomes of the entry point: no summary, a summary that does
    not parse, and the empty summary of scenario C, whose counts are zero. *)
Lemma process_witness :
  snd (@_process_xcresult_to_html _ failing_world "r.xcresult" "out.html" None
         true true)
  = Raise (RuntimeError
             (no_summary_message "error: not a result bundle"
                "/usr/bin/xcrun xcresulttool get --path r.xcresult --format json"))
  /\ existsb is_write
       (fst (@_process_xcresult_to_html _ failing_world "r.xcresult" "out.html"
               None true true)) = false
  /\ snd (@_process_xcresult_to_html _
            (printing_world "<html>" (inr "Expecting value"))
            "r.xcresult" "out.html" None true true)
     = Raise (RuntimeError "Failed to parse JSON summary: Expecting value")
  /\ snd (@_process_xcresult_to_html _ (printing_world "{}" (inl scenario_C))
            "r.xcresult" "out.html" None true true)
     = Ok (0, 0, 0).
Proof.
  pose proof (@process_fails_only_without_summary _ failing_world) as [A _].
  pose proof (@process_fails_only_without_summary _
                (printing_world "<html>" (inr "Expecting value"))) as [_ [B _]].
  pose proof (@process_fails_only_without_summary _
                (printing_world "{}" (inl scenario_C))) as [_ [_ C]].
  destruct (A "r.xcresult" "out.html" None true true "out.json")
    as (trace & Ht & _ & _ & Hw & _).
  { intros cmd Hin. reflexivity. }
  { reflexivity. }
  destruct (B "r.xcresult" "out.html" None true true
              [EvRun (hd [] (candidates "/usr/bin/xcrun" "r.xcresult"))]
              "<html>" EmptyString
              "/usr/bin/xcrun xcresulttool get test-results summary --path r.xcresult --compact"
              "out.json" "Expecting value" eq_refl eq_refl eq_refl)
    as [Hb _].
  destruct (C "r.xcresult" "out.html" None true true
              [EvRun (hd [] (candidates "/usr/bin/xcrun" "r.xcresult"))]
              "{}" EmptyString
              "/usr/bin/xcrun xcresulttool get test-results summary --path r.xcresult --compact"
              "out.json" scenario_C eq_refl eq_refl eq_refl
              (or_intror eq_refl) (fun _ => eq_refl))
    as (trace' & html & Hc & _).
  rewrite Ht, Hc. repeat split; assumption.
Defined.

(** ** Counts, details and rendering, further *)

(** Counts in the older schema, below a dictionary that has none. *)
Lemma legacy_patterns_witness :
  extract_counts
    (JDict [("metrics", JDict [("testsPassedCount", wrapped 4);
                               ("testsFailedCount", JInt 1)])]) = (4, 1, 0).
Proof.
  refine (proj1 (proj2 (legacy_patterns_read_counts
            (JDict [("metrics", JDict [("testsPassedCount", wrapped 4);
                                       ("testsFailedCount", JInt 1)])])
            [JDict [("metrics", JDict [("testsPassedCount", wrapped 4);
                                       ("testsFailedCount", JInt 1)])]]
            [wrapped 4]
            [("testsPassedCount", wrapped 4); ("testsFailedCount", JInt 1)]
            4 1 0 _ _ _ _)) _ _).
  - reflexivity.
  - intros n [<- | []]. reflexivity.
  - reflexivity.
  - reflexivity.
  - reflexivity.
  - split; [|split].
    + exists (wrapped 4). split; reflexivity.
    + exists (JInt 1). split; reflexivity.
    + left. split; reflexivity.
Defined.

(** The record of scenario E is well formed. *)
Lemma detail_records_witness :
  [failed_record "testFoo" "SuiteA/testFoo" "" "expected true"] <> []
  /\ exists d failures,
       scenario_E = JDict d
       /\ lookup "testFailures" d = Some (JList failures)
       /\ Forall2 (fun e r =>
                     map fst r = record_keys
                     /\ get r "name" = test_name_of e
                     /\ truthy (get r "name") = true
                     /\ get r "status" = JStr "Failed"
                     /\ bounded_excerpt (get r "failure"))
                  (named_entries failures)
                  [failed_record "testFoo" "SuiteA/testFoo" "" "expected true"].
Proof.
  exact (detail_records_well_formed scenario_E
           [failed_record "testFoo" "SuiteA/testFoo" "" "expected true"]
           eq_refl).
Defined.

(** A failure text that is a number makes the extraction raise. *)
Lemma unsliceable_failure_text_witness :
  exists x, snd (_extract_details_from_summary numeric_failure_text) = Raise x.
Proof.
  apply (proj2 (unsliceable_failure_text_raises
                  [("testFailures",
                    JList [JDict [("testName", JStr "testFoo");
                                  ("failureText", JInt 3)]])]
                  [JDict [("testName", JStr "testFoo"); ("failureText", JInt 3)]]
                  eq_refl)).
  exists [("testName", JStr "testFoo"); ("failureText", JInt 3)].
  split; [now left | split; reflexivity].
Defined.

(** With an index whose one key is the number 1, a record with a string
    for identifier makes [build_html] raise, and the record whose
    identifier is that number is rendered. *)
Lemma build_html_raises_witness :
  Indexed.build_html 0 1 0 "r.xcresult" "XCTest Summary"
    (Some [failed_record "testFoo" "SuiteA/testFoo" "" "expected true"])
    (Some "r_screenshots") (Some numbered_index) = Raise TypeError
  /\ exists html,
       Indexed.build_html 0 1 0 "r.xcresult" "XCTest Summary"
         (Some [first_id_record]) (Some "r_screenshots") (Some numbered_index)
       = Ok html.
Proof.
  split.
  - destruct (proj2 (proj1 (build_html_raises_iff 0 1 0 "r.xcresult"
                              "XCTest Summary"
                              (Some [failed_record "testFoo" "SuiteA/testFoo"
                                       "" "expected true"])
                              (Some "r_screenshots") (Some numbered_index))))
      as [x Hx].
    + exists [failed_record "testFoo" "SuiteA/testFoo" "" "expected true"],
             "r_screenshots", numbered_index,
             (failed_record "testFoo" "SuiteA/testFoo" "" "expected true").
      split; [reflexivity|]. split; [reflexivity|]. split; [now left|].
      right. split; [now left|].
      exists [], (JInt 1), []. split; [reflexivity|].
      split; [reflexivity | intros k []].
    + rewrite <- (proj2 (proj2 (build_html_raises_iff 0 1 0 "r.xcresult"
                                  "XCTest Summary"
                                  (Some [failed_record "testFoo"
                                           "SuiteA/testFoo" ""
                                           "expected true"])
                                  (Some "r_screenshots")
                                  (Some numbered_index))) x Hx).
      exact Hx.
  - destruct (Indexed.build_html 0 1 0 "r.xcresult" "XCTest Summary"
                (Some [first_id_record]) (Some "r_screenshots")
                (Some numbered_index)) as [html|x] eqn:B; [now exists html|].
    destruct (proj1 (proj1 (build_html_raises_iff 0 1 0 "r.xcresult"
                              "XCTest Summary" (Some [first_id_record])
                              (Some "r_screenshots") (Some numbered_index)))
                (ex_intro _ x B))
      as (ds & d & idx & item & Hd & Ha & Hi & F).
    apply Some_inj in Hd. subst ds. apply Some_inj in Ha.
    apply pair_equal_spec in Ha. destruct Ha as [_ <-].
    destruct Hi as [<- | []].
    destruct F as [F | [[F | F] _]]; discriminate F.
Defined.

(** The total of the report of scenario A. *)
Lemma total_figure_witness : kpi_value "Total" plain_report = Some 13.
Proof.
  exact (total_figure_is_the_sum 10 2 1 "r.xcresult" "XCTest Summary"
           None None None plain_report eq_refl eq_refl).
Defined.

(** ** Running the tool *)

(** The second command line is the one that works: the third is not run,
    and the complaint of the first is not what is returned. *)
Lemma first_usable_command_witness :
  @run_xcresulttool
    (scripted_world legacy_only (inl scenario_C) writable (Ok (None, None)))
    "r.xcresult"
  = ([EvRun ["/usr/bin/xcrun"; "xcresulttool"; "get"; "test-results"; "summary";
             "--path"; "r.xcresult"; "--compact"];
      EvRun ["/usr/bin/xcrun"; "xcresulttool"; "get"; "--legacy"; "--path";
             "r.xcresult"; "--format"; "json"]],
     Ok (Some "{}", "warning: legacy format",
         "/usr/bin/xcrun xcresulttool get --legacy --path r.xcresult --format json")).
Proof.
  refine (@first_usable_command_wins
            (scripted_world legacy_only (inl scenario_C) writable (Ok (None, None)))
            "r.xcresult"
            [["/usr/bin/xcrun"; "xcresulttool"; "get"; "test-results"; "summary";
              "--path"; "r.xcresult"; "--compact"]]
            [["/usr/bin/xcrun"; "xcresulttool"; "get"; "--path"; "r.xcresult";
              "--format"; "json"]]
            ["/usr/bin/xcrun"; "xcresulttool"; "get"; "--legacy"; "--path";
             "r.xcresult"; "--format"; "json"]
            "{}" "warning: legacy format" _ _ _ _).
  - reflexivity.
  - intros c [<- | []]. reflexivity.
  - reflexivity.
  - reflexivity.
Defined.

(** Without [xcrun] only the first command line is tried. *)
Lemma missing_tool_witness :
  @run_xcresulttool
    (scripted_world no_xcrun (inl scenario_C) writable (Ok (None, None)))
    "r.xcresult"
  = ([EvRun ["/usr/bin/xcrun"; "xcresulttool"; "get"; "test-results"; "summary";
             "--path"; "r.xcresult"; "--compact"]],
     Ok (None,
         "Could not execute /usr/bin/xcrun: [Errno 2] No such file or directory: '/usr/bin/xcrun'",
         "/usr/bin/xcrun xcresulttool get test-results summary --path r.xcresult --compact")).
Proof.
  refine (proj1 (@missing_tool_stops_the_search
            (scripted_world no_xcrun (inl scenario_C) writable (Ok (None, None)))
            "r.xcresult" []
            [["/usr/bin/xcrun"; "xcresulttool"; "get"; "--legacy"; "--path";
              "r.xcresult"; "--format"; "json"];
             ["/usr/bin/xcrun"; "xcresulttool"; "get"; "--path"; "r.xcresult";
              "--format"; "json"]]
            ["/usr/bin/xcrun"; "xcresulttool"; "get"; "test-results"; "summary";
             "--path"; "r.xcresult"; "--compact"] _ _) _ _).
  - reflexivity.
  - intros c [].
  - reflexivity.
Defined.

(** ** The entry point *)

(** Scenario A: the counts returned are in the chart of the one artifact
    written. *)
Lemma returned_counts_witness :
  exists html,
    writes (fst (@_process_xcresult_to_html _ plain_world "r.xcresult" "out.html"
                   None false false))
    = [EvWrite "out.json" "{}"; EvWrite "out.html" html]
    /\ chart_data html = Some (10, 2, 1).
Proof.
  destruct (@returned_counts_are_the_written_ones _ plain_world
              "r.xcresult" "out.html" None false false
              (fst (@_process_xcresult_to_html _ plain_world "r.xcresult"
                      "out.html" None false false))
              (10, 2, 1) eq_refl)
    as (ran & text & err & cmd & dbg & data & html & Hrun & Hdbg & _ & _ & Hw & _ & Hc).
  injection Hrun as _ <- _ _. injection Hdbg as <-.
  exists html. split; [exact Hw | exact Hc].
Defined.

(** On a disk that takes no file the run fails with the error of the write,
    the artifact being the second file it tried to write. *)
Lemma failed_run_witness :
  exists html,
    writes (fst (@_process_xcresult_to_html _ read_only_world "r.xcresult"
                   "out.html" None false false))
    = [EvWrite "out.json" "{}"; EvWrite "out.html" html]
    /\ snd (@_process_xcresult_to_html _ read_only_world "r.xcresult"
              "out.html" None false false)
       = Raise (RuntimeError
                  "Failed to write HTML file: [Errno 30] Read-only file system").
Proof.
  destruct (@failed_run_leaves_no_artifact _ read_only_world
              "r.xcresult" "out.html" None false false
              (fst (@_process_xcresult_to_html _ read_only_world "r.xcresult"
                      "out.html" None false false))
              (RuntimeError
                 "Failed to write HTML file: [Errno 30] Read-only file system")
              eq_refl)
    as [H | [(dbg & text & _ & H) | (dbg & text & html & exc & _ & H & _)]];
    try discriminate H.
  exists html. split; [|reflexivity].
  rewrite H. injection H as <- <- _. reflexivity.
Defined.

(** With details and screenshots asked for and a failure to list, the
    attachments are exported, once. *)
Lemma export_witness :
  exports (fst (@_process_xcresult_to_html _ screenshot_world "r.xcresult"
                  "out.html" None true true))
  = [EvExport "r.xcresult" "out.html"].
Proof.
  destruct (@export_only_for_listed_failures _ screenshot_world
              "r.xcresult" "out.html" None true true
              (fst (@_process_xcresult_to_html _ screenshot_world "r.xcresult"
                      "out.html" None true true))
              (snd (@_process_xcresult_to_html _ screenshot_world "r.xcresult"
                      "out.html" None true true))
              eq_refl)
    as [H | (H & _)]; [discriminate H | exact H].
Defined.

(** A number for failure text ends the run once details are asked for. *)
Lemma detail_errors_witness :
  snd (@_process_xcresult_to_html _ numeric_text_world "r.xcresult" "out.html"
         None true false) = Raise TypeError
  /\ writes (fst (@_process_xcresult_to_html _ numeric_text_world "r.xcresult"
                    "out.html" None true false))
     = [EvWrite "out.json" "{}"].
Proof.
  refine (@detail_errors_end_the_run _ numeric_text_world
            "r.xcresult" "out.html" None false
            [EvRun ["/usr/bin/xcrun"; "xcresulttool"; "get"; "test-results";
                    "summary"; "--path"; "r.xcresult"; "--compact"]]
            "{}" EmptyString
            "/usr/bin/xcrun xcresulttool get test-results summary --path r.xcresult --compact"
            "out.json" numeric_failure_text TypeError _ _ _ _).
  - reflexivity.
  - reflexivity.
  - reflexivity.
  - left. reflexivity.
Defined.

(** ** The next free path *)

(** After [report.html], [report_1.html] and [report_2.html] comes
    [report_3.html]. *)
Lemma next_available_witness :
  @_next_available_report_path three_reports 5 "out/report.html"
  = Some "out/report_3.html".
Proof.
  refine (proj1 (proj2 (@next_available_is_first_free three_reports
                          "out/report.html")) 3%nat 5%nat _ _ _ _).
  - reflexivity.
  - lia.
  - reflexivity.
  - intros j Hj.
    assert (Hc : j = 1%nat \/ j = 2%nat) by lia.
    destruct Hc as [-> | ->]; reflexivity.
Defined.

(** ** The command line *)

(** A bundle that gives no summary: exit code 1. *)
Lemma cli_exit_code_witness :
  snd (@run_cli _ failing_world with_weasyprint "r.xcresult" "out.html"
         (Some "out.pdf") None false false) = 1.
Proof.
  apply (proj2 (proj2 (@cli_exit_code _ failing_world with_weasyprint
                         "r.xcresult" "out.html" (Some "out.pdf") None false false
                         (fst (@run_cli _ failing_world with_weasyprint
                                 "r.xcresult" "out.html" (Some "out.pdf") None
                                 false false))
                         (snd (@run_cli _ failing_world with_weasyprint
                                 "r.xcresult" "out.html" (Some "out.pdf") None
                                 false false))
                         eq_refl))).
  left. eexists. reflexivity.
Defined.

(** Scenario A on the command line, with a PDF asked for. *)
Lemma cli_output_witness :
  firstn 5 (printed (fst (@run_cli _ plain_world with_weasyprint "r.xcresult"
                            "out.html" (Some "out.pdf") None false false)))
  = [ "XCTest summary for r.xcresult:"; "  Passed : 10"; "  Failed : 2";
      "  Skipped: 1"; "HTML report written to: out.html" ]
  /\ (conversions (fst (@run_cli _ plain_world with_weasyprint "r.xcresult"
                          "out.html" (Some "out.pdf") None false false)) = []
      \/ exists pdf,
           Some "out.pdf" = Some pdf
           /\ conversions (fst (@run_cli _ plain_world with_weasyprint
                                  "r.xcresult" "out.html" (Some "out.pdf") None
                                  false false))
              = [PdfWrite "out.html" pdf]).
Proof.
  exact (@cli_output _ plain_world with_weasyprint
           "r.xcresult" "out.html" (Some "out.pdf") None false false
           (fst (@run_cli _ plain_world with_weasyprint "r.xcresult" "out.html"
                   (Some "out.pdf") None false false))
           (snd (@run_cli _ plain_world with_weasyprint "r.xcresult" "out.html"
                   (Some "out.pdf") None false false))
           eq_refl).
Defined.

(** Screenshots asked for without details: nothing is exported. *)
Lemma main_dispatch_witness :
  exports (steps (fst (@main _ screenshot_world with_weasyprint screenshots_only)))
  = [].
Proof.
  refine (proj2 (proj2 (proj2 (@main_dispatch _ screenshot_world with_weasyprint
                                 screenshots_only))
                   eq_refl "r.xcresult" "out.html" eq_refl eq_refl eq_refl eq_refl)
            eq_refl).
Defined.

(** ** The index of the screenshots *)

(** The index of the manifest that lists [S/t] twice is well formed. *)
Lemma manifest_index_witness :
  Attachments.filled twice_listed_index
  /\ Attachments.distinct_keys twice_listed_index
  /\ forall k names, In (k, names) twice_listed_index ->
       exists entries entry,
         Attachments.py_iter (Attachments.details_list twice_listed_manifest)
         = Ok entries
         /\ In entry entries /\ names = Attachments.names_of entry
         /\ Attachments.sets_key k entry = true.
Proof.
  exact (manifest_index_well_formed twice_listed_manifest twice_listed_index
           eq_refl).
Defined.

(** The second listing of [S/t] replaces the file of the first. *)
Lemma last_entry_witness :
  Attachments.index_get (JStr "S/t") twice_listed_index = Some [JStr "b.png"].
Proof.
  refine (proj1 (last_entry_decides twice_listed_manifest twice_listed_index
                   _ eq_refl eq_refl)
            [JDict [("testIdentifier", JStr "S/t");
                    ("testIdentifierURL", JStr "test://S/t");
                    ("attachments",
                     JList [JDict [("exportedFileName", JStr "a.png")]])]]
            (JDict [("testIdentifier", JStr "S/t");
                    ("attachments",
                     JList [JDict [("exportedFileName", JStr "b.png")]])])
            [] (JStr "S/t") eq_refl eq_refl _).
  intros later [].
Defined.

(** Attachments that are a number stop the loop. *)
Lemma manifest_raises_witness :
  exists x, Attachments.index_of_manifest numeric_attachments_manifest = Raise x.
Proof.
  apply (proj2 (manifest_raises_iff numeric_attachments_manifest)).
  right.
  exists [JDict [("testIdentifier", JStr "S/t"); ("attachments", JInt 3)]],
         (JDict [("testIdentifier", JStr "S/t"); ("attachments", JInt 3)]).
  split; [reflexivity | split; [now left | reflexivity]].
Defined.

(** ** The web server *)

(** Scenario A on the server: a redirect to the report, the tree given
    removed. *)
Lemma generate_report_witness :
  snd (@Server._generate_report _ plain_world with_weasyprint
         (temp_server (Server.Unpacked unpacked_bundle))
         unpacked_bundle "XCTest Summary" false
         (Some ["tmp"; "xcresult_server_uploads"; "job1"]))
  = Server.Redirect (Server.Report "0123456789ab")
  /\ Server.removed
       (fst (@Server._generate_report _ plain_world with_weasyprint
               (temp_server (Server.Unpacked unpacked_bundle))
               unpacked_bundle "XCTest Summary" false
               (Some ["tmp"; "xcresult_server_uploads"; "job1"])))
     = [["tmp"; "xcresult_server_uploads"; "job1"]].
Proof.
  destruct (@generate_report_outcome _ plain_world with_weasyprint
              (temp_server (Server.Unpacked unpacked_bundle))
              unpacked_bundle "XCTest Summary" false
              (Some ["tmp"; "xcresult_server_uploads"; "job1"])
              (fst (@Server._generate_report _ plain_world with_weasyprint
                      (temp_server (Server.Unpacked unpacked_bundle))
                      unpacked_bundle "XCTest Summary" false
                      (Some ["tmp"; "xcresult_server_uploads"; "job1"])))
              (snd (@Server._generate_report _ plain_world with_weasyprint
                      (temp_server (Server.Unpacked unpacked_bundle))
                      unpacked_bundle "XCTest Summary" false
                      (Some ["tmp"; "xcresult_server_uploads"; "job1"])))
              eq_refl)
    as (Hr & _ & _ & [(e & He & _) | (c & dbg & text & html & _ & Hresp & _)]).
  - discriminate He.
  - split; [exact Hresp | exact Hr].
Defined.

(** A bundle given by its path is not removed, and the path of a user
    without home directory makes [upload] raise. *)
Lemma upload_local_path_witness :
  Server.removed
    (fst (@Server.upload _ plain_world with_weasyprint
            (temp_server (Server.Unpacked unpacked_bundle)) path_request)) = []
  /\ snd (@Server.upload _ plain_world with_weasyprint
            (temp_server (Server.Unpacked unpacked_bundle)) nobody_request)
     = Raise (RuntimeError "Could not determine home directory.").
Proof.
  split.
  - exact (proj1 (proj2 (@upload_local_path _ plain_world with_weasyprint
                           (temp_server (Server.Unpacked unpacked_bundle))
                           path_request) eq_refl)).
  - apply (proj2 (@upload_local_path _ plain_world with_weasyprint
                    (temp_server (Server.Unpacked unpacked_bundle))
                    nobody_request) eq_refl).
    split; [discriminate | left; reflexivity].
Defined.

(** After an upload the whole directory of the job is removed. *)
Lemma upload_removes_witness :
  Server.removed
    (fst (@Server.upload _ plain_world with_weasyprint
            (temp_server (Server.Unpacked unpacked_bundle)) zip_request))
  = [["tmp"; "xcresult_server_uploads"; "job1"]].
Proof.
  exact (proj1 (proj2 (@upload_removes_job_directory _ plain_world
                         with_weasyprint
                         (temp_server (Server.Unpacked unpacked_bundle))
                         zip_request eq_refl eq_refl))
           "job1" ["extracted"; "Run.xcresult"] eq_refl).
Defined.

(** ** The window *)

(** With three reports in the directory the window writes a fourth. *)
Lemma window_witness :
  exists out_path,
    @_next_available_report_path three_reports 5 "out/report.html"
    = Some out_path
    /\ @path_exists three_reports out_path = false.
Proof.
  destruct (@window_never_overwrites _ plain_world with_weasyprint three_reports
              5%nat report_fields
              (match @Gui._generate_html _ plain_world with_weasyprint
                       three_reports 5%nat report_fields with
               | Some trace => trace
               | None => []
               end) eq_refl) as [_ H].
  destruct (H eq_refl) as (out & Hn & Hfree & _).
  exists out. split; [exact Hn | exact Hfree].
Defined.

(** ** Wrappers and details *)

(** Scenario A as the second item of a list, after a dictionary without
    counts. *)
Lemma wrapping_witness :
  extract_counts (JList [JDict [("note", JStr "x")]; scenario_A; scenario_B])
  = extract_counts scenario_A.
Proof.
  refine (proj2 (proj2 (wrapping_keeps_counts scenario_A))
            [JDict [("note", JStr "x")]] [scenario_B] _ _).
  - intros v n [<- | []] [<- | []]. reflexivity.
  - exists scenario_A. split; [now left | discriminate].
Defined.

(** The record of scenario E is rendered, with the screenshots of the
    manifest that lists [S/t] twice. *)
Lemma extracted_details_witness :
  exists html,
    Indexed.build_html 0 1 0 "r.xcresult" "XCTest Summary"
      (Some [failed_record "testFoo" "SuiteA/testFoo" "" "expected true"])
      (Some "r_screenshots") (Some twice_listed_index) = Ok html.
Proof.
  refine (extracted_details_render
            [("testFailures",
              JList [JDict [("testName", JStr "testFoo");
                            ("testIdentifierString", JStr "SuiteA/testFoo");
                            ("failureText", JStr "expected true")]])]
            [JDict [("testName", JStr "testFoo");
                    ("testIdentifierString", JStr "SuiteA/testFoo");
                    ("failureText", JStr "expected true")]]
            (Some [failed_record "testFoo" "SuiteA/testFoo" "" "expected true"])
            0 1 0 "r.xcresult" "XCTest Summary"
            (Some "r_screenshots") (Some twice_listed_index)
            eq_refl _ _ eq_refl).
  - intros e [[= <-] | []]. split; discriminate.
  - intros idx H. apply Some_inj in H. subst idx.
    intros key names [[= <- _] | [[= <- _] | []]]; reflexivity.
Defined.

(** ** The export *)

(** The export that leaves the manifest with [S/t] twice returns the
    directory and a well-formed index. *)
Lemma export_result_witness :
  snd (@Attachments._export_attachments plain_world three_reports listing_twice
         "r.xcresult" "out/report.html")
  = Ok (Some "report_screenshots", Some twice_listed_index)
  /\ Attachments.filled twice_listed_index
  /\ Attachments.distinct_keys twice_listed_index.
Proof.
  assert (E : snd (@Attachments._export_attachments plain_world three_reports
                     listing_twice "r.xcresult" "out/report.html")
              = Ok (Some "report_screenshots", Some twice_listed_index))
    by reflexivity.
  split; [exact E|].
  pose proof (@export_result_cases plain_world three_reports listing_twice
                "r.xcresult" "out/report.html") as H.
  cbv zeta in H. rewrite E in H. unfold twice_listed_index in H.
  destruct H as (_ & _ & F & D & _). split; [exact F | exact D].
Defined.
